(** * Simple expense analyzer: the CSV normalisation pipeline, privacy
    masking and the persistence boundary, embedded from
    [src/utils/csvParser.ts], [src/utils/privacy.ts], [src/utils/storage.ts]
    and [src/types].

    JavaScript strings are sequences of UTF-16 code units, numbers are IEEE
    doubles, [Date] objects carry a time value in milliseconds or NaN.  The
    third-party libraries the code calls (PapaParse, date-fns) and the
    Unicode case tables of the engine are parameters of the development,
    gathered in the record [Libs]; a reference instance that runs is given
    for concrete inputs. *)

From Stdlib Require Import ZArith NArith Lia Bool List String Ascii DecimalString.
From Stdlib Require Import Floats.PrimFloat Floats.SpecFloat Floats.FloatOps.
From stdpp Require Import base list sorting.

Set Warnings "-register-all,-inexact-float".
Local Open Scope N_scope.

(** ** JavaScript strings *)

Module JS.

(** A string value: its UTF-16 code units. *)
Definition JSString := list N.

(** Code units of a source literal, which Rocq holds as UTF-8 bytes. *)
Fixpoint utf16_of_bytes (l : list N) : JSString :=
  match l with
  | [] => []
  | b :: r =>
      if b <? 128 then b :: utf16_of_bytes r
      else if b <? 224 then
        match r with
        | c1 :: r' => ((b mod 32) * 64 + c1 mod 64) :: utf16_of_bytes r'
        | _ => []
        end
      else if b <? 240 then
        match r with
        | c1 :: c2 :: r' =>
            ((b mod 16) * 4096 + (c1 mod 64) * 64 + c2 mod 64) :: utf16_of_bytes r'
        | _ => []
        end
      else
        match r with
        | c1 :: c2 :: c3 :: r' =>
            let cp := (b mod 8) * 262144 + (c1 mod 64) * 4096
                      + (c2 mod 64) * 64 + c3 mod 64 in
            let v := cp - 65536 in
            (55296 + v / 1024) :: (56320 + v mod 1024) :: utf16_of_bytes r'
        | _ => []
        end
  end.

Definition utf16 (s : string) : JSString :=
  utf16_of_bytes (List.map N_of_ascii (list_ascii_of_string s)).

(** [a === b] on strings *)
Fixpoint str_eqb (a b : JSString) : bool :=
  match a, b with
  | [], [] => true
  | c :: a', d :: b' => (c =? d) && str_eqb a' b'
  | _, _ => false
  end.

(** [s.startsWith(p)] *)
Fixpoint startsWith (s p : JSString) : bool :=
  match p, s with
  | [], _ => true
  | _ :: _, [] => false
  | c :: p', d :: s' => (c =? d) && startsWith s' p'
  end.

(** [s.includes(sub)] *)
Fixpoint includes (s sub : JSString) : bool :=
  startsWith s sub ||
  match s with
  | [] => false
  | _ :: s' => includes s' sub
  end.

(** WhiteSpace and LineTerminator code units: what [trim] removes and what
    the regular expression class [\s] matches. *)
Definition isWhiteSpace (c : N) : bool :=
  (c =? 9) || (c =? 10) || (c =? 11) || (c =? 12) || (c =? 13) || (c =? 32)
  || (c =? 160) || (c =? 5760) || ((8192 <=? c) && (c <=? 8202))
  || (c =? 8232) || (c =? 8233) || (c =? 8239) || (c =? 8287)
  || (c =? 12288) || (c =? 65279).

Fixpoint trimStart (s : JSString) : JSString :=
  match s with
  | c :: s' => if isWhiteSpace c then trimStart s' else s
  | [] => []
  end.

Definition trimEnd (s : JSString) : JSString := rev (trimStart (rev s)).

(** [s.trim()] *)
Definition trim (s : JSString) : JSString := trimEnd (trimStart s).

(** [s.split(sep)] for a one-unit separator: never the empty array. *)
Fixpoint split (sep : N) (s : JSString) : list JSString :=
  match s with
  | [] => [[]]
  | c :: s' =>
      if c =? sep then [] :: split sep s'
      else match split sep s' with
           | w :: ws => (c :: w) :: ws
           | [] => [[c]]
           end
  end.

(** [a.join(sep)] for a one-unit separator. *)
Fixpoint join (sep : N) (a : list JSString) : JSString :=
  match a with
  | [] => []
  | [w] => w
  | w :: ws => w ++ sep :: join sep ws
  end.

(** [s.replace(/\s/g, '')] *)
Definition removeWhiteSpace (s : JSString) : JSString :=
  List.filter (fun c => negb (isWhiteSpace c)) s.

(** [s.replace(a, b)] with one-unit string patterns: the first occurrence
    only. *)
Fixpoint replaceFirst (a b : N) (s : JSString) : JSString :=
  match s with
  | [] => []
  | c :: s' => if c =? a then b :: s' else c :: replaceFirst a b s'
  end.

(** [s.replace(/^\uFEFF/, '')]: one leading byte-order mark is dropped. *)
Definition stripBOM (s : JSString) : JSString :=
  match s with
  | c :: s' => if c =? 65279 then s' else s
  | [] => []
  end.

(** [a.findIndex(p)]: the index of the first element accepted, or -1. *)
Fixpoint findIndex {A} (p : A -> bool) (a : list A) : Z :=
  match a with
  | [] => (-1)%Z
  | x :: a' =>
      if p x then 0%Z
      else let i := findIndex p a' in
           if (i <? 0)%Z then (-1)%Z else (i + 1)%Z
  end.

(** [a.some(p)] *)
Definition some {A} (p : A -> bool) (a : list A) : bool := existsb p a.

(** [a.slice(start)] for a start that is not negative *)
Definition sliceFrom {A} (start : Z) (a : list A) : list A :=
  drop (Z.to_nat start) a.

(** [a.slice(0, n)] *)
Definition sliceTo {A} (n : nat) (a : list A) : list A := take n a.

(** A literal that holds its text between two double quotes. *)
Definition quoted (s : JSString) : JSString := 34 :: s ++ [34].

(** [x ?? y] where both sides may be undefined *)
Definition nullish {A} (x y : option A) : option A :=
  match x with
  | Some v => Some v
  | None => y
  end.

(** [a.sort(cmp)]: the sort is stable, and any stable sort returns the same
    array for a consistent comparator; [cmp] is the sign-carrying result of
    the comparator, a NaN counted as +0 as the language has it. *)
Fixpoint insertBy {A} (cmp : A -> A -> Z) (x : A) (l : list A) : list A :=
  match l with
  | [] => [x]
  | y :: l' => if (cmp x y <=? 0)%Z then x :: l else y :: insertBy cmp x l'
  end.

Definition Array_sort {A} (cmp : A -> A -> Z) (l : list A) : list A :=
  foldr (insertBy cmp) [] l.

(** *** Numbers *)

(** [String(i)] for an index or a length *)
Definition decimal (i : nat) : JSString :=
  utf16 (NilZero.string_of_uint (Nat.to_uint i)).

Definition isDigit (c : N) : bool := (48 <=? c) && (c <=? 57).

Fixpoint spanDigits (s : JSString) : JSString * JSString :=
  match s with
  | c :: s' =>
      if isDigit c then let '(d, r) := spanDigits s' in (c :: d, r)
      else ([], s)
  | [] => ([], [])
  end.

Definition digitsValue (d : JSString) : Z :=
  fold_left (fun acc c => (acc * 10 + Z.of_N (c - 48))%Z) d 0%Z.

(** The double nearest to [m * 10 ^ e], ties to even.  Far beyond the range
    of doubles the result is infinity or zero without computing the power;
    otherwise the quotient is taken with 1200 extra bits and a sticky bit,
    then rounded once. *)
Definition decimalToDouble (neg : bool) (m e : Z) : float :=
  let signed (f : float) := if neg then (- f)%float else f in
  (if m =? 0 then signed zero
   else if 1240 <? Z.log2 m + 4 * e then signed infinity
   else if Z.log2 m + 1 + 3 * e <? -975 then signed zero
   else if 0 <=? e then
     signed (SF2Prim (binary_normalize prec emax (m * 10 ^ e) 0 false))
   else
     let p := 10 ^ (- e) in
     let s := Z.log2 p + 1200 in
     let q := Z.shiftl m s / p in
     let sticky := if Z.shiftl m s mod p =? 0 then 0 else 1 in
     signed (SF2Prim (binary_normalize prec emax (2 * q + sticky) (- s - 1) false)))%Z.

(** The exponent part of a decimal literal, when one is there. *)
Definition exponentPart (s : JSString) : Z :=
  match s with
  | c :: s' =>
      if (c =? 101) || (c =? 69) then
        match s' with
        | sg :: s'' =>
            if isDigit sg then digitsValue (fst (spanDigits s'))
            else if (sg =? 43) then digitsValue (fst (spanDigits s''))
            else if (sg =? 45) then (- digitsValue (fst (spanDigits s'')))%Z
            else 0%Z
        | [] => 0%Z
        end
      else 0%Z
  | [] => 0%Z
  end.

Definition parseUnsigned (neg : bool) (s : JSString) : float :=
  let signed (f : float) := if neg then (- f)%float else f in
  if startsWith s (utf16 "Infinity") then signed infinity
  else
    let '(ip, r) := spanDigits s in
    let '(fp, r') :=
      match r with
      | c :: r1 => if c =? 46 then spanDigits r1 else ([], r)
      | [] => ([], r)
      end in
    match ip ++ fp with
    | [] => nan
    | ds => decimalToDouble neg (digitsValue ds)
              (exponentPart r' - Z.of_nat (length fp))
    end.

(** [parseFloat(s)]: the longest prefix of the trimmed string that is a
    decimal literal, NaN when there is none. *)
Definition parseFloat (s : JSString) : float :=
  match trimStart s with
  | c :: s' =>
      if c =? 45 then parseUnsigned true s'
      else if c =? 43 then parseUnsigned false s'
      else parseUnsigned false (c :: s')
  | [] => nan
  end.

Definition isNaN (x : float) : bool := is_nan x.

End JS.

Import JS.


(** ** Dates *)

(** A [Date] object: its time value, milliseconds since the epoch, or the
    Invalid Date whose time value is NaN. *)
Inductive Date :=
  | InvalidDate
  | DateAt (timeValue : Z).

(** date-fns [isValid] *)
Definition isValid (d : Date) : bool :=
  match d with
  | DateAt _ => true
  | InvalidDate => false
  end.

(** [d.getTime()]; [None] stands for NaN. *)
Definition getTime (d : Date) : option Z :=
  match d with
  | DateAt t => Some t
  | InvalidDate => None
  end.

(** ** The data model, [src/types] *)

(** The interface declares the seven text fields as strings, and the
    functions that take a [Transaction] read them as such.  What [parseCSV]
    puts there is what the parsed record holds, which is not always a string
    (see [Cell] below); [V] is the type of what the text fields hold. *)
Module Transaction.
Record t {V : Type} := mk {
  id : nat;
  date : Date;
  amount : float;
  currency : V;
  counterparty : V;
  description : V;
  category : V;
  variableSymbol : V;
  note : V;
  operationType : V;
  internal : bool;
}.
Arguments mk {V}.
End Transaction.
Abbreviation Transaction := Transaction.t.

Record DateRange := { from : Date; to : Date }.

Record ParsedData {V : Type} := {
  bankName : JSString;
  transactions : list (@Transaction V);
  dateRange : DateRange;
}.
Arguments Build_ParsedData {V}.

(** The date of a transaction is a valid one. *)
Definition validDate {V} (t : @Transaction V) : Prop :=
  isValid (Transaction.date t) = true.

(** The time value of its date (0 stands in for NaN). *)
Definition timeOf {V} (t : @Transaction V) : Z :=
  default 0%Z (getTime (Transaction.date t)).

(** ** PapaParse, as declared in [src/types/papaparse.d.ts] *)

Module Papa.
Record ParseError := {
  type : JSString;
  code : JSString;
  message : JSString;
  row : option nat;
}.

(** What a record holds under a key: the string of the cell in the column
    of that header name; or, under the key [__parsed_extra], the array of
    the cells that the line has beyond the header. *)
Inductive Cell :=
  | Text (s : JSString)
  | Extra (items : list JSString).

(** A record parsed with [header: true]: the application declares it
    [Record<string, string | undefined>], the library gives an object whose
    values are cells, the keys in the order [Object.keys] lists them; a key
    that is absent reads as [undefined]. *)
Definition Row := list (JSString * Cell).

Record ParseResult := {
  data : list Row;
  errors : list ParseError;
}.
End Papa.
Abbreviation Row := Papa.Row.
Abbreviation Cell := Papa.Cell.
Abbreviation Text := Papa.Text.
Abbreviation Extra := Papa.Extra.

(** [row[k]] *)
Fixpoint get (row : Row) (k : JSString) : option Cell :=
  match row with
  | [] => None
  | (k', v) :: row' => if str_eqb k' k then Some v else get row' k
  end.

(** [Object.keys(row)] *)
Definition keys (row : Row) : list JSString := List.map fst row.

(** ** What the code takes from its libraries and its engine *)

Record Libs := {
  (** [String.prototype.toLowerCase] *)
  toLowerCase : JSString -> JSString;
  (** the case folding of a code unit under the regular expression flag [i] *)
  canonicalize : N -> N;
  (** date-fns [parse(dateString, formatString, referenceDate)] *)
  dfns_parse : JSString -> JSString -> Date -> Date;
  (** [new Date(string)] *)
  Date_new : JSString -> Date;
  (** [Papa.parse(input, { header: true, delimiter, skipEmptyLines: true,
      transformHeader: h => h.trim() })] *)
  Papa_parse : JSString -> JSString -> Papa.ParseResult;
}.

(** A thrown [Error], by its message, or a returned value. *)
Inductive Outcome (A : Type) :=
  | Return (a : A)
  | Throw (message : JSString).
Arguments Return {A} a.
Arguments Throw {A} message.

(** ** [src/utils/csvParser.ts] *)

(** The interface declares the text fields as strings; they hold what
    the record holds, or a string literal. *)
Module MappedRow.
Record t := mk {
  date : option Date;
  amount : float;
  currency : Cell;
  counterparty : Cell;
  description : Cell;
  category : Cell;
  variableSymbol : Cell;
  note : Cell;
  operationType : Cell;
}.
End MappedRow.
Abbreviation MappedRow := MappedRow.t.

(** A format descriptor.  [map] also receives the readings of the system
    clock that its call of [parseDate] takes ([new Date()], once for each
    layout tried), and returns [None] where the JavaScript function
    throws. *)
Record BankFormat := {
  name : JSString;
  detect : list JSString -> bool;
  headerRow : list JSString -> Z;
  delimiter : JSString;
  map : (nat -> Z) -> Row -> option MappedRow;
}.

Section CsvParser.
Variable L : Libs.

(** [/a|b|c/i.test(k)] for literal alternatives *)
Definition testIgnoreCase (alternatives : list JSString) (k : JSString) : bool :=
  existsb (fun alt => includes (List.map (canonicalize L) k)
                               (List.map (canonicalize L) alt)) alternatives.

Definition parseCzechNumber (str : option JSString) : float :=
  match str with
  | None | Some [] => 0%float
  | Some str =>
      let cleaned := replaceFirst 44 46 (removeWhiteSpace str) in
      let num := parseFloat cleaned in
      if isNaN num then 0%float else num
  end.

(** [parseCzechNumber] on what a record holds: an array is truthy and its
    [typeof] is not [string], so the guard returns 0. *)
Definition parseCzechNumberCell (v : option Cell) : float :=
  match v with
  | None => parseCzechNumber None
  | Some (Text str) => parseCzechNumber (Some str)
  | Some (Extra _) => 0%float
  end.

(** The layouts tried, in order. *)
Definition layouts : list JSString :=
  [utf16 "dd.MM.yyyy"; utf16 "d.M.yyyy"; utf16 "yyyy-MM-dd"; utf16 "dd/MM/yyyy"].

(** [refs k] is the reading of the clock passed as reference date to the
    attempt number [k]. *)
Definition parseDate (refs : nat -> Z) (str : option JSString) : option Date :=
  match str with
  | None | Some [] => None
  | Some str =>
      let trimmed := trim str in
      let d := dfns_parse L trimmed (utf16 "dd.MM.yyyy") (DateAt (refs 0%nat)) in
      if isValid d then Some d else
      let d := dfns_parse L trimmed (utf16 "d.M.yyyy") (DateAt (refs 1%nat)) in
      if isValid d then Some d else
      let d := dfns_parse L trimmed (utf16 "yyyy-MM-dd") (DateAt (refs 2%nat)) in
      if isValid d then Some d else
      let d := dfns_parse L trimmed (utf16 "dd/MM/yyyy") (DateAt (refs 3%nat)) in
      if isValid d then Some d else
      let d := Date_new L trimmed in
      if isValid d then Some d else None
  end.

(** [parseDate] on what a record holds.  An array passes the guard, being
    truthy also where it is empty, and [String(str)] joins its elements with
    commas; the attempts then run on that string, trimmed. *)
Definition parseDateCell (refs : nat -> Z) (v : option Cell) : option Date :=
  match v with
  | None => parseDate refs None
  | Some (Text str) => parseDate refs (Some str)
  | Some (Extra items) =>
      let trimmed := trim (join 44 items) in
      let d := dfns_parse L trimmed (utf16 "dd.MM.yyyy") (DateAt (refs 0%nat)) in
      if isValid d then Some d else
      let d := dfns_parse L trimmed (utf16 "d.M.yyyy") (DateAt (refs 1%nat)) in
      if isValid d then Some d else
      let d := dfns_parse L trimmed (utf16 "yyyy-MM-dd") (DateAt (refs 2%nat)) in
      if isValid d then Some d else
      let d := dfns_parse L trimmed (utf16 "dd/MM/yyyy") (DateAt (refs 3%nat)) in
      if isValid d then Some d else
      let d := Date_new L trimmed in
      if isValid d then Some d else None
  end.

Record Rule := { keywords : list JSString; rule_category : JSString }.

Definition rules : list Rule :=
  [ {| keywords := List.map utf16 ["rohlik"; "albert"; "billa"; "tesco"; "lidl";
         "kaufland"; "penny"; "potraviny"; "coop"; "globus"; "bakehouse";
         "pekarna"; "pekárna"]%string;
       rule_category := utf16 "Potraviny" |};
    {| keywords := List.map utf16 ["restaura"; "mcdonald"; "burger"; "kfc"; "pizza";
         "foodora"; "wolt"; "bolt food"; "starbucks"; "costa"]%string;
       rule_category := utf16 "Restaurace" |};
    {| keywords := List.map utf16 ["benzin"; "orlen"; "mol"; "shell"; "eni";
         "čerpací"; "tank"; "fuel"]%string;
       rule_category := utf16 "Tankování" |};
    {| keywords := List.map utf16 ["čez"; "cez"; "energie"; "eon";
         "pražská plynárenská"; "innogy"; "plyn"]%string;
       rule_category := utf16 "Energie" |};
    {| keywords := List.map utf16 ["t-mobile"; "vodafone"; "o2"; "upc"; "netflix";
         "spotify"; "hbo"; "nova"; "internet"]%string;
       rule_category := utf16 "TV, internet, telefon" |};
    {| keywords := List.map utf16 ["ikea"; "hornbach"; "obi"; "bauhaus"; "baumax";
         "jysk"]%string;
       rule_category := utf16 "Vybavení domácnosti" |};
    {| keywords := List.map utf16 ["nájem"; "najem"; "hypot"]%string;
       rule_category := utf16 "Provoz domácnosti" |};
    {| keywords := List.map utf16 ["leasing"; "splátk"; "spláce"; "úvěr"]%string;
       rule_category := utf16 "Splátky" |};
    {| keywords := List.map utf16 ["vlak"; "bus"; "jízden"; "uber"; "liftago";
         "easyjet"; "ryanair"; "letušk"]%string;
       rule_category := utf16 "Doprava" |};
    {| keywords := List.map utf16 ["lékárna"; "lekarna"; "doktor"; "nemocni";
         "zdraví"; "clinic"]%string;
       rule_category := utf16 "Zdraví" |};
    {| keywords := List.map utf16 ["kino"; "cinema"; "divadlo"; "koncert";
         "festival"; "vstupné"]%string;
       rule_category := utf16 "Zábava" |};
    {| keywords := List.map utf16 ["apple.com"; "google"; "amazon"; "alza"; "czc";
         "mall.cz"; "notino"]%string;
       rule_category := utf16 "Nákupy a služby" |} ].

(** The loop of [guessCategory] over the rules that are left. *)
Fixpoint firstRule (desc : JSString) (rs : list Rule) : JSString :=
  match rs with
  | [] => utf16 "Ostatní"
  | rule :: rs' =>
      if some (fun kw => includes desc kw) (keywords rule)
      then rule_category rule
      else firstRule desc rs'
  end.

Definition guessCategory (description : JSString) : JSString :=
  let desc := toLowerCase L description in
  firstRule desc rules.

(** [guessCategory] on what a record holds: an array has no
    [toLowerCase], so the first statement throws a TypeError; [None] is the
    throw. *)
Definition guessCategoryCell (description : Cell) : option JSString :=
  match description with
  | Text description => Some (guessCategory description)
  | Extra _ => None
  end.

(** *** The registry of formats *)

(** [x || d] on what a record holds: [undefined] and the empty string are
    falsy, an array is not. *)
Definition cellOr (x : option Cell) (d : Cell) : Cell :=
  match x with
  | None | Some (Text []) => d
  | Some v => v
  end.

Definition csob : BankFormat := {|
  name := utf16 "ČSOB";
  detect := fun firstLines =>
    some (fun l => includes l (utf16 "Pohyby na účtu") && includes l (utf16 "/0300"))
         firstLines;
  headerRow := fun lines =>
    findIndex (fun l => startsWith l (utf16 "číslo účtu;")) lines;
  delimiter := utf16 ";";
  map := fun refs row => Some {|
    MappedRow.date := parseDateCell refs (get row (utf16 "datum zaúčtování"));
    MappedRow.amount := parseCzechNumberCell (get row (utf16 "částka"));
    MappedRow.currency := cellOr (get row (utf16 "měna")) (Text (utf16 "CZK"));
    MappedRow.counterparty := cellOr (get row (utf16 "jméno protistrany")) (Text []);
    MappedRow.description :=
      cellOr (get row (utf16 "zpráva"))
             (cellOr (get row (utf16 "označení operace")) (Text []));
    MappedRow.category := cellOr (get row (utf16 "kategorie")) (Text (utf16 "Ostatní"));
    MappedRow.variableSymbol := cellOr (get row (utf16 "variabilní symbol")) (Text []);
    MappedRow.note := cellOr (get row (utf16 "vlastní poznámka")) (Text []);
    MappedRow.operationType := cellOr (get row (utf16 "označení operace")) (Text []);
  |};
|}.

(** [row[key ?? ''] ?? dflt] *)
Definition at_key (row : Row) (key : option JSString) (dflt : JSString) : Cell :=
  default (Text dflt) (get row (default [] key)).

(** [row[catKey ?? ''] ?? guessCategory(row[descKey ?? ''] ?? '')]; [None]
    where [guessCategory] throws. *)
Definition category_of (row : Row) (catKey descKey : option JSString) : option Cell :=
  match get row (default [] catKey) with
  | Some c => Some c
  | None => Text <$> guessCategoryCell (at_key row descKey [])
  end.

(** The object literal that the [map] of Moneta, of KB and of the generic
    format returns; its properties are evaluated in order, and the one of
    them that can throw is [category]. *)
Definition bankRow (date : option Date) (amount : float)
           (currency counterparty description : Cell) (category : option Cell)
           (variableSymbol : Cell) : option MappedRow :=
  match category with
  | None => None
  | Some category =>
      Some {|
        MappedRow.date := date;
        MappedRow.amount := amount;
        MappedRow.currency := currency;
        MappedRow.counterparty := counterparty;
        MappedRow.description := description;
        MappedRow.category := category;
        MappedRow.variableSymbol := variableSymbol;
        MappedRow.note := Text [];
        MappedRow.operationType := Text [];
      |}
  end.

Definition moneta : BankFormat := {|
  name := utf16 "Moneta";
  detect := fun firstLines =>
    some (fun l => includes l (utf16 "Moneta")
                   || (includes l (quoted (utf16 "Číslo účtu"))
                       && includes l (quoted (utf16 "Datum"))))
         firstLines
    || some (fun l => includes l (utf16 "Číslo účtu")
                      && includes l (utf16 "Částka")
                      && includes l (utf16 "Popis transakce"))
            firstLines;
  headerRow := fun lines =>
    findIndex (fun l => includes l (utf16 "Číslo účtu") && includes l (utf16 "Částka"))
              lines;
  delimiter := utf16 ";";
  map := fun refs row =>
    let dateKey := find (fun k => includes k (utf16 "Datum")) (keys row) in
    let amountKey := find (fun k => includes k (utf16 "Částka")) (keys row) in
    let descKey :=
      find (fun k => includes k (utf16 "Popis") || includes k (utf16 "zpráva")
                     || includes k (utf16 "Zpráva")) (keys row) in
    let counterKey :=
      find (fun k => includes k (utf16 "protistrany") || includes k (utf16 "Příjemce")
                     || includes k (utf16 "Plátce")) (keys row) in
    let catKey :=
      find (fun k => includes k (utf16 "Kategorie") || includes k (utf16 "kategorie"))
           (keys row) in
    bankRow
      (parseDateCell refs (Some (at_key row dateKey [])))
      (parseCzechNumberCell (Some (at_key row amountKey (utf16 "0"))))
      (default (Text (utf16 "CZK")) (get row (utf16 "Měna")))
      (at_key row counterKey [])
      (at_key row descKey [])
      (category_of row catKey descKey)
      (default (Text []) (get row (utf16 "Variabilní symbol")));
|}.

Definition kb : BankFormat := {|
  name := utf16 "Komerční banka";
  detect := fun firstLines =>
    some (fun l => includes l (utf16 "Datum splatnosti")
                   || (includes l (utf16 "Datum") && includes l (utf16 "Objem")
                       && includes l (utf16 "Měna")))
         firstLines;
  headerRow := fun lines =>
    findIndex (fun l => (includes l (utf16 "Datum") && includes l (utf16 "Objem"))
                        || (includes l (utf16 "Datum") && includes l (utf16 "Částka")))
              lines;
  delimiter := utf16 ";";
  map := fun refs row =>
    let dateKey :=
      nullish
        (find (fun k => includes k (utf16 "Datum") && negb (includes k (utf16 "splatnosti")))
              (keys row))
        (find (fun k => includes k (utf16 "Datum")) (keys row)) in
    let amountKey :=
      find (fun k => includes k (utf16 "Částka") || includes k (utf16 "Objem")) (keys row) in
    let descKey :=
      find (fun k => includes k (utf16 "Popis") || includes k (utf16 "Poznámka")
                     || includes k (utf16 "AV pole")) (keys row) in
    let counterKey :=
      find (fun k => includes k (utf16 "Název protiúčtu") || includes k (utf16 "Protiúčet"))
           (keys row) in
    let catKey :=
      find (fun k => includes k (utf16 "Kategorie") || includes k (utf16 "kategorie"))
           (keys row) in
    bankRow
      (parseDateCell refs (Some (at_key row dateKey [])))
      (parseCzechNumberCell (Some (at_key row amountKey (utf16 "0"))))
      (default (Text (utf16 "CZK")) (get row (utf16 "Měna")))
      (at_key row counterKey [])
      (at_key row descKey [])
      (category_of row catKey descKey)
      (default (Text [])
         (nullish (get row (utf16 "Variabilní symbol")) (get row (utf16 "VS"))));
|}.

Definition generic : BankFormat := {|
  name := utf16 "Generic CSV";
  detect := fun _ => true;
  headerRow := fun lines =>
    findIndex
      (fun l =>
         (includes (toLowerCase L l) (utf16 "date")
          || includes (toLowerCase L l) (utf16 "datum"))
         && (includes (toLowerCase L l) (utf16 "amount")
             || includes (toLowerCase L l) (utf16 "částka")
             || includes (toLowerCase L l) (utf16 "castka")))
      lines;
  delimiter := utf16 ";";
  map := fun refs row =>
    let keys := keys row in
    let dateKey :=
      nullish (find (testIgnoreCase (List.map utf16 ["datum"; "date"]%string)) keys)
              (keys !! 0%nat) in
    let amountKey :=
      nullish (find (testIgnoreCase
                       (List.map utf16 ["částka"; "castka"; "amount"; "suma"; "objem"]%string))
                    keys)
              (keys !! 1%nat) in
    let descKey :=
      nullish (find (testIgnoreCase
                       (List.map utf16 ["popis"; "desc"; "zpráva"; "message"; "pozn"]%string))
                    keys)
              (keys !! 2%nat) in
    let catKey :=
      find (testIgnoreCase (List.map utf16 ["kategorie"; "category"]%string)) keys in
    bankRow
      (parseDateCell refs (Some (at_key row dateKey [])))
      (parseCzechNumberCell (Some (at_key row amountKey (utf16 "0"))))
      (Text (utf16 "CZK"))
      (Text [])
      (at_key row descKey [])
      (category_of row catKey descKey)
      (Text []);
|}.

(** [Object.entries(BANK_FORMATS)]: the keys are not array indices, so the
    entries come in the order the object literal declares them. *)
Definition BANK_FORMATS : list (JSString * BankFormat) :=
  [ (utf16 "csob", csob); (utf16 "moneta", moneta); (utf16 "kb", kb);
    (utf16 "generic", generic) ].
(** *** The pipeline *)

Definition msgHeaderNotFound : JSString :=
  utf16 "Could not find the header row in the CSV. Please make sure the file is a valid bank export.".

Definition msgParsingError (message : JSString) : JSString :=
  utf16 "CSV parsing error: " ++ message.

Definition msgNoValidTransactions : JSString :=
  utf16 "No valid transactions found. Please check if the CSV format is supported.".

(** The message of reading [.date] or [.message] of [undefined]; no run
    reaches it. *)
Definition msgTypeError : JSString :=
  utf16 "Cannot read properties of undefined".

(** The loop over the entries, which passes over the key [generic]. *)
Fixpoint detectLoop (entries : list (JSString * BankFormat))
         (firstLines : list JSString) : option BankFormat :=
  match entries with
  | [] => None
  | (key, fmt) :: rest =>
      if str_eqb key (utf16 "generic") then detectLoop rest firstLines
      else if detect fmt firstLines then Some fmt
      else detectLoop rest firstLines
  end.

Definition selectFormat (firstLines : list JSString) : BankFormat :=
  match detectLoop BANK_FORMATS firstLines with
  | Some fmt => fmt
  | None => generic
  end.

(** The callback of [result.data.map]: [None] is its [null], returned for
    a null date, a zero amount, and from its [catch] where [format.map]
    throws. *)
Definition mapRecord (format : BankFormat) (refs : nat -> Z) (index : nat)
           (row : Row) : option (@Transaction Cell) :=
  match map format refs row with
  | None => None
  | Some mapped =>
      match MappedRow.date mapped with
      | None => None
      | Some d =>
          if (MappedRow.amount mapped =? 0)%float then None
          else Some {|
            Transaction.id := index;
            Transaction.date := d;
            Transaction.amount := MappedRow.amount mapped;
            Transaction.currency := MappedRow.currency mapped;
            Transaction.counterparty := MappedRow.counterparty mapped;
            Transaction.description := MappedRow.description mapped;
            Transaction.category := MappedRow.category mapped;
            Transaction.variableSymbol := MappedRow.variableSymbol mapped;
            Transaction.note := MappedRow.note mapped;
            Transaction.operationType := MappedRow.operationType mapped;
            Transaction.internal := false;
          |}
      end
  end.

(** [(a, b) => b.date.getTime() - a.date.getTime()].  Time values are
    integers below 2^53 in magnitude, so the sign of the double difference
    is the sign of the exact one. *)
Definition byDateDescending {V} (a b : @Transaction V) : Z :=
  match getTime (Transaction.date b), getTime (Transaction.date a) with
  | Some tb, Some ta => (tb - ta)%Z
  | _, _ => 0%Z
  end.

Definition setId {V} (i : nat) (t : @Transaction V) : @Transaction V :=
  {| Transaction.id := i;
     Transaction.date := Transaction.date t;
     Transaction.amount := Transaction.amount t;
     Transaction.currency := Transaction.currency t;
     Transaction.counterparty := Transaction.counterparty t;
     Transaction.description := Transaction.description t;
     Transaction.category := Transaction.category t;
     Transaction.variableSymbol := Transaction.variableSymbol t;
     Transaction.note := Transaction.note t;
     Transaction.operationType := Transaction.operationType t;
     Transaction.internal := Transaction.internal t |}.

Definition isCritical (e : Papa.ParseError) : bool :=
  negb (str_eqb (Papa.type e) (utf16 "FieldMismatch")).

(** The records that survive the mapping, in source order. *)
Definition keptRecords (format : BankFormat) (clock : nat -> nat -> Z)
           (data : list Row) : list (@Transaction Cell) :=
  omap (fun x => x) (imap (fun index row => mapRecord format (clock index) index row) data).

(** The pipeline from the header search on, for the format selected;
    [clock index k] is the reading of the system clock taken for attempt
    [k] on the date of record [index]. *)
Definition parseSelected (format : BankFormat) (clock : nat -> nat -> Z)
           (lines : list JSString) : Outcome (@ParsedData Cell) :=
  let headerIdx := headerRow format lines in
  if (headerIdx <? 0)%Z then Throw msgHeaderNotFound else
  let csvContent := join 10 (sliceFrom headerIdx lines) in
  let result := Papa_parse L csvContent (delimiter format) in
  let criticalErrors := List.filter isCritical (Papa.errors result) in
  match
    (if (0 <? length (Papa.errors result))%nat then
       match criticalErrors, Papa.data result with
       | e :: _, [] => Some (msgParsingError (Papa.message e))
       | _, _ => None
       end
     else None)
  with
  | Some message => Throw message
  | None =>
      let transactions := keptRecords format clock (Papa.data result) in
      if (length transactions =? 0)%nat then Throw msgNoValidTransactions else
      let transactions := Array_sort byDateDescending transactions in
      let transactions := imap setId transactions in
      match last transactions, transactions with
      | Some oldest, newest :: _ =>
          Return {|
            bankName := name format;
            transactions := transactions;
            dateRange := {| from := Transaction.date oldest;
                            to := Transaction.date newest |};
          |}
      | _, _ => Throw msgTypeError
      end
  end.

(** The trimmed lines of the file, the byte-order mark dropped. *)
Definition linesOf (fileContent : JSString) : list JSString :=
  let content := stripBOM fileContent in
  List.map trim (split 10 content).

Definition parseCSV (clock : nat -> nat -> Z) (fileContent : JSString)
  : Outcome (@ParsedData Cell) :=
  let lines := linesOf fileContent in
  let firstLines := sliceTo 10 lines in
  let format := selectFormat firstLines in
  parseSelected format clock lines.

(** *** Notions the statements below use *)

(** The attempts of [parseDate] on a trimmed string, as the
    specification lists them: the four layouts in order, then the
    free-form constructor. *)
Definition dateAttempts (refs : nat -> Z) (trimmed : JSString) : list Date :=
  imap (fun k layout => dfns_parse L trimmed layout (DateAt (refs k))) layouts
  ++ [Date_new L trimmed].

(** A rule matches a lower-cased description. *)
Definition ruleMatches (desc : JSString) (rule : Rule) : bool :=
  some (fun kw => includes desc kw) (keywords rule).

Definition formatOf (fileContent : JSString) : BankFormat :=
  selectFormat (sliceTo 10 (linesOf fileContent)).

Definition headerLocated (fileContent : JSString) : Prop :=
  (0 <= headerRow (formatOf fileContent) (linesOf fileContent))%Z.

(** What PapaParse returns for the file, its header located. *)
Definition parsedOf (fileContent : JSString) : Papa.ParseResult :=
  let lines := linesOf fileContent in
  let format := formatOf fileContent in
  Papa_parse L (join 10 (sliceFrom (headerRow format lines) lines)) (delimiter format).

(** Every record is filtered out: its date is null, its amount is zero,
    or mapping it threw. *)
Definition everyRecordDropped (clock : nat -> nat -> Z) (fileContent : JSString) : Prop :=
  forall index row,
    Papa.data (parsedOf fileContent) !! index = Some row ->
    mapRecord (formatOf fileContent) (clock index) index row = None.

(** The delimited parse failed critically: an error other than a field
    mismatch, and no record. *)
Definition criticalFailure (fileContent : JSString) : Prop :=
  List.filter isCritical (Papa.errors (parsedOf fileContent)) <> []
  /\ Papa.data (parsedOf fileContent) = [].

(** The layouts give the same date whatever valid reference date they
    are handed. *)
Definition layoutsIgnoreReference : Prop :=
  forall dateString layout r1 r2,
    In layout layouts ->
    dfns_parse L dateString layout (DateAt r1) = dfns_parse L dateString layout (DateAt r2).
End CsvParser.

(** ** The local storage of the browser

    A key-value store.  Every access throws when the store is denied to the
    page; a write also throws when the quota is exhausted. *)

Module LocalStorage.

Inductive Access (A : Type) :=
  | Throws
  | Returns (a : A).
Arguments Throws {A}.
Arguments Returns {A} a.

Record t := {
  items : list (JSString * JSString);
  denied : bool;
  full : bool;
}.

Fixpoint lookup (items : list (JSString * JSString)) (key : JSString) : option JSString :=
  match items with
  | [] => None
  | (k, v) :: rest => if str_eqb k key then Some v else lookup rest key
  end.

Definition without (key : JSString) (items : list (JSString * JSString))
  : list (JSString * JSString) :=
  List.filter (fun kv => negb (str_eqb (fst kv) key)) items.

(** [localStorage.getItem(key)]; [None] is [null]. *)
Definition getItem (s : t) (key : JSString) : Access (option JSString) :=
  if denied s then Throws else Returns (lookup (items s) key).

(** [localStorage.setItem(key, value)] *)
Definition setItem (s : t) (key value : JSString) : Access t :=
  if denied s || full s then Throws
  else Returns {| items := (key, value) :: without key (items s);
                  denied := denied s; full := full s |}.

(** [localStorage.removeItem(key)] *)
Definition removeItem (s : t) (key : JSString) : Access t :=
  if denied s then Throws
  else Returns {| items := without key (items s); denied := denied s; full := full s |}.

End LocalStorage.

(** ** [src/utils/privacy.ts] *)

Module Privacy.

(** [s.split(/\s+/)]: the pieces between maximal runs of white space;
    [inRun] tells that the unit before was white space. *)
Fixpoint splitWhiteSpace (inRun : bool) (s : JSString) : list JSString :=
  match s with
  | [] => [[]]
  | c :: s' =>
      if isWhiteSpace c then
        if inRun then splitWhiteSpace true s' else [] :: splitWhiteSpace true s'
      else
        match splitWhiteSpace false s' with
        | w :: ws => (c :: w) :: ws
        | [] => [[c]]
        end
  end.

Definition maskAmount (amount : float) : float := amount.

Definition maskString (str : JSString) (minLength : nat) : JSString :=
  if (length str <=? minLength)%nat then utf16 "***"
  else if (length str <=? 5)%nat then take 1 str ++ utf16 "***"
  else take 2 str ++ utf16 "***" ++ drop (length str - 1) str.

Definition maskCounterparty (name : JSString) : JSString :=
  if (length (trim name) =? 0)%nat then []
  else maskString name 2.

Definition maskDescription (desc : JSString) : JSString :=
  if (length (trim desc) =? 0)%nat then []
  else
    let words := splitWhiteSpace false desc in
    if (length words <=? 2)%nat then maskString desc 3
    else join 32 (take 2 words) ++ utf16 " ***".

Definition maskTransaction (t : @Transaction JSString) : @Transaction JSString :=
  {| Transaction.id := Transaction.id t;
     Transaction.date := Transaction.date t;
     Transaction.amount := maskAmount (Transaction.amount t);
     Transaction.currency := Transaction.currency t;
     Transaction.counterparty := maskCounterparty (Transaction.counterparty t);
     Transaction.description := maskDescription (Transaction.description t);
     Transaction.category := Transaction.category t;
     Transaction.variableSymbol := Transaction.variableSymbol t;
     Transaction.note :=
       match Transaction.note t with
       | [] => Transaction.note t
       | _ => maskDescription (Transaction.note t)
       end;
     Transaction.operationType := Transaction.operationType t;
     Transaction.internal := Transaction.internal t |}.

Definition maskTransactions (transactions : list (@Transaction JSString))
  : list (@Transaction JSString) :=
  List.map maskTransaction transactions.

(** *** The stored privacy flag *)

Definition STORAGE_KEY_PRIVACY : JSString := utf16 "expense-analyzer-privacy-mode".

Definition loadPrivacyMode (s : LocalStorage.t) : bool :=
  match LocalStorage.getItem s STORAGE_KEY_PRIVACY with
  | LocalStorage.Returns (Some stored) => str_eqb stored (utf16 "true")
  | LocalStorage.Returns None => false
  | LocalStorage.Throws => false
  end.

(** [String(enabled)] *)
Definition stringOfBool (b : bool) : JSString :=
  if b then utf16 "true" else utf16 "false".

(** The store after the call; a write that throws is caught and leaves it
    as it was. *)
Definition savePrivacyMode (s : LocalStorage.t) (enabled : bool) : LocalStorage.t :=
  match LocalStorage.setItem s STORAGE_KEY_PRIVACY (stringOfBool enabled) with
  | LocalStorage.Returns s' => s'
  | LocalStorage.Throws => s
  end.

End Privacy.

(** ** [src/utils/storage.ts] *)

Module Storage.

(** What [JSON.parse] returns. *)
Inductive JSON :=
  | JNull
  | JBool (b : bool)
  | JNumber (x : float)
  | JStr (s : JSString)
  | JArray (items : list JSON)
  | JObject (fields : list (JSString * JSON)).

(** A value held by a restored object: parsed JSON, or a [Date] built
    while restoring. *)
Inductive Value :=
  | VJSON (j : JSON)
  | VDate (d : Date).

(** An object, by its own properties in order. *)
Definition Obj := list (JSString * Value).

(** [localStorage.getItem(key)] throws, returns [null], or returns the
    string stored. *)
Inductive Read :=
  | ReadThrows
  | ReadNull
  | ReadString (raw : JSString).

Definition STORAGE_KEY : JSString := utf16 "expense-analyzer-data".

Fixpoint lookup_field (fields : list (JSString * JSON)) (k : JSString) : option JSON :=
  match fields with
  | [] => None
  | (k', v) :: rest => if str_eqb k' k then Some v else lookup_field rest k
  end.

(** [v.k] for a key that no prototype defines; [None] is [undefined].
    The caller has excluded [null] and [undefined]. *)
Definition prop (v : JSON) (k : JSString) : option JSON :=
  match v with
  | JObject fields => lookup_field fields k
  | _ => None
  end.

(** [v?.k] *)
Definition optProp (v : option JSON) (k : JSString) : option JSON :=
  match v with
  | None | Some JNull => None
  | Some v => prop v k
  end.

(** A length as a number value. *)
Definition numberOfNat (n : nat) : float :=
  SF2Prim (binary_normalize prec emax (Z.of_nat n) 0 false).

(** [v?.length]: arrays and strings have it, an object may hold it. *)
Definition optLength (v : option JSON) : option JSON :=
  match v with
  | Some (JArray items) => Some (JNumber (numberOfNat (length items)))
  | Some (JStr s) => Some (JNumber (numberOfNat (length s)))
  | Some (JObject fields) => lookup_field fields (utf16 "length")
  | _ => None
  end.

(** ToBoolean *)
Definition truthy (v : option JSON) : bool :=
  match v with
  | None | Some JNull => false
  | Some (JBool b) => b
  | Some (JNumber x) => negb (is_nan x || is_zero x)
  | Some (JStr s) => negb (length s =? 0)%nat
  | Some (JArray _) | Some (JObject _) => true
  end.

(** The own enumerable properties that [{...t}] copies. *)
Definition spread (t : JSON) : Obj :=
  match t with
  | JObject fields => List.map (fun '(k, v) => (k, VJSON v)) fields
  | JArray items => imap (fun i v => (decimal i, VJSON v)) items
  | JStr s => imap (fun i c => (decimal i, VJSON (JStr [c]))) s
  | _ => []
  end.

(** [o.k = v] in an object literal: a key already there keeps its place. *)
Fixpoint setProp (o : Obj) (k : JSString) (v : Value) : Obj :=
  match o with
  | [] => [(k, v)]
  | (k', v') :: o' => if str_eqb k' k then (k, v) :: o' else (k', v') :: setProp o' k v
  end.

Record AppData := {
  bankName : JSON;
  transactions : list Obj;
  dateRange : DateRange;
}.

Record LoadFromStorageResult := {
  data : AppData;
  selectedRange : DateRange;
}.

Section Load.
(** [JSON.parse]; [None] where it throws a SyntaxError. *)
Variable JSON_parse : JSString -> option JSON.
(** [new Date(v)] for a parsed value or [undefined]. *)
Variable Date_of : option JSON -> Date.

(** The callback of [parsed.transactions.map]; reading [t.date] of
    [null] throws. *)
Definition restore (t : JSON) : option Obj :=
  match t with
  | JNull => None
  | _ =>
      Some (setProp
              (setProp (spread t) (utf16 "date") (VDate (Date_of (prop t (utf16 "date")))))
              (utf16 "internal") (VJSON (JBool (truthy (prop t (utf16 "internal"))))))
  end.

(** [a.map(f)] where [f] may throw *)
Fixpoint mapThrowing {A B} (f : A -> option B) (a : list A) : option (list B) :=
  match a with
  | [] => Some []
  | x :: a' =>
      match f x with
      | None => None
      | Some y =>
          match mapThrowing f a' with
          | None => None
          | Some ys => Some (y :: ys)
          end
      end
  end.

(** [None] is the [null] the function returns, also from its [catch]. *)
Definition loadFromStorage (getItem : JSString -> Read)
  : option LoadFromStorageResult :=
  match getItem STORAGE_KEY with
  | ReadThrows => None
  | ReadNull | ReadString [] => None
  | ReadString raw =>
      match JSON_parse raw with
      | None => None
      | Some parsed =>
          if negb (truthy (optLength (optProp (Some parsed) (utf16 "transactions"))))
             || negb (truthy (optProp (Some parsed) (utf16 "dateRange")))
          then None
          else
            let range := optProp (Some parsed) (utf16 "dateRange") in
            let dateRange := {| from := Date_of (optProp range (utf16 "from"));
                                to := Date_of (optProp range (utf16 "to")) |} in
            match prop parsed (utf16 "transactions") with
            | Some (JArray items) =>
                match mapThrowing restore items with
                | None => None
                | Some transactions =>
                    let selected := prop parsed (utf16 "selectedRange") in
                    let selectedRange :=
                      if truthy (optProp selected (utf16 "from"))
                         && truthy (optProp selected (utf16 "to"))
                      then {| from := Date_of (optProp selected (utf16 "from"));
                              to := Date_of (optProp selected (utf16 "to")) |}
                      else dateRange in
                    Some {|
                      data := {|
                        bankName :=
                          if truthy (prop parsed (utf16 "bankName"))
                          then default JNull (prop parsed (utf16 "bankName"))
                          else JStr (utf16 "Saved data");
                        transactions := transactions;
                        dateRange := dateRange |};
                      selectedRange := selectedRange |}
                end
            | _ => None
            end
      end
  end.
End Load.

(** *** Saving *)

(** What [loadFromStorage] reads from a store. *)
Definition reads (s : LocalStorage.t) (key : JSString) : Read :=
  match LocalStorage.getItem s key with
  | LocalStorage.Throws => ReadThrows
  | LocalStorage.Returns None => ReadNull
  | LocalStorage.Returns (Some raw) => ReadString raw
  end.

Definition STORAGE_KEY_CUSTOM_CATEGORIES : JSString :=
  utf16 "expense-analyzer-custom-categories".

(** The callback of the filter in [loadCustomCategories]: strings that are
    not blank. *)
Definition customCategory (c : JSON) : option JSString :=
  match c with
  | JStr name => if (0 <? length (trim name))%nat then Some name else None
  | _ => None
  end.

(** The object a transaction is at run time, its properties in the order
    [parseCSV] creates them and the updates of the application keep. *)
Definition objectOf (t : @Transaction JSString) : Obj :=
  [ (utf16 "id", VJSON (JNumber (numberOfNat (Transaction.id t))));
    (utf16 "date", VDate (Transaction.date t));
    (utf16 "amount", VJSON (JNumber (Transaction.amount t)));
    (utf16 "currency", VJSON (JStr (Transaction.currency t)));
    (utf16 "counterparty", VJSON (JStr (Transaction.counterparty t)));
    (utf16 "description", VJSON (JStr (Transaction.description t)));
    (utf16 "category", VJSON (JStr (Transaction.category t)));
    (utf16 "variableSymbol", VJSON (JStr (Transaction.variableSymbol t)));
    (utf16 "note", VJSON (JStr (Transaction.note t)));
    (utf16 "operationType", VJSON (JStr (Transaction.operationType t)));
    (utf16 "internal", VJSON (JBool (Transaction.internal t))) ].

Section Save.
(** [JSON.parse]; [None] where it throws a SyntaxError. *)
Variable JSON_parse : JSString -> option JSON.
(** [JSON.stringify] *)
Variable JSON_stringify : JSON -> JSString.
(** [d.toISOString()] for the time value of a valid date. *)
Variable toISOString : Z -> JSString.

Definition loadCustomCategories (s : LocalStorage.t) : list JSString :=
  match LocalStorage.getItem s STORAGE_KEY_CUSTOM_CATEGORIES with
  | LocalStorage.Throws => []
  | LocalStorage.Returns None | LocalStorage.Returns (Some []) => []
  | LocalStorage.Returns (Some raw) =>
      match JSON_parse raw with
      | Some (JArray parsed) => omap customCategory parsed
      | _ => []
      end
  end.

Definition saveCustomCategories (s : LocalStorage.t) (categories : list JSString)
  : LocalStorage.t :=
  match LocalStorage.setItem s STORAGE_KEY_CUSTOM_CATEGORIES
          (JSON_stringify (JArray (List.map JStr categories))) with
  | LocalStorage.Returns s' => s'
  | LocalStorage.Throws => s
  end.

(** [d.toISOString()], which throws a RangeError on the Invalid Date. *)
Definition isoOf (d : Date) : option JSString :=
  match d with
  | DateAt t => Some (toISOString t)
  | InvalidDate => None
  end.

(** [{ from: r.from.toISOString(), to: r.to.toISOString() }] *)
Definition rangeJSON (r : DateRange) : option JSON :=
  match isoOf (from r), isoOf (to r) with
  | Some f, Some t => Some (JObject [(utf16 "from", JStr f); (utf16 "to", JStr t)])
  | _, _ => None
  end.

(** [{ ...t, date: t.date.toISOString() }] *)
Definition transactionJSON (t : @Transaction JSString) : option JSON :=
  match isoOf (Transaction.date t) with
  | Some iso =>
      Some (JObject
        [ (utf16 "id", JNumber (numberOfNat (Transaction.id t)));
          (utf16 "date", JStr iso);
          (utf16 "amount", JNumber (Transaction.amount t));
          (utf16 "currency", JStr (Transaction.currency t));
          (utf16 "counterparty", JStr (Transaction.counterparty t));
          (utf16 "description", JStr (Transaction.description t));
          (utf16 "category", JStr (Transaction.category t));
          (utf16 "variableSymbol", JStr (Transaction.variableSymbol t));
          (utf16 "note", JStr (Transaction.note t));
          (utf16 "operationType", JStr (Transaction.operationType t));
          (utf16 "internal", JBool (Transaction.internal t)) ])
  | None => None
  end.

(** The payload written, [None] where building it throws.  The data has the
    three fields of [AppData], which are those of [ParsedData]. *)
Definition payloadOf (data : @ParsedData JSString) (selectedRange : option DateRange)
  : option JSON :=
  let '(Build_ParsedData name txs range) := data in
  match rangeJSON range,
        mapThrowing transactionJSON txs,
        match selectedRange with
        | Some r => rangeJSON r
        | None => Some JNull
        end
  with
  | Some range, Some txs, Some selected =>
      Some (JObject
        [ (utf16 "bankName", JStr name);
          (utf16 "dateRange", range);
          (utf16 "transactions", JArray txs);
          (utf16 "selectedRange", selected) ])
  | _, _, _ => None
  end.

(** The store after the call; whatever throws is caught and leaves it as it
    was. *)
Definition saveToStorage (s : LocalStorage.t) (data : option (@ParsedData JSString))
           (selectedRange : option DateRange) : LocalStorage.t :=
  match data with
  | None =>
      match LocalStorage.removeItem s STORAGE_KEY with
      | LocalStorage.Returns s' => s'
      | LocalStorage.Throws => s
      end
  | Some data =>
      match payloadOf data selectedRange with
      | None => s
      | Some payload =>
          match LocalStorage.setItem s STORAGE_KEY (JSON_stringify payload) with
          | LocalStorage.Returns s' => s'
          | LocalStorage.Throws => s
          end
      end
  end.
End Save.

End Storage.

(** ** [src/App.tsx]: the state updates around the pipeline *)

Module App.

(** What [handleFileLoaded] sets. *)
Record Loaded := {
  data : option (@ParsedData Cell);
  selectedRange : option DateRange;
  error : option JSString;
  loading : bool;
}.

Definition handleFileLoaded (L : Libs) (clock : nat -> nat -> Z) (content : JSString)
  : Loaded :=
  match parseCSV L clock content with
  | Return result =>
      {| data := Some {| bankName := bankName result;
                         transactions := transactions result;
                         dateRange := dateRange result |};
         selectedRange := Some {| from := from (dateRange result);
                                  to := to (dateRange result) |};
         error := None;
         loading := false |}
  | Throw message =>
      {| data := None; selectedRange := None; error := Some message; loading := false |}
  end.

Definition setCategory (newCategory : JSString) (t : @Transaction Cell)
  : @Transaction Cell :=
  {| Transaction.id := Transaction.id t;
     Transaction.date := Transaction.date t;
     Transaction.amount := Transaction.amount t;
     Transaction.currency := Transaction.currency t;
     Transaction.counterparty := Transaction.counterparty t;
     Transaction.description := Transaction.description t;
     Transaction.category := Text newCategory;
     Transaction.variableSymbol := Transaction.variableSymbol t;
     Transaction.note := Transaction.note t;
     Transaction.operationType := Transaction.operationType t;
     Transaction.internal := Transaction.internal t |}.

Definition toggleInternal {V} (t : @Transaction V) : @Transaction V :=
  {| Transaction.id := Transaction.id t;
     Transaction.date := Transaction.date t;
     Transaction.amount := Transaction.amount t;
     Transaction.currency := Transaction.currency t;
     Transaction.counterparty := Transaction.counterparty t;
     Transaction.description := Transaction.description t;
     Transaction.category := Transaction.category t;
     Transaction.variableSymbol := Transaction.variableSymbol t;
     Transaction.note := Transaction.note t;
     Transaction.operationType := Transaction.operationType t;
     Transaction.internal := negb (Transaction.internal t) |}.

(** The update of the data that [handleCategoryChange] makes. *)
Definition handleCategoryChange (transactionId : nat) (newCategory : JSString)
           (prev : option (@ParsedData Cell)) : option (@ParsedData Cell) :=
  match prev with
  | None => None
  | Some prev =>
      Some {| bankName := bankName prev;
              transactions :=
                List.map (fun t => if (Transaction.id t =? transactionId)%nat
                                   then setCategory newCategory t else t)
                         (transactions prev);
              dateRange := dateRange prev |}
  end.

(** The update of the data that [handleInternalToggle] makes. *)
Definition handleInternalToggle {V} (transactionId : nat) (prev : option (@ParsedData V))
  : option (@ParsedData V) :=
  match prev with
  | None => None
  | Some prev =>
      Some {| bankName := bankName prev;
              transactions :=
                List.map (fun t => if (Transaction.id t =? transactionId)%nat
                                   then toggleInternal t else t)
                         (transactions prev);
              dateRange := dateRange prev |}
  end.



(** [tTime >= fromTime && tTime <= toTime], false where a time is NaN. *)
Definition inRange {V} (fromTime toTime : option Z) (t : @Transaction V) : bool :=
  match getTime (Transaction.date t), fromTime, toTime with
  | Some tTime, Some f, Some u => ((f <=? tTime) && (tTime <=? u))%Z
  | _, _, _ => false
  end.

Definition filteredTransactionsOriginal {V} (data : option (@ParsedData V))
           (selectedRange : option DateRange) : list (@Transaction V) :=
  match data, selectedRange with
  | Some data, Some range =>
      List.filter (inRange (getTime (from range)) (getTime (to range))) (transactions data)
  | _, _ => []
  end.

Definition filteredTransactions (privacyMode : bool)
           (original : list (@Transaction JSString)) : list (@Transaction JSString) :=
  if privacyMode then Privacy.maskTransactions original else original.

(** [ts.filter(t => !t.internal)] *)
Definition nonInternal {V} (ts : list (@Transaction V)) : list (@Transaction V) :=
  List.filter (fun t => negb (Transaction.internal t)) ts.

End App.

(** ** A reference instance of the libraries

    It runs, and is what the concrete runs below use.  Each part says what
    it covers. *)

Module Reference.

(** Lower case of the letters of Basic Latin, Latin-1 Supplement and Latin
    Extended-A; other code units are kept. *)
Definition lowerUnit (c : N) : JSString :=
  if (65 <=? c) && (c <=? 90) then [c + 32]
  else if (192 <=? c) && (c <=? 222) && negb (c =? 215) then [c + 32]
  else if c =? 304 then [105; 775]
  else if (256 <=? c) && (c <=? 311) && N.even c then [c + 1]
  else if (313 <=? c) && (c <=? 328) && N.odd c then [c + 1]
  else if (330 <=? c) && (c <=? 375) && N.even c then [c + 1]
  else if c =? 376 then [255]
  else if (377 <=? c) && (c <=? 382) && N.odd c then [c + 1]
  else [c].

Definition lowerCase (s : JSString) : JSString := flat_map lowerUnit s.

(** Case folding under the flag [i], on the same three blocks: the upper
    case unit when it is a single one and does not turn a unit from 128 on
    into one below 128. *)
Definition foldCase (c : N) : N :=
  if (97 <=? c) && (c <=? 122) then c - 32
  else if (224 <=? c) && (c <=? 254) && negb (c =? 247) then c - 32
  else if c =? 181 then 924
  else if c =? 255 then 376
  else if (257 <=? c) && (c <=? 303) && N.odd c then c - 1
  else if (307 <=? c) && (c <=? 311) && N.odd c then c - 1
  else if (314 <=? c) && (c <=? 328) && N.even c then c - 1
  else if (331 <=? c) && (c <=? 375) && N.odd c then c - 1
  else if (378 <=? c) && (c <=? 382) && N.even c then c - 1
  else c.

(** *** Calendar *)

Definition isLeapYear (y : Z) : bool :=
  ((y mod 4 =? 0) && negb (y mod 100 =? 0) || (y mod 400 =? 0))%Z.

Definition daysInMonth (y m : Z) : Z :=
  (if m =? 2 then (if isLeapYear y then 29 else 28)
   else if (m =? 4) || (m =? 6) || (m =? 9) || (m =? 11) then 30
   else 31)%Z.

(** Days from 1970-01-01 to the civil date [y]-[m]-[d]. *)
Definition daysFromCivil (y m d : Z) : Z :=
  (let y' := if m <=? 2 then y - 1 else y in
   let era := y' / 400 in
   let yoe := y' - era * 400 in
   let mp := (m + 9) mod 12 in
   let doy := (153 * mp + 2) / 5 + d - 1 in
   let doe := yoe * 365 + yoe / 4 - yoe / 100 + doy in
   era * 146097 + doe - 719468)%Z.

Definition msPerDay : Z := 86400000.

(** *** date-fns [parse], for layouts made of the tokens [d], [dd], [M],
    [MM], [yyyy] and literal separators, in an environment whose time zone
    is UTC.  The date is set to midnight of the day parsed; the reference
    date only has to be valid. *)

(** Up to [n] digits, at least one: [/^\d{1,n}/]. *)
Fixpoint takeDigits (n : nat) (s : JSString) : JSString * JSString :=
  match n, s with
  | S n', c :: s' =>
      if isDigit c then let '(d, r) := takeDigits n' s' in (c :: d, r)
      else ([], s)
  | _, _ => ([], s)
  end.

(** [/^(3[0-1]|[0-2]?\d)/] *)
Definition takeDayNumber (s : JSString) : JSString * JSString :=
  match s with
  | a :: b :: r =>
      if (a =? 51) && ((b =? 48) || (b =? 49)) then ([a; b], r)
      else if (48 <=? a) && (a <=? 50) && isDigit b then ([a; b], r)
      else takeDigits 1 s
  | _ => takeDigits 1 s
  end.

(** [/^(1[0-2]|0?\d)/] *)
Definition takeMonthNumber (s : JSString) : JSString * JSString :=
  match s with
  | a :: b :: r =>
      if (a =? 49) && (48 <=? b) && (b <=? 50) then ([a; b], r)
      else if (a =? 48) && isDigit b then ([a; b], r)
      else takeDigits 1 s
  | _ => takeDigits 1 s
  end.

Definition isLetter (c : N) : bool :=
  ((65 <=? c) && (c <=? 90)) || ((97 <=? c) && (c <=? 122)).

Definition numberOf (ds : JSString * JSString) : option (Z * JSString) :=
  match fst ds with
  | [] => None
  | d => Some (digitsValue d, snd ds)
  end.

(** The fields read along the layout, and whether what is left of the
    input is white space only. *)
Fixpoint readLayout (fmt s : JSString) (y m d : option Z)
  : option (option Z * option Z * option Z) :=
  match fmt with
  | [] => if forallb isWhiteSpace s then Some (y, m, d) else None
  | 121 :: 121 :: 121 :: 121 :: fmt' =>
      match numberOf (takeDigits 4 s) with
      | Some (v, r) => readLayout fmt' r (Some v) m d
      | None => None
      end
  | 77 :: 77 :: fmt' =>
      match numberOf (takeDigits 2 s) with
      | Some (v, r) => readLayout fmt' r y (Some v) d
      | None => None
      end
  | 77 :: fmt' =>
      match numberOf (takeMonthNumber s) with
      | Some (v, r) => readLayout fmt' r y (Some v) d
      | None => None
      end
  | 100 :: 100 :: fmt' =>
      match numberOf (takeDigits 2 s) with
      | Some (v, r) => readLayout fmt' r y m (Some v)
      | None => None
      end
  | 100 :: fmt' =>
      match numberOf (takeDayNumber s) with
      | Some (v, r) => readLayout fmt' r y m (Some v)
      | None => None
      end
  | c :: fmt' =>
      if isLetter c then None
      else match s with
           | c' :: s' => if c' =? c then readLayout fmt' s' y m d else None
           | [] => None
           end
  end.

Definition civilDate (y m d : Z) : Date :=
  if ((1 <=? y) && (1 <=? m) && (m <=? 12) && (1 <=? d) && (d <=? daysInMonth y m))%Z
  then DateAt (daysFromCivil y m d * msPerDay)
  else InvalidDate.

Definition parseByLayout (dateString formatString : JSString) (referenceDate : Date) : Date :=
  match readLayout formatString dateString None None None with
  | Some (Some y, Some m, Some d) =>
      if isValid referenceDate then civilDate y m d else InvalidDate
  | _ => InvalidDate
  end.

(** *** [new Date(string)], for the date-time string format of the
    language: [YYYY-MM-DD], alone or followed by [THH:mm], [THH:mm:ss] or
    [THH:mm:ss.sss] and an optional [Z]; the time zone is UTC.  What
    engines accept beyond that format is left invalid. *)

Definition exactDigits (n : nat) (s : JSString) : option (Z * JSString) :=
  let '(d, r) := takeDigits n s in
  if (length d =? n)%nat then Some (digitsValue d, r) else None.

Definition expect (c : N) (s : JSString) : option JSString :=
  match s with
  | c' :: r => if c' =? c then Some r else None
  | [] => None
  end.

(** Milliseconds into the day, from what follows the letter T. *)
Definition readTime (s : JSString) : option Z :=
  '(h, r) ← exactDigits 2 s;
  r ← expect 58 r;
  '(mi, r) ← exactDigits 2 r;
  '(sec, r) ← match expect 58 r with
              | Some r1 => exactDigits 2 r1
              | None => Some (0%Z, r)
              end;
  '(ms, r) ← match expect 46 r with
             | Some r1 => exactDigits 3 r1
             | None => Some (0%Z, r)
             end;
  let r := default r (expect 90 r) in
  match r with
  | [] => if ((h <=? 23) && (mi <=? 59) && (sec <=? 59))%Z
          then Some (((h * 60 + mi) * 60 + sec) * 1000 + ms)%Z
          else None
  | _ => None
  end.

Definition readISO (s : JSString) : option Z :=
  '(y, r) ← exactDigits 4 s;
  r ← expect 45 r;
  '(m, r) ← exactDigits 2 r;
  r ← expect 45 r;
  '(d, r) ← exactDigits 2 r;
  if ((1 <=? m) && (m <=? 12) && (1 <=? d) && (d <=? daysInMonth y m))%Z then
    match r with
    | [] => Some (daysFromCivil y m d * msPerDay)%Z
    | c :: r' =>
        if c =? 84 then ms ← readTime r'; Some (daysFromCivil y m d * msPerDay + ms)%Z
        else None
    end
  else None.

Definition dateOfISO (s : JSString) : Date :=
  match readISO s with
  | Some t => DateAt t
  | None => InvalidDate
  end.

(** *** PapaParse with [header: true], [skipEmptyLines: true], headers
    trimmed, a one-unit delimiter, the double quote as quote and escape
    character and the line feed as line end (the input holds no carriage
    return).  A record is an object keyed by the header names, which are
    taken to be distinct; cells beyond the header, which PapaParse gathers
    in an array outside the declared row type, are reported and left
    out. *)

Inductive FieldEnd := EndField | EndRow | EndInput.

(** An unquoted field: up to the delimiter or the line end. *)
Fixpoint readPlain (delim : N) (s : JSString) : JSString * FieldEnd * JSString :=
  match s with
  | [] => ([], EndInput, [])
  | c :: s' =>
      if c =? delim then ([], EndField, s')
      else if c =? 10 then ([], EndRow, s')
      else let '(v, e, r) := readPlain delim s' in (c :: v, e, r)
  end.

Fixpoint skipSpaces (delim : N) (s : JSString) : JSString :=
  match s with
  | c :: s' =>
      if isWhiteSpace c && negb (c =? delim) && negb (c =? 10)
      then skipSpaces delim s' else s
  | [] => []
  end.

(** A field that opened with a quote, read from the unit after it; [acc]
    is the value so far, reversed, and [malformed] counts the quotes found
    that close nothing.  [None] for the end: no quote closes the field. *)
Fixpoint readQuoted (delim : N) (s acc : JSString) (malformed : nat)
  : option (JSString * FieldEnd * JSString) * nat :=
  match s with
  | [] => (None, malformed)
  | c :: s' =>
      if c =? 34 then
        match s' with
        | [] => (Some (rev acc, EndInput, []), malformed)
        | c2 :: s'' =>
            if c2 =? 34 then readQuoted delim s'' (34 :: acc) malformed
            else
              match skipSpaces delim s' with
              | d :: r =>
                  if d =? delim then (Some (rev acc, EndField, r), malformed)
                  else if d =? 10 then (Some (rev acc, EndRow, r), malformed)
                  else readQuoted delim s' (34 :: acc) (S malformed)
              | [] => readQuoted delim s' (34 :: acc) (S malformed)
              end
        end
      else readQuoted delim s' (c :: acc) malformed
  end.

Definition quotesError (code message : string) (row : nat) : Papa.ParseError :=
  {| Papa.type := utf16 "Quotes"; Papa.code := utf16 code;
     Papa.message := utf16 message; Papa.row := Some row |}.

(** The parser loop: [row] and [rows] are reversed. *)
Fixpoint parseRows (fuel : nat) (delim : N) (s : JSString)
         (row : list JSString) (rows : list (list JSString))
         (errors : list Papa.ParseError)
  : list (list JSString) * list Papa.ParseError :=
  let finish v errs := (rev (rev (v :: row) :: rows), errs) in
  match fuel with
  | O => finish s errors
  | S fuel' =>
      let next v e r errs :=
        match e with
        | EndField => parseRows fuel' delim r (v :: row) rows errs
        | EndRow => parseRows fuel' delim r [] (rev (v :: row) :: rows) errs
        | EndInput => finish v errs
        end in
      match s with
      | c :: s' =>
          if c =? 34 then
            let '(res, malformed) := readQuoted delim s' [] O in
            let errs :=
              errors ++ replicate malformed
                (quotesError "InvalidQuotes" "Trailing quote on quoted field is malformed"
                             (length rows)) in
            match res with
            | Some (v, e, r) => next v e r errs
            | None =>
                finish s' (errs ++ [quotesError "MissingQuotes" "Quoted field unterminated"
                                                (length rows)])
            end
          else let '(v, e, r) := readPlain delim s in next v e r errors
      | [] => finish [] errors
      end
  end.

(** [row[field] = value], cell by cell. *)
Fixpoint assign (o : Row) (k : JSString) (v : Cell) : Row :=
  match o with
  | [] => [(k, v)]
  | (k', v') :: o' => if str_eqb k' k then (k, v) :: o' else (k', v') :: assign o' k v
  end.

(** [row.__parsed_extra = row.__parsed_extra || []; row.__parsed_extra.push(value)] *)
Fixpoint pushExtra (o : Row) (v : JSString) : Row :=
  match o with
  | [] => [(utf16 "__parsed_extra", Extra [v])]
  | (k', v') :: o' =>
      if str_eqb k' (utf16 "__parsed_extra")
      then (k', match v' with
                | Extra items => Extra (items ++ [v])
                | Text _ => Extra [v]
                end) :: o'
      else (k', v') :: pushExtra o' v
  end.

(** The cells of a line under the header names; those beyond the header,
    and those of a column named [__parsed_extra], go to the array. *)
Fixpoint makeRecord (fields cells : list JSString) (o : Row) : Row :=
  match cells with
  | [] => o
  | v :: cells' =>
      match fields with
      | k :: fields' =>
          makeRecord fields' cells'
            (if str_eqb k (utf16 "__parsed_extra") then pushExtra o v
             else assign o k (Text v))
      | [] => makeRecord [] cells' (pushExtra o v)
      end
  end.

Definition mismatch (expected : nat) (i : nat) (cells : list JSString)
  : list Papa.ParseError :=
  let parsed := length cells in
  let say (code : string) (what : string) :=
    [ {| Papa.type := utf16 "FieldMismatch"; Papa.code := utf16 code;
         Papa.message := utf16 what ++ utf16 " fields: expected " ++ decimal expected
                         ++ utf16 " fields but parsed " ++ decimal parsed;
         Papa.row := Some i |} ] in
  if (expected <? parsed)%nat then say "TooManyFields"%string "Too many"%string
  else if (parsed <? expected)%nat then say "TooFewFields"%string "Too few"%string
  else [].

Definition isEmptyLine (cells : list JSString) : bool :=
  match cells with
  | [[]] => true
  | _ => false
  end.

Definition parseDelimited (input delimiter : JSString) : Papa.ParseResult :=
  match input with
  | [] => {| Papa.data := []; Papa.errors := [] |}
  | _ =>
      let delim := match delimiter with c :: _ => c | [] => 44 end in
      let '(rows, errors) := parseRows (S (length input)) delim input [] [] [] in
      match List.filter (fun r => negb (isEmptyLine r)) rows with
      | [] => {| Papa.data := []; Papa.errors := errors |}
      | header :: body =>
          let fields := List.map trim header in
          {| Papa.data := List.map (fun cells => makeRecord fields cells []) body;
             Papa.errors :=
               errors ++ mjoin (imap (mismatch (length fields)) body) |}
      end
  end.

Definition libs : Libs := {|
  toLowerCase := lowerCase;
  canonicalize := foldCase;
  dfns_parse := parseByLayout;
  Date_new := dateOfISO;
  Papa_parse := parseDelimited;
|}.

(** A clock that never moves, and one that does. *)
Definition clockAt (t : Z) : nat -> nat -> Z := fun _ _ => t.
Definition ticking : nat -> nat -> Z :=
  fun i k => (1700000000000 + Z.of_nat (4 * i + k))%Z.

(** A small export that no bank format claims. *)
Definition sampleExport : JSString :=
  65279 :: join 10 (List.map utf16
    [ "Datum;Částka;Popis";
      " 15.01.2024;-1 234,56;Shell Praha";
      "";
      "2024-02-03;500;Albert";
      "x;12;no date";
      "1.1.2024;abc;no amount";
      "3.2.2024;-20,5;Kino" ]%string).

(** An export whose records all fail: no date, or a zero amount. *)
Definition droppedExport : JSString :=
  join 10 (List.map utf16
    [ "Datum;Castka;Popis";
      "x;15;no date";
      "1.1.2024;0;zero amount";
      "2.1.2024;abc;no amount" ]%string).

(** A line with a cell beyond its two-column header, alone and before a
    line that fits the header. *)
Definition extraCellExport : JSString :=
  join 10 (List.map utf16 [ "Datum;Částka"; "1.1.2024;5;Shell" ]%string).

Definition extraCellFirst : JSString :=
  join 10 (List.map utf16 [ "Datum;Částka"; "1.1.2024;5;Shell"; "1.1.2024;7" ]%string).

(** A header whose last field opens a quote that nothing closes. *)
Definition unterminatedHeader : JSString := utf16 "datum;castka;" ++ [34; 120].

(** *** [JSON.parse], for texts whose only escapes are those of the quote,
    the backslash, the slash, the line feed, the tab and the carriage
    return; a key that comes twice keeps its first place and its last
    value.  [None] is the SyntaxError. *)

Fixpoint skipBlank (s : JSString) : JSString :=
  match s with
  | c :: s' => if (c =? 32) || (c =? 9) || (c =? 10) || (c =? 13) then skipBlank s' else s
  | [] => []
  end.

(** The characters of a string literal, from the unit after its opening
    quote. *)
Fixpoint readString (s : JSString) : option (JSString * JSString) :=
  match s with
  | [] => None
  | c :: s' =>
      if c =? 34 then Some ([], s')
      else if c =? 92 then
        match s' with
        | e :: s'' =>
            let unit :=
              if (e =? 34) || (e =? 92) || (e =? 47) then Some e
              else if e =? 110 then Some 10
              else if e =? 116 then Some 9
              else if e =? 114 then Some 13
              else None in
            match unit, readString s'' with
            | Some u, Some (v, r) => Some (u :: v, r)
            | _, _ => None
            end
        | [] => None
        end
      else if c <? 32 then None
      else match readString s' with
           | Some (v, r) => Some (c :: v, r)
           | None => None
           end
  end.

(** The text of a number literal and what follows it. *)
Definition readNumber (s : JSString) : option (JSString * JSString) :=
  let '(sign, r) := match s with
                    | c :: r => if c =? 45 then ([c], r) else ([], s)
                    | [] => ([], s)
                    end in
  let '(ip, r) := spanDigits r in
  match ip with
  | [] => None
  | d :: ip' =>
      if (d =? 48) && negb (length ip' =? 0)%nat then None
      else
        let frac :=
          match r with
          | c :: r1 =>
              if c =? 46 then
                let '(fp, r2) := spanDigits r1 in
                match fp with [] => None | _ => Some (c :: fp, r2) end
              else Some ([], r)
          | [] => Some ([], r)
          end in
        match frac with
        | None => None
        | Some (fp, r) =>
            let expo :=
              match r with
              | c :: r1 =>
                  if (c =? 101) || (c =? 69) then
                    let '(sg, r2) := match r1 with
                                     | g :: r2 => if (g =? 43) || (g =? 45) then ([g], r2)
                                                  else ([], r1)
                                     | [] => ([], r1)
                                     end in
                    let '(ep, r3) := spanDigits r2 in
                    match ep with [] => None | _ => Some (c :: sg ++ ep, r3) end
                  else Some ([], r)
              | [] => Some ([], r)
              end in
            match expo with
            | None => None
            | Some (ep, r) => Some (sign ++ ip ++ fp ++ ep, r)
            end
        end
  end.

Fixpoint assignField (o : list (JSString * Storage.JSON)) (k : JSString) (v : Storage.JSON)
  : list (JSString * Storage.JSON) :=
  match o with
  | [] => [(k, v)]
  | (k', v') :: o' =>
      if str_eqb k' k then (k, v) :: o' else (k', v') :: assignField o' k v
  end.

(** A value, the elements of an array after its bracket, the members of an
    object after its brace. *)
Fixpoint readValue (fuel : nat) (s : JSString) : option (Storage.JSON * JSString) :=
  match fuel with
  | O => None
  | S fuel' =>
      let fix elements (n : nat) (s : JSString) (acc : list Storage.JSON)
        : option (Storage.JSON * JSString) :=
        match n with
        | O => None
        | S n' =>
            match readValue fuel' s with
            | Some (v, r) =>
                match skipBlank r with
                | c :: r' =>
                    if c =? 44 then elements n' r' (v :: acc)
                    else if c =? 93 then Some (Storage.JArray (rev (v :: acc)), r')
                    else None
                | [] => None
                end
            | None => None
            end
        end in
      let fix members (n : nat) (s : JSString) (acc : list (JSString * Storage.JSON))
        : option (Storage.JSON * JSString) :=
        match n with
        | O => None
        | S n' =>
            match skipBlank s with
            | q :: s1 =>
                if q =? 34 then
                  match readString s1 with
                  | Some (k, r) =>
                      match skipBlank r with
                      | c :: r1 =>
                          if c =? 58 then
                            match readValue fuel' r1 with
                            | Some (v, r2) =>
                                match skipBlank r2 with
                                | d :: r3 =>
                                    if d =? 44 then members n' r3 (assignField acc k v)
                                    else if d =? 125
                                    then Some (Storage.JObject (assignField acc k v), r3)
                                    else None
                                | [] => None
                                end
                            | None => None
                            end
                          else None
                      | [] => None
                      end
                  | None => None
                  end
                else None
            | [] => None
            end
        end in
      match skipBlank s with
      | [] => None
      | c :: r =>
          if c =? 34 then
            match readString r with
            | Some (v, r') => Some (Storage.JStr v, r')
            | None => None
            end
          else if c =? 91 then
            match skipBlank r with
            | d :: r' => if d =? 93 then Some (Storage.JArray [], r')
                         else elements (length r) r []
            | [] => None
            end
          else if c =? 123 then
            match skipBlank r with
            | d :: r' => if d =? 125 then Some (Storage.JObject [], r')
                         else members (length r) r []
            | [] => None
            end
          else if startsWith (c :: r) (utf16 "null") then Some (Storage.JNull, drop 4 (c :: r))
          else if startsWith (c :: r) (utf16 "true")
          then Some (Storage.JBool true, drop 4 (c :: r))
          else if startsWith (c :: r) (utf16 "false")
          then Some (Storage.JBool false, drop 5 (c :: r))
          else
            match readNumber (c :: r) with
            | Some (text, r') => Some (Storage.JNumber (parseFloat text), r')
            | None => None
            end
      end
  end.

Definition parseJSON (raw : JSString) : option Storage.JSON :=
  match readValue (S (length raw)) raw with
  | Some (v, r) => match skipBlank r with [] => Some v | _ => None end
  | None => None
  end.

(** *** [new Date(v)] for a parsed value: a string by the date-time format
    above, a number as a time value (truncated, within the range of dates),
    [null] and booleans as the numbers they convert to, the rest invalid. *)
Definition timeValueOf (x : float) : Date :=
  match Prim2SF x with
  | S754_zero _ => DateAt 0
  | S754_finite neg m e =>
      let magnitude := (if 0 <=? e then Z.pos m * 2 ^ e else Z.pos m / 2 ^ (- e))%Z in
      if (magnitude <=? 8640000000000000)%Z
      then DateAt (if neg then - magnitude else magnitude)%Z
      else InvalidDate
  | _ => InvalidDate
  end.

Definition dateOfValue (v : option Storage.JSON) : Date :=
  match v with
  | Some (Storage.JStr s) => dateOfISO s
  | Some (Storage.JNumber x) => timeValueOf x
  | Some Storage.JNull | Some (Storage.JBool false) => DateAt 0
  | Some (Storage.JBool true) => DateAt 1
  | _ => InvalidDate
  end.

(** A store that holds one payload under the key of the application. *)
Definition storeHolding (raw : JSString) (key : JSString) : Storage.Read :=
  if str_eqb key Storage.STORAGE_KEY then Storage.ReadString raw else Storage.ReadNull.

Definition field (key : string) (value : JSString) : JSString :=
  quoted (utf16 key) ++ utf16 ":" ++ value.

(** What [saveToStorage] writes for one transaction. *)
Definition storedPayload : JSString :=
  utf16 "{" ++ field "bankName" (quoted (utf16 "Moneta")) ++ utf16 ","
  ++ field "dateRange"
       (utf16 "{" ++ field "from" (quoted (utf16 "2024-01-15T00:00:00.000Z")) ++ utf16 ","
        ++ field "to" (quoted (utf16 "2024-01-15T00:00:00.000Z")) ++ utf16 "}")
  ++ utf16 ","
  ++ field "transactions"
       (utf16 "[{" ++ field "id" (utf16 "0") ++ utf16 ","
        ++ field "date" (quoted (utf16 "2024-01-15T00:00:00.000Z")) ++ utf16 ","
        ++ field "amount" (utf16 "-20.5") ++ utf16 ","
        ++ field "category" (quoted (utf16 "Zábava")) ++ utf16 ","
        ++ field "internal" (utf16 "false") ++ utf16 "}]")
  ++ utf16 "," ++ field "selectedRange" (utf16 "null") ++ utf16 "}".
(** *** [JSON.stringify] without indentation.  A finite number is written
    by its exact decimal expansion, which reads back as the same double
    (the engine writes the shortest decimal that does); NaN and the
    infinities are written [null]. *)

Fixpoint digitsOf (fuel : nat) (n : Z) (acc : JSString) : JSString :=
  match fuel with
  | O => acc
  | S fuel' =>
      let acc' := (48 + Z.to_N (n mod 10)) :: acc in
      if (n <? 10)%Z then acc' else digitsOf fuel' (n / 10)%Z acc'
  end.

(** The decimal digits of a natural number, at least [width] of them. *)
Definition padded (width : nat) (n : Z) : JSString :=
  let d := digitsOf (S (Z.to_nat (Z.log2 n))) n [] in
  replicate (width - length d) 48 ++ d.

Definition numberText (x : float) : JSString :=
  match Prim2SF x with
  | S754_zero _ => utf16 "0"
  | S754_finite neg m e =>
      let sign := if neg then utf16 "-" else [] in
      if (0 <=? e)%Z then sign ++ padded 1 (Z.pos m * 2 ^ e)
      else
        let k := Z.to_nat (- e) in
        let scaled := (Z.pos m * 5 ^ (- e))%Z in
        let whole := (scaled / 10 ^ (- e))%Z in
        let part := (scaled mod 10 ^ (- e))%Z in
        if (part =? 0)%Z then sign ++ padded 1 whole
        else sign ++ padded 1 whole ++ utf16 "." ++ padded k part
  | _ => utf16 "null"
  end.

Definition hexDigit (n : N) : N := if n <? 10 then 48 + n else 87 + n.

Definition escapeUnit (c : N) : JSString :=
  if c =? 34 then [92; 34]
  else if c =? 92 then [92; 92]
  else if c =? 10 then [92; 110]
  else if c =? 13 then [92; 114]
  else if c =? 9 then [92; 116]
  else if c <? 32 then [92; 117; 48; 48; hexDigit (c / 16); hexDigit (c mod 16)]
  else [c].

Definition stringText (s : JSString) : JSString := quoted (flat_map escapeUnit s).

Fixpoint stringify (v : Storage.JSON) : JSString :=
  match v with
  | Storage.JNull => utf16 "null"
  | Storage.JBool b => if b then utf16 "true" else utf16 "false"
  | Storage.JNumber x => numberText x
  | Storage.JStr s => stringText s
  | Storage.JArray items =>
      utf16 "[" ++ join 44 (List.map stringify items) ++ utf16 "]"
  | Storage.JObject fields =>
      utf16 "{"
      ++ join 44 (List.map (fun kv => stringText (fst kv) ++ utf16 ":" ++ stringify (snd kv))
                           fields)
      ++ utf16 "}"
  end.

(** *** [toISOString], for the years 0 to 9999 *)

(** The civil date of a day number counted from 1970-01-01. *)
Definition civilFromDays (days : Z) : Z * Z * Z :=
  (let z := days + 719468 in
   let era := z / 146097 in
   let doe := z - era * 146097 in
   let yoe := (doe - doe / 1460 + doe / 36524 - doe / 146096) / 365 in
   let doy := doe - (365 * yoe + yoe / 4 - yoe / 100) in
   let mp := (5 * doy + 2) / 153 in
   let d := doy - (153 * mp + 2) / 5 + 1 in
   let m := if mp <? 10 then mp + 3 else mp - 9 in
   let y := yoe + era * 400 + (if m <=? 2 then 1 else 0) in
   (y, m, d))%Z.

Definition isoText (t : Z) : JSString :=
  let '(y, m, d) := civilFromDays (t / msPerDay) in
  let ms := (t mod msPerDay)%Z in
  padded 4 y ++ utf16 "-" ++ padded 2 m ++ utf16 "-" ++ padded 2 d ++ utf16 "T"
  ++ padded 2 (ms / 3600000) ++ utf16 ":" ++ padded 2 (ms / 60000 mod 60) ++ utf16 ":"
  ++ padded 2 (ms / 1000 mod 60) ++ utf16 "." ++ padded 3 (ms mod 1000) ++ utf16 "Z".

(** The data of a parse that succeeded, and a store that takes writes. *)
Definition emptyStore : LocalStorage.t :=
  {| LocalStorage.items := []; LocalStorage.denied := false; LocalStorage.full := false |}.

Definition sampleData : option (@ParsedData Cell) :=
  match parseCSV libs ticking sampleExport with
  | Return pd => Some pd
  | Throw _ => None
  end.

(** The transaction as the interface declares it, where its text fields
    hold strings. *)
Definition textOf (c : Cell) : option JSString :=
  match c with
  | Text s => Some s
  | Extra _ => None
  end.

Definition declared (t : @Transaction Cell) : option (@Transaction JSString) :=
  currency ← textOf (Transaction.currency t);
  counterparty ← textOf (Transaction.counterparty t);
  description ← textOf (Transaction.description t);
  category ← textOf (Transaction.category t);
  variableSymbol ← textOf (Transaction.variableSymbol t);
  note ← textOf (Transaction.note t);
  operationType ← textOf (Transaction.operationType t);
  Some {| Transaction.id := Transaction.id t;
          Transaction.date := Transaction.date t;
          Transaction.amount := Transaction.amount t;
          Transaction.currency := currency;
          Transaction.counterparty := counterparty;
          Transaction.description := description;
          Transaction.category := category;
          Transaction.variableSymbol := variableSymbol;
          Transaction.note := note;
          Transaction.operationType := operationType;
          Transaction.internal := Transaction.internal t |}.

Definition declaredData (pd : @ParsedData Cell) : option (@ParsedData JSString) :=
  txs ← Storage.mapThrowing declared (transactions pd);
  Some {| bankName := bankName pd; transactions := txs; dateRange := dateRange pd |}.

Definition noData : @ParsedData JSString :=
  {| bankName := []; transactions := [];
     dateRange := {| from := InvalidDate; to := InvalidDate |} |}.

Definition parsedSample : @ParsedData JSString :=
  default noData (sampleData ≫= declaredData).
End Reference.


(** ** Notions the further statements use *)

(** The same text with Windows line ends: a carriage return before every
    line feed. *)
Definition crlf (content : JSString) : JSString :=
  flat_map (fun u => if u =? 10 then [13; 10] else [u]) content.

(** The transaction is dated at the time value [d]. *)
Definition dateIs {V} (d : Z) (t : @Transaction V) : bool :=
  match Transaction.date t with
  | DateAt x => (x =? d)%Z
  | InvalidDate => false
  end.

(** What holds of a record that is kept. *)
Definition wellFormed {V} (t : @Transaction V) : Prop :=
  Transaction.internal t = false
  /\ (Transaction.amount t =? 0)%float = false
  /\ is_nan (Transaction.amount t) = false
  /\ exists x, Transaction.date t = DateAt x.

(** The transaction but for its id. *)
Definition unnumbered {V} (t : @Transaction V) : @Transaction V := setId 0 t.

(** The categories the rules can give. *)
Definition taxonomy : list JSString :=
  List.map utf16
    [ "Potraviny"; "Restaurace"; "Tankování"; "Energie"; "TV, internet, telefon";
      "Vybavení domácnosti"; "Provoz domácnosti"; "Splátky"; "Doprava"; "Zdraví";
      "Zábava"; "Nákupy a služby"; "Ostatní" ]%string.

(** [o.k] on a restored object *)
Fixpoint getProp (o : Storage.Obj) (k : JSString) : option Storage.Value :=
  match o with
  | [] => None
  | (k', v) :: o' => if str_eqb k' k then Some v else getProp o' k
  end.

(** Every date the data and the selected range hold. *)
Definition datesOf {V} (data : @ParsedData V) (selectedRange : option DateRange)
  : list Date :=
  from (dateRange data) :: to (dateRange data)
  :: List.map Transaction.date (transactions data)
  ++ match selectedRange with
     | Some r => [from r; to r]
     | None => []
     end.

(** The date is valid and [new Date] reads it back from its ISO text. *)
Definition readsBack (Date_of : option Storage.JSON -> Date) (toISOString : Z -> JSString)
           (d : Date) : Prop :=
  exists x, d = DateAt x /\ Date_of (Some (Storage.JStr (toISOString x))) = DateAt x.

(** The lengths from [p] on, [fuel] of them, are truthy as numbers. *)
Fixpoint lengthsTruthy (fuel : nat) (p : positive) : bool :=
  match fuel with
  | O => true
  | S fuel' =>
      Storage.truthy
        (Some (Storage.JNumber (SF2Prim (binary_normalize prec emax (Z.pos p) 0 false))))
      && lengthsTruthy fuel' (Pos.succ p)
  end.

(** What a run of save and load gives back for the data. *)
Definition restoredFrom (data : @ParsedData JSString) (selectedRange : option DateRange)
  : Storage.LoadFromStorageResult :=
  {| Storage.data :=
       {| Storage.bankName :=
            match bankName data with
            | [] => Storage.JStr (utf16 "Saved data")
            | name => Storage.JStr name
            end;
          Storage.transactions := List.map Storage.objectOf (transactions data);
          Storage.dateRange := dateRange data |};
     Storage.selectedRange := default (dateRange data) selectedRange |}.

(** * Properties *)

(** ** The sort *)

Section Sorting.
Context {A : Type} (cmp : A -> A -> Z).

Lemma insertBy_Permutation x l : insertBy cmp x l ≡ₚ x :: l.
Proof.
  induction l as [|y l IH]; simpl; [done|].
  destruct (cmp x y <=? 0)%Z; [done|].
  rewrite IH. apply Permutation_swap.
Qed.

Lemma Array_sort_Permutation l : Array_sort cmp l ≡ₚ l.
Proof.
  induction l as [|x l IH]; simpl; [done|].
  rewrite insertBy_Permutation. by f_equiv.
Qed.

Lemma Array_sort_length l : length (Array_sort cmp l) = length l.
Proof. by rewrite Array_sort_Permutation. Qed.

(** Where the comparator is the difference of a key, the result is in
    non-increasing order of the key. *)
Variable key : A -> Z.
Variable ok : A -> Prop.
Hypothesis cmp_key : forall x y, ok x -> ok y -> cmp x y = (key y - key x)%Z.

Let descending (a b : A) : Prop := (key b <= key a)%Z.

Lemma insertBy_sorted x l :
  ok x -> Forall ok l ->
  StronglySorted descending l -> StronglySorted descending (insertBy cmp x l).
Proof.
  intros Hx Hl Hs. induction Hs as [|y l Hs IH Hy]; simpl.
  - repeat constructor.
  - inversion_clear Hl as [|? ? Hoy Hol].
    destruct (Z.leb_spec (cmp x y) 0) as [Hle|Hgt].
    + rewrite (cmp_key x y Hx Hoy) in Hle.
      constructor; [by constructor|].
      constructor; [unfold descending; lia|].
      eapply Forall_impl; [exact Hy|]. unfold descending. intros; simpl in *; lia.
    + rewrite (cmp_key x y Hx Hoy) in Hgt.
      constructor; [by apply IH|].
      rewrite insertBy_Permutation. constructor; [unfold descending; lia|done].
Qed.

Lemma Array_sort_sorted l :
  Forall ok l -> StronglySorted descending (Array_sort cmp l).
Proof.
  induction 1 as [|x l Hx Hl IH]; simpl; [constructor|].
  apply insertBy_sorted; [done| |done].
  by rewrite Array_sort_Permutation.
Qed.
End Sorting.

(** ** The pipeline, step by step *)

Section PipelineFacts.
Variable L : Libs.

Lemma parseDate_valid refs str d :
  parseDate L refs str = Some d -> isValid d = true.
Proof.
  unfold parseDate. destruct str as [[|c s]|]; try discriminate.
  repeat (match goal with
          | |- context [if isValid ?x then _ else _] =>
              let E := fresh "E" in destruct (isValid x) eqn:E
          end; [intros [= <-]; assumption|]).
  discriminate.
Qed.

Lemma selectFormat_eq firstLines :
  selectFormat L firstLines =
    if detect (csob L) firstLines then csob L
    else if detect (moneta L) firstLines then moneta L
    else if detect (kb L) firstLines then kb L
    else generic L.
Proof.
  unfold selectFormat, BANK_FORMATS. cbn [detectLoop].
  replace (str_eqb (utf16 "csob") (utf16 "generic")) with false by (vm_compute; reflexivity).
  replace (str_eqb (utf16 "moneta") (utf16 "generic")) with false by (vm_compute; reflexivity).
  replace (str_eqb (utf16 "kb") (utf16 "generic")) with false by (vm_compute; reflexivity).
  replace (str_eqb (utf16 "generic") (utf16 "generic")) with true by (vm_compute; reflexivity).
  repeat (match goal with |- context [if ?b then _ else _] => destruct b end; try reflexivity).
Qed.

Lemma selectFormat_cases firstLines :
  let f := selectFormat L firstLines in
  f = csob L \/ f = moneta L \/ f = kb L \/ f = generic L.
Proof.
  cbv zeta. rewrite selectFormat_eq.
  repeat (match goal with |- context [if ?b then _ else _] => destruct b end); auto.
Qed.

Lemma parseDateCell_valid refs v d :
  parseDateCell L refs v = Some d -> isValid d = true.
Proof.
  destruct v as [[str|items]|]; cbn [parseDateCell]; try apply parseDate_valid.
  cbv zeta.
  repeat (match goal with
          | |- context [if isValid ?x then _ else _] =>
              let E := fresh "E" in destruct (isValid x) eqn:E
          end; [intros [= <-]; assumption|]).
  discriminate.
Qed.

Lemma bankRow_Some date amount currency counterparty description category
      variableSymbol mapped :
  bankRow date amount currency counterparty description category variableSymbol
  = Some mapped ->
  MappedRow.date mapped = date /\ MappedRow.amount mapped = amount.
Proof.
  unfold bankRow. destruct category; [|discriminate]. by intros [= <-].
Qed.

Lemma bankRow_None date amount currency counterparty description category
      variableSymbol :
  bankRow date amount currency counterparty description category variableSymbol = None
  <-> category = None.
Proof. unfold bankRow. by destruct category. Qed.

Local Opaque parseDateCell parseCzechNumberCell.

(** Each registered format takes its date from [parseDate] and its amount
    from [parseCzechNumber]. *)
Lemma registered_map firstLines refs row mapped :
  map (selectFormat L firstLines) refs row = Some mapped ->
  exists v w,
    MappedRow.date mapped = parseDateCell L refs v
    /\ MappedRow.amount mapped = parseCzechNumberCell w.
Proof.
  destruct (selectFormat_cases firstLines) as [-> | [-> | [-> | ->]]];
    cbn [map csob moneta kb generic].
  - intros [= <-]. cbn [MappedRow.date MappedRow.amount]. eauto.
  - intros H. apply bankRow_Some in H as [-> ->]. eauto.
  - intros H. apply bankRow_Some in H as [-> ->]. eauto.
  - intros H. apply bankRow_Some in H as [-> ->]. eauto.
Qed.
Local Transparent parseDateCell parseCzechNumberCell.

Lemma registered_map_date firstLines refs row mapped :
  map (selectFormat L firstLines) refs row = Some mapped ->
  exists v, MappedRow.date mapped = parseDateCell L refs v.
Proof.
  intros H. destruct (registered_map _ _ _ _ H) as (v & _ & Hd & _). eauto.
Qed.

Lemma mapRecord_valid firstLines refs index row t :
  mapRecord (selectFormat L firstLines) refs index row = Some t -> validDate t.
Proof.
  unfold mapRecord.
  destruct (map _ refs row) as [mapped|] eqn:Hm; [|discriminate].
  destruct (registered_map_date _ _ _ _ Hm) as [str Hd].
  destruct (MappedRow.date mapped) as [d|] eqn:Ed; [|discriminate].
  destruct (_ =? _)%float; [discriminate|].
  intros [= <-]. unfold validDate; cbn. eapply parseDateCell_valid. symmetry; exact Hd.
Qed.

Lemma keptRecords_valid firstLines clock data :
  Forall validDate (keptRecords (selectFormat L firstLines) clock data).
Proof.
  unfold keptRecords. apply Forall_forall. intros t Ht.
  apply list_elem_of_omap in Ht as (o & Ho & Heq).
  apply list_elem_of_lookup in Ho as [i Hi].
  rewrite list_lookup_imap in Hi.
  destruct (data !! i) as [row|]; [|discriminate]. cbn in Hi.
  injection Hi as <-. eapply mapRecord_valid. exact Heq.
Qed.
End PipelineFacts.

Section SortedLookup.
Context {A : Type} (R : relation A).

Lemma StronglySorted_lookup l i j a b :
  StronglySorted R l -> (i < j)%nat ->
  l !! i = Some a -> l !! j = Some b -> R a b.
Proof.
  intros Hs. revert i j. induction Hs as [|x l Hs IH Hx]; intros i j Hij Hi Hj.
  - discriminate.
  - destruct j as [|j]; [lia|]. cbn in Hj.
    destruct i as [|i]; cbn in Hi.
    + injection Hi as <-. eapply Forall_lookup_1; eauto.
    + eapply (IH i j); [lia|done..].
Qed.
End SortedLookup.

Section SuccessfulParse.
Variable L : Libs.

Lemma byDateDescending_key {V} (a b : @Transaction V) :
  validDate a -> validDate b -> byDateDescending a b = (timeOf b - timeOf a)%Z.
Proof.
  unfold validDate, byDateDescending, timeOf.
  destruct (Transaction.date a), (Transaction.date b); cbn; congruence.
Qed.

Lemma validDate_time {V} (t : @Transaction V) : validDate t -> Transaction.date t = DateAt (timeOf t).
Proof. unfold validDate, timeOf. destruct (Transaction.date t); cbn; congruence. Qed.

Lemma imap_setId_ids {V} k (l : list (@Transaction V)) :
  List.map Transaction.id (imap (fun i => setId (k + i)) l) = seq k (length l).
Proof.
  revert k. induction l as [|t l IH]; intros k; [reflexivity|].
  rewrite imap_cons. cbn [List.map length seq]. f_equal.
  - cbn. lia.
  - rewrite <- (IH (S k)). f_equal. apply imap_ext. intros i x _. cbn.
    f_equal. lia.
Qed.

(** What a successful run went through. *)
Lemma parseSelected_Return format clock lines pd :
  parseSelected L format clock lines = Return pd ->
  exists data oldest newest rest,
    let kept := keptRecords format clock data in
    kept <> []
    /\ transactions pd = imap setId (Array_sort byDateDescending kept)
    /\ transactions pd = newest :: rest
    /\ last (transactions pd) = Some oldest
    /\ dateRange pd = {| from := Transaction.date oldest; to := Transaction.date newest |}
    /\ bankName pd = name format.
Proof.
  unfold parseSelected.
  destruct (_ <? 0)%Z; [discriminate|].
  set (result := Papa_parse L _ _).
  destruct (if (0 <? length (Papa.errors result))%nat then _ else _); [discriminate|].
  set (kept := keptRecords format clock (Papa.data result)).
  destruct (Nat.eqb_spec (length kept) 0) as [|Hne]; [discriminate|].
  destruct (last _) as [oldest|] eqn:Hlast; [|discriminate].
  destruct (imap setId _) as [|newest rest] eqn:Himap; [discriminate|].
  intros [= <-]. exists (Papa.data result), oldest, newest, rest. cbn.
  repeat split; try done.
  intros E. fold kept in E. rewrite E in Hne. done.
Qed.

Lemma parseCSV_Return clock fileContent pd :
  parseCSV L clock fileContent = Return pd ->
  exists kept oldest newest rest,
    Forall validDate kept
    /\ kept <> []
    /\ transactions pd = imap setId (Array_sort byDateDescending kept)
    /\ transactions pd = newest :: rest
    /\ last (transactions pd) = Some oldest
    /\ dateRange pd = {| from := Transaction.date oldest; to := Transaction.date newest |}.
Proof.
  unfold parseCSV. cbv zeta. intros H.
  apply parseSelected_Return in H as (data & oldest & newest & rest & H).
  cbv zeta in H. destruct H as (Hne & Ht & Hcons & Hlast & Hrange & _).
  eexists _, oldest, newest, rest.
  split; [apply keptRecords_valid|]. eauto 6.
Qed.

(** The transactions returned, before their ids were set: valid dates, in
    non-increasing order. *)
Lemma sorted_kept {V} (kept : list (@Transaction V)) :
  Forall validDate kept ->
  let sorted := Array_sort byDateDescending kept in
  Forall validDate sorted
  /\ StronglySorted (fun a b => (timeOf b <= timeOf a)%Z) sorted.
Proof.
  intros Hv. split.
  - by rewrite Array_sort_Permutation.
  - apply (Array_sort_sorted byDateDescending timeOf validDate); [|done].
    intros; by apply byDateDescending_key.
Qed.

Lemma lookup_numbered {V} (sorted : list (@Transaction V)) i t :
  imap setId sorted !! i = Some t ->
  exists t', sorted !! i = Some t' /\ Transaction.date t = Transaction.date t'.
Proof.
  rewrite list_lookup_imap. destruct (sorted !! i) as [t'|]; [|discriminate].
  intros [= <-]. eauto.
Qed.
End SuccessfulParse.

(** Dates do not increase along the list returned. *)
Lemma successful_parse_order (L : Libs) (clock : nat -> nat -> Z)
      (fileContent : JSString) (pd : ParsedData) :
  parseCSV L clock fileContent = Return pd ->
  forall i j a b,
    (i <= j)%nat ->
    transactions pd !! i = Some a -> transactions pd !! j = Some b ->
    exists ta tb,
      Transaction.date a = DateAt ta /\ Transaction.date b = DateAt tb /\ (tb <= ta)%Z.
Proof.
  intros H. apply parseCSV_Return in H as (kept & _ & _ & _ & Hv & _ & Ht & _).
  destruct (sorted_kept kept Hv) as [Hvs Hs]. cbv zeta in *.
  set (sorted := Array_sort byDateDescending kept) in *. rewrite Ht.
  intros i j a b Hij Ha Hb.
  apply lookup_numbered in Ha as (a' & Ha & ->).
  apply lookup_numbered in Hb as (b' & Hb & ->).
  exists (timeOf a'), (timeOf b').
  pose proof (Forall_lookup_1 _ _ _ _ Hvs Ha) as Hva.
  pose proof (Forall_lookup_1 _ _ _ _ Hvs Hb) as Hvb.
  split; [by apply validDate_time|]. split; [by apply validDate_time|].
  destruct (decide (i = j)) as [->|Hne].
  - rewrite Ha in Hb. injection Hb as ->. lia.
  - apply (StronglySorted_lookup (fun a b => (timeOf b <= timeOf a)%Z) sorted i j a' b');
      [done|lia|done..].
Qed.

Section Dropping.
Variable L : Libs.

Lemma omap_imap_nil {A B} (f : nat -> A -> option B) (l : list A) :
  omap (fun x => x) (imap f l) = [] <-> forall i x, l !! i = Some x -> f i x = None.
Proof.
  revert f. induction l as [|a l IH]; intros f.
  - split; [intros _ i x H; discriminate|reflexivity].
  - rewrite imap_cons. cbn [omap list_omap]. split.
    + destruct (f 0%nat a) as [b|] eqn:E; [discriminate|].
      intros H [|i] x Hx; cbn in Hx; [congruence|].
      apply (proj1 (IH (f ∘ S)) H i x Hx).
    + intros H. rewrite (H 0%nat a eq_refl).
      apply IH. intros i x Hx. apply (H (S i) x Hx).
Qed.

Lemma everyRecordDropped_kept clock fileContent :
  everyRecordDropped L clock fileContent <->
  keptRecords (formatOf L fileContent) clock (Papa.data (parsedOf L fileContent)) = [].
Proof. unfold everyRecordDropped, keptRecords. symmetry. apply omap_imap_nil. Qed.

Lemma parseCSV_stages clock fileContent :
  parseCSV L clock fileContent
  = parseSelected L (formatOf L fileContent) clock (linesOf fileContent).
Proof. reflexivity. Qed.

Lemma parseCSV_nonempty clock fileContent pd :
  parseCSV L clock fileContent = Return pd -> transactions pd <> [].
Proof.
  intros H. apply parseCSV_Return in H as (? & ? & ? & ? & _ & _ & _ & Hcons & _).
  rewrite Hcons. discriminate.
Qed.

Lemma parseCSV_all_dropped clock fileContent :
  headerLocated L fileContent ->
  everyRecordDropped L clock fileContent ->
  ~ criticalFailure L fileContent ->
  parseCSV L clock fileContent = Throw msgNoValidTransactions.
Proof.
  intros Hh Hd Hc. rewrite parseCSV_stages. unfold parseSelected.
  apply everyRecordDropped_kept in Hd.
  unfold headerLocated in Hh. apply Z.ltb_ge in Hh. rewrite Hh.
  unfold criticalFailure, parsedOf in Hc. cbv zeta in Hc.
  unfold parsedOf in Hd. cbv zeta in Hd.
  set (result := Papa_parse L _ _) in *.
  rewrite Hd. cbn [length Nat.eqb].
  destruct (0 <? length (Papa.errors result))%nat; [|reflexivity].
  destruct (List.filter isCritical (Papa.errors result)) as [|e es]; [reflexivity|].
  destruct (Papa.data result); [|reflexivity].
  exfalso. apply Hc. split; [discriminate|reflexivity].
Qed.

Lemma parseCSV_critical clock fileContent :
  headerLocated L fileContent ->
  criticalFailure L fileContent ->
  exists message, parseCSV L clock fileContent = Throw (msgParsingError message).
Proof.
  intros Hh [Hc Hd]. rewrite parseCSV_stages. unfold parseSelected.
  unfold headerLocated in Hh. apply Z.ltb_ge in Hh. rewrite Hh.
  unfold parsedOf in Hc, Hd. cbv zeta in Hc, Hd.
  set (result := Papa_parse L _ _) in *. rewrite Hd.
  destruct (List.filter isCritical (Papa.errors result)) as [|e es] eqn:Ef; [done|].
  destruct (Papa.errors result) as [|e' es']; [discriminate|].
  cbn [length Nat.ltb Nat.leb]. eauto.
Qed.
End Dropping.

(** ** The claims *)

(** C1. After a successful parse the transactions are in non-increasing
    order of date, newest first (every date being a valid one), and their
    ids, read in list order, are 0, 1, ..., N-1. *)
Theorem parseCSV_sorted_and_numbered (L : Libs) (clock : nat -> nat -> Z)
        (fileContent : JSString) (pd : ParsedData) :
  parseCSV L clock fileContent = Return pd ->
  (forall i j a b,
      (i <= j)%nat ->
      transactions pd !! i = Some a -> transactions pd !! j = Some b ->
      exists ta tb,
        Transaction.date a = DateAt ta /\ Transaction.date b = DateAt tb /\ (tb <= ta)%Z)
  /\ List.map Transaction.id (transactions pd) = seq 0 (length (transactions pd)).
Proof.
  intros H. split; [exact (successful_parse_order L clock fileContent pd H)|].
  apply parseCSV_Return in H as (kept & _ & _ & _ & _ & _ & Ht & _).
  set (sorted := Array_sort byDateDescending kept) in *.
  rewrite Ht, length_imap. apply (imap_setId_ids 0).
Qed.

Lemma parseCSV_sorted_and_numbered_witness :
  exists pd,
    parseCSV Reference.libs Reference.ticking Reference.sampleExport = Return pd
    /\ List.map Transaction.id (transactions pd) = seq 0 (length (transactions pd))
    /\ length (transactions pd) = 3%nat.
Proof.
  assert (H : exists pd,
             parseCSV Reference.libs Reference.ticking Reference.sampleExport = Return pd
             /\ length (transactions pd) = 3%nat)
    by (eexists; vm_compute; split; reflexivity).
  destruct H as (pd & H & Hlen). exists pd. split; [exact H|]. split; [|exact Hlen].
  exact (proj2 (parseCSV_sorted_and_numbered Reference.libs Reference.ticking
                  Reference.sampleExport pd H)).
Defined.

(** C2. After a successful parse [dateRange.from] is the least date over the
    transactions returned and [dateRange.to] the greatest: both are dates of
    transactions in the list, every date lies between them, and so
    [from <= to]. *)
Theorem parseCSV_dateRange (L : Libs) (clock : nat -> nat -> Z)
        (fileContent : JSString) (pd : ParsedData) :
  parseCSV L clock fileContent = Return pd ->
  exists lo hi,
    from (dateRange pd) = DateAt lo
    /\ to (dateRange pd) = DateAt hi
    /\ (exists t, t ∈ transactions pd /\ Transaction.date t = DateAt lo)
    /\ (exists t, t ∈ transactions pd /\ Transaction.date t = DateAt hi)
    /\ (forall t, t ∈ transactions pd ->
          exists x, Transaction.date t = DateAt x /\ (lo <= x <= hi)%Z)
    /\ (lo <= hi)%Z.
Proof.
  intros H.
  pose proof (successful_parse_order L clock fileContent pd H) as Hsorted.
  apply parseCSV_Return in H as (kept & oldest & newest & rest & _ & _ & _ & Hcons & Hlast & Hrange).
  assert (Hnew : transactions pd !! 0%nat = Some newest) by (by rewrite Hcons).
  assert (Hold : transactions pd !! pred (length (transactions pd)) = Some oldest)
    by (by rewrite <- last_lookup).
  destruct (Hsorted _ _ _ _ (Nat.le_0_l _) Hnew Hold) as (hi & lo & Hhi & Hlo & Hle).
  exists lo, hi. rewrite Hrange. cbn [from to].
  split; [done|]. split; [done|].
  split; [exists oldest; split; [by eapply list_elem_of_lookup_2|done]|].
  split; [exists newest; split; [by eapply list_elem_of_lookup_2|done]|].
  split; [|done].
  intros t Ht. apply list_elem_of_lookup_1 in Ht as [i Hi].
  assert (Hlt : (i < length (transactions pd))%nat)
    by (apply lookup_lt_is_Some; eauto).
  destruct (Hsorted _ _ _ _ (Nat.le_0_l i) Hnew Hi) as (hi' & x & Hhi' & Hx & Hxhi).
  destruct (Hsorted i (pred (length (transactions pd))) _ _ ltac:(lia) Hi Hold)
    as (x' & lo' & Hx' & Hlo' & Hlox).
  exists x. split; [done|]. 
  rewrite Hhi in Hhi'. rewrite Hlo in Hlo'. rewrite Hx in Hx'.
  injection Hhi' as <-. injection Hlo' as <-. injection Hx' as <-. lia.
Qed.

Lemma parseCSV_dateRange_witness :
  exists pd,
    parseCSV Reference.libs Reference.ticking Reference.sampleExport = Return pd
    /\ exists lo hi,
        from (dateRange pd) = DateAt lo /\ to (dateRange pd) = DateAt hi /\ (lo <= hi)%Z.
Proof.
  assert (H : exists pd,
             parseCSV Reference.libs Reference.ticking Reference.sampleExport = Return pd)
    by (eexists; vm_compute; reflexivity).
  destruct H as (pd & H). exists pd. split; [exact H|].
  destruct (parseCSV_dateRange Reference.libs Reference.ticking
              Reference.sampleExport pd H)
    as (lo & hi & Hlo & Hhi & _ & _ & _ & Hle).
  exists lo, hi. auto.
Defined.

(** C3, as stated, fails: the header of this file is located and none of its
    records survives (it has none), yet the run ends in the parse error of
    the delimited stage, not in "No valid transactions". *)
Lemma parseCSV_unterminated_header_other_error :
  headerLocated Reference.libs Reference.unterminatedHeader
  /\ everyRecordDropped Reference.libs Reference.ticking Reference.unterminatedHeader
  /\ parseCSV Reference.libs Reference.ticking Reference.unterminatedHeader
     = Throw (msgParsingError (utf16 "Quoted field unterminated"))
  /\ parseCSV Reference.libs Reference.ticking Reference.unterminatedHeader
     <> Throw msgNoValidTransactions.
Proof.
  split; [apply Z.leb_le; vm_compute; reflexivity|].
  split; [apply everyRecordDropped_kept; vm_compute; reflexivity|].
  split; [vm_compute; reflexivity|].
  vm_compute. discriminate.
Qed.

(** C3, amended.  [parseCSV] never returns an empty transaction list; and
    when the header row was located and every record is filtered out, it
    fails with "No valid transactions" unless the delimited parse reported
    an error other than a field mismatch together with no record, in which
    case it fails with that parse error. *)
Theorem parseCSV_no_empty_success (L : Libs) (clock : nat -> nat -> Z)
        (fileContent : JSString) :
  (forall pd, parseCSV L clock fileContent = Return pd -> transactions pd <> [])
  /\ (headerLocated L fileContent ->
      everyRecordDropped L clock fileContent ->
      (~ criticalFailure L fileContent ->
       parseCSV L clock fileContent = Throw msgNoValidTransactions)
      /\ (criticalFailure L fileContent ->
          exists message, parseCSV L clock fileContent = Throw (msgParsingError message))).
Proof.
  split; [intros pd; apply parseCSV_nonempty|].
  intros Hh Hd. split.
  - by apply parseCSV_all_dropped.
  - by apply parseCSV_critical.
Qed.

Lemma parseCSV_no_empty_success_witness :
  (headerLocated Reference.libs Reference.droppedExport
   /\ everyRecordDropped Reference.libs Reference.ticking Reference.droppedExport
   /\ ~ criticalFailure Reference.libs Reference.droppedExport
   /\ parseCSV Reference.libs Reference.ticking Reference.droppedExport
      = Throw msgNoValidTransactions)
  /\ (headerLocated Reference.libs Reference.extraCellExport
      /\ (exists row,
            Papa.data (parsedOf Reference.libs Reference.extraCellExport) = [row]
            /\ map (formatOf Reference.libs Reference.extraCellExport)
                   (Reference.ticking 0) row = None)
      /\ everyRecordDropped Reference.libs Reference.ticking Reference.extraCellExport
      /\ parseCSV Reference.libs Reference.ticking Reference.extraCellExport
         = Throw msgNoValidTransactions).
Proof.
  split.
  - assert (Hh : headerLocated Reference.libs Reference.droppedExport)
      by (apply Z.leb_le; vm_compute; reflexivity).
    assert (Hd : everyRecordDropped Reference.libs Reference.ticking Reference.droppedExport)
      by (apply everyRecordDropped_kept; vm_compute; reflexivity).
    assert (Hc : ~ criticalFailure Reference.libs Reference.droppedExport)
      by (intros [_ H]; vm_compute in H; discriminate).
    split; [exact Hh|]. split; [exact Hd|]. split; [exact Hc|].
    exact (proj1 (proj2 (parseCSV_no_empty_success Reference.libs Reference.ticking
                           Reference.droppedExport) Hh Hd) Hc).
  - assert (Hh : headerLocated Reference.libs Reference.extraCellExport)
      by (apply Z.leb_le; vm_compute; reflexivity).
    assert (Hm : exists row,
               Papa.data (parsedOf Reference.libs Reference.extraCellExport) = [row]
               /\ map (formatOf Reference.libs Reference.extraCellExport)
                      (Reference.ticking 0) row = None)
      by (eexists; split; [vm_compute; reflexivity|vm_compute; reflexivity]).
    assert (Hd : everyRecordDropped Reference.libs Reference.ticking
                   Reference.extraCellExport)
      by (apply everyRecordDropped_kept; vm_compute; reflexivity).
    assert (Hc : ~ criticalFailure Reference.libs Reference.extraCellExport)
      by (intros [_ H]; vm_compute in H; discriminate).
    split; [exact Hh|]. split; [exact Hm|]. split; [exact Hd|].
    exact (proj1 (proj2 (parseCSV_no_empty_success Reference.libs Reference.ticking
                           Reference.extraCellExport) Hh Hd) Hc).
Defined.

(** ** Independence of the clock *)

Section Clock.
Variable L : Libs.
Hypothesis ignore : layoutsIgnoreReference L.

Lemma layout_in (layout : JSString) :
  layout = utf16 "dd.MM.yyyy" \/ layout = utf16 "d.M.yyyy"
  \/ layout = utf16 "yyyy-MM-dd" \/ layout = utf16 "dd/MM/yyyy" ->
  In layout layouts.
Proof. unfold layouts. cbn [In]. intuition. Qed.

Lemma parseDate_clock refs1 refs2 str :
  parseDate L refs1 str = parseDate L refs2 str.
Proof.
  unfold parseDate. destruct str as [[|c s]|]; try reflexivity.
  rewrite (ignore _ (utf16 "dd.MM.yyyy") (refs1 0%nat) (refs2 0%nat)) by (apply layout_in; auto).
  rewrite (ignore _ (utf16 "d.M.yyyy") (refs1 1%nat) (refs2 1%nat)) by (apply layout_in; auto).
  rewrite (ignore _ (utf16 "yyyy-MM-dd") (refs1 2%nat) (refs2 2%nat)) by (apply layout_in; auto).
  rewrite (ignore _ (utf16 "dd/MM/yyyy") (refs1 3%nat) (refs2 3%nat)) by (apply layout_in; auto 6).
  reflexivity.
Qed.

Lemma parseDateCell_clock refs1 refs2 v :
  parseDateCell L refs1 v = parseDateCell L refs2 v.
Proof.
  destruct v as [[str|items]|]; cbn [parseDateCell]; try apply parseDate_clock.
  cbv zeta.
  rewrite (ignore _ (utf16 "dd.MM.yyyy") (refs1 0%nat) (refs2 0%nat)) by (apply layout_in; auto).
  rewrite (ignore _ (utf16 "d.M.yyyy") (refs1 1%nat) (refs2 1%nat)) by (apply layout_in; auto).
  rewrite (ignore _ (utf16 "yyyy-MM-dd") (refs1 2%nat) (refs2 2%nat)) by (apply layout_in; auto).
  rewrite (ignore _ (utf16 "dd/MM/yyyy") (refs1 3%nat) (refs2 3%nat)) by (apply layout_in; auto 6).
  reflexivity.
Qed.

Local Opaque parseDateCell.

Lemma registered_map_clock firstLines refs1 refs2 row :
  map (selectFormat L firstLines) refs1 row = map (selectFormat L firstLines) refs2 row.
Proof.
  destruct (selectFormat_cases L firstLines) as [-> | [-> | [-> | ->]]];
    cbn [map csob moneta kb generic];
    by rewrite (parseDateCell_clock refs1 refs2).
Qed.

Local Transparent parseDateCell.

Lemma keptRecords_clock firstLines clock1 clock2 data :
  keptRecords (selectFormat L firstLines) clock1 data
  = keptRecords (selectFormat L firstLines) clock2 data.
Proof.
  unfold keptRecords. f_equal. apply imap_ext. intros i row _.
  unfold mapRecord. by rewrite (registered_map_clock firstLines (clock1 i) (clock2 i)).
Qed.

Lemma parseCSV_clock clock1 clock2 fileContent :
  parseCSV L clock1 fileContent = parseCSV L clock2 fileContent.
Proof.
  unfold parseCSV, parseSelected. cbv zeta.
  by rewrite (keptRecords_clock _ clock1 clock2).
Qed.
End Clock.

(** C4.  [parseCSV] is a function of the file content alone: the readings
    of the system clock it hands to the date layouts as reference dates do
    not show in the result, the layouts setting year, month and day and the
    time to midnight themselves; so two runs on the same content return the
    same structure in every component, or throw the same error. *)
Theorem parseCSV_deterministic (L : Libs) :
  layoutsIgnoreReference L ->
  forall (clock1 clock2 : nat -> nat -> Z) (fileContent : JSString),
    parseCSV L clock1 fileContent = parseCSV L clock2 fileContent.
Proof. intros H clock1 clock2 fileContent. by apply parseCSV_clock. Qed.

Lemma parseCSV_deterministic_witness :
  layoutsIgnoreReference Reference.libs
  /\ parseCSV Reference.libs (Reference.clockAt 0) Reference.sampleExport
     = parseCSV Reference.libs Reference.ticking Reference.sampleExport.
Proof.
  assert (H : layoutsIgnoreReference Reference.libs)
    by (intros dateString layout r1 r2 _; reflexivity).
  split; [exact H|].
  exact (parseCSV_deterministic Reference.libs H (Reference.clockAt 0) Reference.ticking
           Reference.sampleExport).
Defined.

(** ** Outcomes of the pipeline *)

Section Outcomes.
Variable L : Libs.

Lemma str_eqb_eq (a b : JSString) : str_eqb a b = true <-> a = b.
Proof.
  revert b. induction a as [|c a IH]; intros [|d b]; cbn; try (split; congruence).
  rewrite andb_true_iff, N.eqb_eq, IH. split; [intros [-> ->]; done|intros [= -> ->]; done].
Qed.

Lemma str_eqb_refl (a : JSString) : str_eqb a a = true.
Proof. by apply str_eqb_eq. Qed.

(** The guard on the errors of the delimited parse. *)
Lemma critical_guard (result : Papa.ParseResult) :
  let guard :=
    if (0 <? length (Papa.errors result))%nat then
      match List.filter isCritical (Papa.errors result), Papa.data result with
      | e :: _, [] => Some (msgParsingError (Papa.message e))
      | _, _ => None
      end
    else None in
  (guard = None
   /\ ~ (List.filter isCritical (Papa.errors result) <> [] /\ Papa.data result = []))
  \/ (exists e rest,
        List.filter isCritical (Papa.errors result) = e :: rest
        /\ Papa.data result = []
        /\ guard = Some (msgParsingError (Papa.message e))).
Proof.
  cbv zeta.
  destruct (List.filter isCritical (Papa.errors result)) as [|e es] eqn:Ef.
  - left. split; [by destruct (0 <? _)%nat|]. intros [H _]. by apply H.
  - assert (Hpos : (0 <? length (Papa.errors result))%nat = true).
    { destruct (Papa.errors result); [discriminate|reflexivity]. }
    rewrite Hpos. destruct (Papa.data result) as [|r rs].
    + right. exists e, es. done.
    + left. split; [done|]. intros [_ H]. discriminate.
Qed.

(** The four ways a run ends. *)
Lemma parseCSV_outcome clock fileContent :
  let format := formatOf L fileContent in
  let result := parsedOf L fileContent in
  let kept := keptRecords format clock (Papa.data result) in
  (~ headerLocated L fileContent /\ parseCSV L clock fileContent = Throw msgHeaderNotFound)
  \/ (headerLocated L fileContent /\ criticalFailure L fileContent
      /\ exists e rest,
          List.filter isCritical (Papa.errors result) = e :: rest
          /\ parseCSV L clock fileContent = Throw (msgParsingError (Papa.message e)))
  \/ (headerLocated L fileContent /\ ~ criticalFailure L fileContent /\ kept = []
      /\ parseCSV L clock fileContent = Throw msgNoValidTransactions)
  \/ (headerLocated L fileContent /\ ~ criticalFailure L fileContent /\ kept <> []
      /\ exists oldest newest rest,
          imap setId (Array_sort byDateDescending kept) = newest :: rest
          /\ last (newest :: rest) = Some oldest
          /\ parseCSV L clock fileContent
             = Return {| bankName := name format;
                         transactions := newest :: rest;
                         dateRange := {| from := Transaction.date oldest;
                                         to := Transaction.date newest |} |}).
Proof.
  cbv zeta. rewrite parseCSV_stages.
  unfold parseSelected, headerLocated, criticalFailure, parsedOf. cbv zeta.
  set (format := formatOf L fileContent). set (lines := linesOf fileContent).
  destruct (Z.ltb_spec (headerRow format lines) 0) as [Hlt|Hge].
  { left. split; [lia|reflexivity]. }
  right.
  set (result := Papa_parse L _ _).
  destruct (critical_guard result) as [[Hg Hnc] | (e & es & Hf & Hd & Hg)];
    cbv zeta in Hg; rewrite Hg.
  - right.
    set (kept := keptRecords format clock (Papa.data result)).
    destruct kept as [|t kept'] eqn:Ek.
    + left. done.
    + right. split; [done|]. split; [done|]. split; [done|].
      assert (Hlen : length (imap setId (Array_sort byDateDescending (t :: kept')))
                     = S (length kept'))
        by (by rewrite length_imap, Array_sort_length).
      cbn [length Nat.eqb].
      destruct (imap setId (Array_sort byDateDescending (t :: kept'))) as [|newest rest] eqn:Ei;
        [discriminate|].
      destruct (last (newest :: rest)) as [oldest|] eqn:El.
      * exists oldest, newest, rest. done.
      * apply last_None in El. discriminate.
  - left. split; [done|]. split; [split; [rewrite Hf; discriminate|done]|].
    exists e, es. done.
Qed.
End Outcomes.

(** C5.  The registry lists ČSOB, Moneta, KB and the generic format in that
    order; the generic detector accepts every input; the format selected is
    the first of the registry, in that order, whose detector accepts the
    first ten trimmed lines, so one is always found.  The rest of the run
    uses that descriptor and no other: the header row is the one it finds,
    and the run fails for want of a header exactly when it finds none; the
    delimited parse runs from that row with its delimiter; the bank name
    returned is its name; and each transaction returned is a record of that
    parse mapped by its [map], the list being those that survive, sorted and
    numbered. *)
Theorem format_selection_first_match (L : Libs) (clock : nat -> nat -> Z)
        (fileContent : JSString) :
  let lines := List.map trim (split 10 (stripBOM fileContent)) in
  let firstLines := take 10 lines in
  let format := selectFormat L firstLines in
  let result :=
    Papa_parse L (join 10 (sliceFrom (headerRow format lines) lines)) (delimiter format) in
  let kept := keptRecords format clock (Papa.data result) in
  List.map fst (BANK_FORMATS L) = List.map utf16 ["csob"; "moneta"; "kb"; "generic"]%string
  /\ List.map snd (BANK_FORMATS L) = [csob L; moneta L; kb L; generic L]
  /\ (forall anyLines, detect (generic L) anyLines = true)
  /\ find (fun format => detect format firstLines) (List.map snd (BANK_FORMATS L))
     = Some format
  /\ ((headerRow format lines < 0)%Z <->
      parseCSV L clock fileContent = Throw msgHeaderNotFound)
  /\ (forall pd,
        parseCSV L clock fileContent = Return pd ->
        bankName pd = name format
        /\ transactions pd = imap setId (Array_sort byDateDescending kept)
        /\ forall t,
             t ∈ transactions pd ->
             exists index row mapped,
               Papa.data result !! index = Some row
               /\ map format (clock index) row = Some mapped
               /\ MappedRow.date mapped = Some (Transaction.date t)
               /\ MappedRow.amount mapped = Transaction.amount t
               /\ MappedRow.currency mapped = Transaction.currency t
               /\ MappedRow.counterparty mapped = Transaction.counterparty t
               /\ MappedRow.description mapped = Transaction.description t
               /\ MappedRow.category mapped = Transaction.category t
               /\ MappedRow.variableSymbol mapped = Transaction.variableSymbol t
               /\ MappedRow.note mapped = Transaction.note t
               /\ MappedRow.operationType mapped = Transaction.operationType t)
  /\ (forall message,
        parseCSV L clock fileContent = Throw message ->
        message = msgHeaderNotFound
        \/ (exists e rest,
              List.filter isCritical (Papa.errors result) = e :: rest
              /\ Papa.data result = []
              /\ message = msgParsingError (Papa.message e))
        \/ (message = msgNoValidTransactions /\ kept = [])).
Proof.
  cbv zeta. split; [reflexivity|]. split; [reflexivity|]. split; [reflexivity|].
  split.
  { rewrite selectFormat_eq. cbn [List.map BANK_FORMATS snd find].
    repeat (match goal with |- context [if ?b then _ else _] => destruct b end;
            try reflexivity). }
  pose proof (parseCSV_outcome L clock fileContent) as Ho. cbv zeta in Ho.
  unfold headerLocated, criticalFailure, parsedOf, formatOf, linesOf, sliceTo in Ho.
  cbv zeta in Ho.
  set (lines := List.map trim (split 10 (stripBOM fileContent))) in *.
  set (format := selectFormat L (take 10 lines)) in *.
  set (result := Papa_parse L _ _) in *.
  set (kept := keptRecords format clock (Papa.data result)) in *.
  assert (Hm : msgHeaderNotFound <> msgNoValidTransactions) by (vm_compute; discriminate).
  assert (Hp : forall detail, msgParsingError detail <> msgHeaderNotFound).
  { intros detail E. vm_compute in E. discriminate. }
  destruct Ho as [[Hh E] | [(Hh & Hc & e & es & Hf & E) | [(Hh & Hc & Hk & E) | (Hh & Hc & Hk & o & n & r & Hi & _ & E)]]];
    rewrite E.
  - split; [split; [reflexivity|lia]|]. split; [discriminate|].
    intros message [= <-]. left. reflexivity.
  - split; [split; [lia|intros [= H]; exact (False_ind _ (Hp _ H))]|].
    split; [discriminate|].
    intros message [= <-]. right; left. exists e, es.
    split; [exact Hf|]. split; [exact (proj2 Hc)|reflexivity].
  - split; [split; [lia|intros [= H]; exact (False_ind _ (Hm (eq_sym H)))]|].
    split; [discriminate|].
    intros message [= <-]. right; right. split; [reflexivity|exact Hk].
  - split; [split; [lia|discriminate]|]. split; [|discriminate].
    intros pd [= <-]. cbn [bankName transactions]. split; [reflexivity|].
    split; [by rewrite Hi|].
    intros t Ht. rewrite <- Hi in Ht.
    apply list_elem_of_lookup in Ht as [i Ht]. rewrite list_lookup_imap in Ht.
    destruct (_ !! i) as [t'|] eqn:Ht'; [|discriminate]. injection Ht as <-.
    apply list_elem_of_lookup_2 in Ht'. rewrite Array_sort_Permutation in Ht'.
    unfold kept, keptRecords in Ht'.
    apply list_elem_of_omap in Ht' as (o' & Ho' & Heq).
    apply list_elem_of_lookup in Ho' as [index Hidx].
    rewrite list_lookup_imap in Hidx.
    destruct (Papa.data result !! index) as [row|] eqn:Hrow; [|discriminate].
    injection Hidx as <-. unfold mapRecord in Heq.
    destruct (map format (clock index) row) as [mapped|] eqn:Hmap; [|discriminate].
    destruct (MappedRow.date mapped) as [d|] eqn:Hd; [|discriminate].
    destruct (_ =? _)%float; [discriminate|]. injection Heq as <-.
    exists index, row, mapped.
    cbn [Transaction.date Transaction.amount Transaction.currency
         Transaction.counterparty Transaction.description Transaction.category
         Transaction.variableSymbol Transaction.note Transaction.operationType setId].
    split; [exact Hrow|]. split; [exact Hmap|]. split; [exact Hd|].
    repeat (split; [reflexivity|]). reflexivity.
Qed.

Lemma format_selection_first_match_witness :
  exists pd,
    parseCSV Reference.libs Reference.ticking Reference.sampleExport = Return pd
    /\ bankName pd
       = name (selectFormat Reference.libs
                 (take 10 (List.map trim (split 10 (stripBOM Reference.sampleExport)))))
    /\ bankName pd = utf16 "Generic CSV".
Proof.
  assert (H : exists pd,
             parseCSV Reference.libs Reference.ticking Reference.sampleExport = Return pd
             /\ bankName pd = utf16 "Generic CSV")
    by (eexists; split; [vm_compute; reflexivity|vm_compute; reflexivity]).
  destruct H as (pd & H & Hn). exists pd. split; [exact H|]. split; [|exact Hn].
  destruct (format_selection_first_match Reference.libs Reference.ticking
              Reference.sampleExport) as (_ & _ & _ & _ & _ & Hr & _).
  exact (proj1 (Hr pd H)).
Defined.

(** C6.  The amount parser returns 0 for a missing or empty string;
    otherwise it removes all white space, turns the first comma into a
    period and parses the result as a floating-point number, returning 0
    where that gives NaN, so its result is never NaN.  "1 234,56" (with a
    space or a no-break space) parses to 1234.56 and "abc" to 0. *)
Theorem parseCzechNumber_spec :
  parseCzechNumber None = 0%float
  /\ parseCzechNumber (Some []) = 0%float
  /\ (forall c s,
        let cleaned := replaceFirst 44 46 (List.filter (fun u => negb (isWhiteSpace u)) (c :: s)) in
        parseCzechNumber (Some (c :: s))
        = if is_nan (parseFloat cleaned) then 0%float else parseFloat cleaned)
  /\ (forall str, is_nan (parseCzechNumber str) = false)
  /\ parseCzechNumber (Some (utf16 "1 234,56")) = 1234.56%float
  /\ parseCzechNumber (Some (utf16 "1" ++ [160] ++ utf16 "234,56")) = 1234.56%float
  /\ parseCzechNumber (Some (utf16 "abc")) = 0%float.
Proof.
  split; [reflexivity|]. split; [reflexivity|]. split; [reflexivity|].
  split.
  - intros [[|c s]|]; try reflexivity.
    unfold parseCzechNumber, isNaN.
    destruct (is_nan (parseFloat _)) eqn:E; [reflexivity|exact E].
  - repeat split; vm_compute; reflexivity.
Qed.

(** C7.  The date parser returns null for a missing or empty string;
    otherwise it trims the string and tries, in this order, the layouts
    dd.MM.yyyy, d.M.yyyy, yyyy-MM-dd and dd/MM/yyyy and then the free-form
    constructor, returning the first valid date and null when no attempt
    gives one.  What it returns is a valid date or null; it has no other
    outcome. *)
Theorem parseDate_first_valid_attempt (L : Libs) (refs : nat -> Z) :
  layouts = List.map utf16 ["dd.MM.yyyy"; "d.M.yyyy"; "yyyy-MM-dd"; "dd/MM/yyyy"]%string
  /\ (forall trimmed,
        dateAttempts L refs trimmed
        = [ dfns_parse L trimmed (utf16 "dd.MM.yyyy") (DateAt (refs 0%nat));
            dfns_parse L trimmed (utf16 "d.M.yyyy") (DateAt (refs 1%nat));
            dfns_parse L trimmed (utf16 "yyyy-MM-dd") (DateAt (refs 2%nat));
            dfns_parse L trimmed (utf16 "dd/MM/yyyy") (DateAt (refs 3%nat));
            Date_new L trimmed ])
  /\ parseDate L refs None = None
  /\ parseDate L refs (Some []) = None
  /\ (forall c s,
        parseDate L refs (Some (c :: s))
        = find isValid (dateAttempts L refs (trim (c :: s))))
  /\ (forall str,
        parseDate L refs str = None
        \/ exists t, parseDate L refs str = Some (DateAt t)).
Proof.
  split; [reflexivity|]. split; [reflexivity|]. split; [reflexivity|].
  split; [reflexivity|]. split.
  - intros c s. unfold parseDate, dateAttempts, layouts.
    cbn [imap List.map app find compose].
    repeat (match goal with
            | |- context [if isValid ?x then _ else _] => destruct (isValid x)
            end; [reflexivity|]).
    reflexivity.
  - intros str. destruct (parseDate L refs str) as [d|] eqn:E; [right|by left].
    apply parseDate_valid in E. destruct d as [|t]; [discriminate|eauto].
Qed.

(** ** The category rules *)

Section Categories.
Variable L : Libs.

Lemma firstRule_first_match desc pre rule post :
  Forall (fun r => ruleMatches desc r = false) pre ->
  ruleMatches desc rule = true ->
  firstRule desc (pre ++ rule :: post) = rule_category rule.
Proof.
  unfold ruleMatches. induction 1 as [|r pre Hr Hpre IH]; intros Hm; cbn.
  - by rewrite Hm.
  - rewrite Hr. by apply IH.
Qed.

Lemma firstRule_no_match desc rs :
  Forall (fun r => ruleMatches desc r = false) rs ->
  firstRule desc rs = utf16 "Ostatní".
Proof.
  unfold ruleMatches. induction 1 as [|r rs Hr Hrs IH]; cbn; [reflexivity|].
  by rewrite Hr.
Qed.

Lemma no_keyword_no_match desc keywords category :
  (forall kw, In kw keywords -> includes desc kw = false) ->
  ruleMatches desc {| keywords := keywords; rule_category := category |} = false.
Proof.
  intros H. unfold ruleMatches, some. cbn.
  destruct (existsb _ keywords) eqn:E; [|reflexivity].
  apply existsb_exists in E as (kw & Hin & Hkw). rewrite (H kw Hin) in Hkw. discriminate.
Qed.

Lemma keyword_match desc keywords category :
  (exists kw, In kw keywords /\ includes desc kw = true) ->
  ruleMatches desc {| keywords := keywords; rule_category := category |} = true.
Proof. intros H. unfold ruleMatches, some. cbn. by apply existsb_exists. Qed.
End Categories.

(** C8, as stated, fails in its last part: "Tesco Shell" contains the
    fuel-station keyword "shell", yet it is given the groceries category,
    whose rule comes first and matches "tesco". *)
Lemma guessCategory_fuel_keyword_not_fuel :
  In (utf16 "shell")
     (List.map utf16 ["benzin"; "orlen"; "mol"; "shell"; "eni"; "čerpací"; "tank"; "fuel"]%string)
  /\ includes (toLowerCase Reference.libs (utf16 "Tesco Shell")) (utf16 "shell") = true
  /\ guessCategory Reference.libs (utf16 "Tesco Shell") = utf16 "Potraviny"
  /\ guessCategory Reference.libs (utf16 "Tesco Shell") <> utf16 "Tankování".
Proof.
  split; [vm_compute; auto|].
  split; [vm_compute; reflexivity|].
  split; [vm_compute; reflexivity|].
  vm_compute. discriminate.
Qed.

(** C8, amended.  The description is lower-cased and tested against the
    rules in their fixed order: the category of the first rule one of whose
    keywords it contains is returned, and "Ostatní" when no rule matches.
    In particular a description that contains a fuel-station keyword and
    no keyword of the two rules before it, groceries and restaurants, is
    given the fuel category. *)
Theorem guessCategory_first_match (L : Libs) (description : JSString) :
  let desc := toLowerCase L description in
  (forall pre rule post,
      rules = pre ++ rule :: post ->
      Forall (fun r => ruleMatches desc r = false) pre ->
      ruleMatches desc rule = true ->
      guessCategory L description = rule_category rule)
  /\ (Forall (fun r => ruleMatches desc r = false) rules ->
      guessCategory L description = utf16 "Ostatní")
  /\ ((exists kw,
         In kw (List.map utf16
                  ["benzin"; "orlen"; "mol"; "shell"; "eni"; "čerpací"; "tank"; "fuel"]%string)
         /\ includes desc kw = true) ->
      (forall kw,
         In kw (List.map utf16
                  ["rohlik"; "albert"; "billa"; "tesco"; "lidl"; "kaufland"; "penny";
                   "potraviny"; "coop"; "globus"; "bakehouse"; "pekarna"; "pekárna"]%string) ->
         includes desc kw = false) ->
      (forall kw,
         In kw (List.map utf16
                  ["restaura"; "mcdonald"; "burger"; "kfc"; "pizza"; "foodora"; "wolt";
                   "bolt food"; "starbucks"; "costa"]%string) ->
         includes desc kw = false) ->
      guessCategory L description = utf16 "Tankování").
Proof.
  cbv zeta. unfold guessCategory. split; [|split].
  - intros pre rule post -> Hpre Hm. by apply firstRule_first_match.
  - apply firstRule_no_match.
  - intros Hfuel Hgroceries Hrestaurants.
    unfold rules.
    match goal with
    | |- firstRule ?d (?g :: ?r :: ?f :: ?rest) = _ =>
        change (firstRule d ([g; r] ++ f :: rest) = rule_category f)
    end.
    apply firstRule_first_match.
    + repeat constructor; by apply no_keyword_no_match.
    + by apply keyword_match.
Qed.

Lemma guessCategory_first_match_witness :
  guessCategory Reference.libs (utf16 "Shell Praha") = utf16 "Tankování".
Proof.
  apply (proj2 (proj2 (guessCategory_first_match Reference.libs (utf16 "Shell Praha")))).
  - exists (utf16 "shell"). split; [vm_compute; auto|vm_compute; reflexivity].
  - intros kw Hin. vm_compute in Hin.
    repeat (destruct Hin as [<-|Hin]; [vm_compute; reflexivity|]). destruct Hin.
  - intros kw Hin. vm_compute in Hin.
    repeat (destruct Hin as [<-|Hin]; [vm_compute; reflexivity|]). destruct Hin.
Defined.

(** C9.  Masking a transaction leaves its id, date, amount, category,
    currency, variable symbol, operation type and internal flag as they
    are; only counterparty, description and note can differ.  The amount in
    particular is never altered, for one transaction as for a list of
    them. *)
Theorem maskTransaction_frame (t : Transaction) :
  let m := Privacy.maskTransaction t in
  Transaction.id m = Transaction.id t
  /\ Transaction.date m = Transaction.date t
  /\ Transaction.amount m = Transaction.amount t
  /\ Transaction.category m = Transaction.category t
  /\ Transaction.currency m = Transaction.currency t
  /\ Transaction.variableSymbol m = Transaction.variableSymbol t
  /\ Transaction.operationType m = Transaction.operationType t
  /\ Transaction.internal m = Transaction.internal t
  /\ m = {| Transaction.id := Transaction.id t;
            Transaction.date := Transaction.date t;
            Transaction.amount := Transaction.amount t;
            Transaction.currency := Transaction.currency t;
            Transaction.counterparty := Transaction.counterparty m;
            Transaction.description := Transaction.description m;
            Transaction.category := Transaction.category t;
            Transaction.variableSymbol := Transaction.variableSymbol t;
            Transaction.note := Transaction.note m;
            Transaction.operationType := Transaction.operationType t;
            Transaction.internal := Transaction.internal t |}
  /\ (forall ts,
        List.map Transaction.amount (Privacy.maskTransactions ts)
        = List.map Transaction.amount ts).
Proof.
  cbv zeta. repeat split.
  intros ts. unfold Privacy.maskTransactions. rewrite List.map_map.
  apply List.map_ext. reflexivity.
Qed.

(** ** Restoring from storage *)

Section Restoring.
Variable JSON_parse : JSString -> option Storage.JSON.
Variable Date_of : option Storage.JSON -> Date.

Lemma mapThrowing_length {A B} (f : A -> option B) (a : list A) (b : list B) :
  Storage.mapThrowing f a = Some b -> length b = length a.
Proof.
  revert b. induction a as [|x a IH]; intros b; cbn.
  - by intros [= <-].
  - destruct (f x); [|discriminate].
    destruct (Storage.mapThrowing f a) as [ys|]; [|discriminate].
    intros [= <-]. cbn. f_equal. by apply IH.
Qed.

Lemma truthy_length_array (items : list Storage.JSON) :
  Storage.truthy (Storage.optLength (Some (Storage.JArray items))) = true -> items <> [].
Proof. intros H ->. vm_compute in H. discriminate. Qed.

Lemma optProp_Some parsed k :
  Storage.optProp (Some parsed) k = Storage.prop parsed k.
Proof. by destruct parsed. Qed.

(** What a restore that is not null went through. *)
Lemma loadFromStorage_Some getItem r :
  Storage.loadFromStorage JSON_parse Date_of getItem = Some r ->
  exists raw parsed items,
    getItem Storage.STORAGE_KEY = Storage.ReadString raw
    /\ JSON_parse raw = Some parsed
    /\ Storage.prop parsed (utf16 "transactions") = Some (Storage.JArray items)
    /\ items <> []
    /\ Storage.truthy (Storage.prop parsed (utf16 "dateRange")) = true
    /\ length (Storage.transactions (Storage.data r)) = length items.
Proof.
  unfold Storage.loadFromStorage.
  destruct (getItem Storage.STORAGE_KEY) as [| |[|c raw]] eqn:Eg; try discriminate.
  destruct (JSON_parse (c :: raw)) as [parsed|] eqn:Ep; [|discriminate].
  destruct (negb _ || negb _) eqn:Eguard; [discriminate|].
  apply orb_false_elim in Eguard as [Ht Hd].
  apply negb_false_iff in Ht. apply negb_false_iff in Hd.
  rewrite !optProp_Some in Ht, Hd.
  destruct (Storage.prop parsed (utf16 "transactions")) as [[| | | |items|]|] eqn:Et;
    try discriminate.
  destruct (Storage.mapThrowing _ items) as [transactions|] eqn:Em; [|discriminate].
  intros [= <-]. exists (c :: raw), parsed, items. cbn [Storage.data Storage.transactions].
  split; [done|]. split; [done|]. split; [done|].
  split; [by apply truthy_length_array|].
  split; [done|].
  by eapply mapThrowing_length.
Qed.
End Restoring.

(** C10.  [loadFromStorage] never returns a result with an empty transaction
    list: a result that is not null holds as many transactions as the
    non-empty array stored; and it returns null when reading the store
    throws, when nothing or the empty string is stored, when the payload
    does not parse, when the payload has no transactions (none, or an empty
    array), and when it has no date range. *)
Theorem loadFromStorage_never_empty
        (JSON_parse : JSString -> option Storage.JSON)
        (Date_of : option Storage.JSON -> Date)
        (getItem : JSString -> Storage.Read) :
  let load := Storage.loadFromStorage JSON_parse Date_of getItem in
  (forall r, load = Some r -> Storage.transactions (Storage.data r) <> [])
  /\ (getItem Storage.STORAGE_KEY = Storage.ReadThrows -> load = None)
  /\ (getItem Storage.STORAGE_KEY = Storage.ReadNull -> load = None)
  /\ (getItem Storage.STORAGE_KEY = Storage.ReadString [] -> load = None)
  /\ (forall raw,
        getItem Storage.STORAGE_KEY = Storage.ReadString raw ->
        JSON_parse raw = None -> load = None)
  /\ (forall raw parsed,
        getItem Storage.STORAGE_KEY = Storage.ReadString raw ->
        JSON_parse raw = Some parsed ->
        Storage.prop parsed (utf16 "transactions") = None
        \/ Storage.prop parsed (utf16 "transactions") = Some (Storage.JArray [])
        \/ Storage.prop parsed (utf16 "dateRange") = None ->
        load = None).
Proof.
  cbv zeta. split; [|split; [|split; [|split; [|split]]]].
  - intros r H. apply loadFromStorage_Some in H as (raw & parsed & items & _ & _ & _ & Hne & _ & Hlen).
    intros E. rewrite E in Hlen. destruct items; [done|discriminate].
  - intros H. unfold Storage.loadFromStorage. by rewrite H.
  - intros H. unfold Storage.loadFromStorage. by rewrite H.
  - intros H. unfold Storage.loadFromStorage. by rewrite H.
  - intros raw H Hp. unfold Storage.loadFromStorage. rewrite H.
    destruct raw; [reflexivity|]. by rewrite Hp.
  - intros raw parsed H Hp Hcase. unfold Storage.loadFromStorage. rewrite H.
    destruct raw; [reflexivity|]. rewrite Hp.
    rewrite !optProp_Some.
    destruct Hcase as [Ht | [Ht | Hd]].
    + by rewrite Ht.
    + rewrite Ht. reflexivity.
    + rewrite Hd. cbn [Storage.truthy negb]. by rewrite orb_true_r.
Qed.

Lemma loadFromStorage_never_empty_witness :
  exists r,
    Storage.loadFromStorage Reference.parseJSON Reference.dateOfValue
      (Reference.storeHolding Reference.storedPayload) = Some r
    /\ Storage.transactions (Storage.data r) <> [].
Proof.
  assert (H : exists r,
             Storage.loadFromStorage Reference.parseJSON Reference.dateOfValue
               (Reference.storeHolding Reference.storedPayload) = Some r)
    by (eexists; vm_compute; reflexivity).
  destruct H as [r H]. exists r. split; [exact H|].
  exact (proj1 (loadFromStorage_never_empty Reference.parseJSON Reference.dateOfValue
                  (Reference.storeHolding Reference.storedPayload)) r H).
Defined.


(** * Further properties of the code *)

(** X1.  A run returns a result exactly when the header row is located, the
    delimited parse did not fail critically and at least one record
    survives the mapping. *)
Theorem parseCSV_succeeds_iff (L : Libs) (clock : nat -> nat -> Z) (fileContent : JSString) :
  (exists pd, parseCSV L clock fileContent = Return pd)
  <-> headerLocated L fileContent
      /\ ~ criticalFailure L fileContent
      /\ ~ everyRecordDropped L clock fileContent.
Proof.
  rewrite everyRecordDropped_kept.
  destruct (parseCSV_outcome L clock fileContent)
    as [[Hh E] | [(Hh & Hc & e & es & _ & E) | [(Hh & Hc & Hk & E) | (Hh & Hc & Hk & o & n & r & _ & _ & E)]]];
    cbv zeta in *; rewrite E; split.
  - intros [pd H]. discriminate.
  - intros (H & _). done.
  - intros [pd H]. discriminate.
  - intros (_ & H & _). done.
  - intros [pd H]. discriminate.
  - intros (_ & _ & H). done.
  - intros _. done.
  - intros _. eauto.
Qed.

(** X2.  A run that fails throws one of three messages, each for its own
    cause: no header row; a critical error of the delimited parse with no
    record; or no surviving record.  The three messages differ, so the
    caller can tell the causes apart. *)
Theorem parseCSV_failure_kinds (L : Libs) (clock : nat -> nat -> Z)
        (fileContent message : JSString) :
  parseCSV L clock fileContent = Throw message ->
  ((message = msgHeaderNotFound /\ ~ headerLocated L fileContent)
   \/ ((exists detail, message = msgParsingError detail)
       /\ headerLocated L fileContent /\ criticalFailure L fileContent)
   \/ (message = msgNoValidTransactions
       /\ headerLocated L fileContent /\ ~ criticalFailure L fileContent
       /\ everyRecordDropped L clock fileContent))
  /\ msgHeaderNotFound <> msgNoValidTransactions
  /\ (forall detail, msgParsingError detail <> msgHeaderNotFound)
  /\ (forall detail, msgParsingError detail <> msgNoValidTransactions).
Proof.
  intros H. split.
  - rewrite everyRecordDropped_kept.
    destruct (parseCSV_outcome L clock fileContent)
      as [[Hh E] | [(Hh & Hc & e & es & _ & E) | [(Hh & Hc & Hk & E) | (Hh & Hc & Hk & o & n & r & _ & _ & E)]]];
      cbv zeta in *; rewrite E in H; try discriminate; injection H as <-.
    + left. done.
    + right; left. eauto.
    + right; right. done.
  - split; [vm_compute; discriminate|].
    split; intros detail E; vm_compute in E; discriminate.
Qed.

Lemma parseCSV_failure_kinds_witness :
  parseCSV Reference.libs Reference.ticking Reference.extraCellExport
  = Throw msgNoValidTransactions
  /\ everyRecordDropped Reference.libs Reference.ticking Reference.extraCellExport
  /\ msgHeaderNotFound <> msgNoValidTransactions.
Proof.
  assert (H : parseCSV Reference.libs Reference.ticking Reference.extraCellExport
              = Throw msgNoValidTransactions) by (vm_compute; reflexivity).
  destruct (parseCSV_failure_kinds Reference.libs Reference.ticking
              Reference.extraCellExport msgNoValidTransactions H)
    as ([[E _] | [([detail E] & _) | (_ & _ & _ & Hd)]] & Hm & _ & Hp).
  - exact (False_ind _ (Hm (eq_sym E))).
  - exact (False_ind _ (Hp _ (eq_sym E))).
  - split; [exact H|]. split; [exact Hd|exact Hm].
Defined.

(** ** What is returned *)

Section Returned.
Variable L : Libs.

Lemma parseCzechNumber_not_nan str : is_nan (parseCzechNumber str) = false.
Proof.
  destruct str as [[|c s]|]; try reflexivity.
  unfold parseCzechNumber, isNaN.
  destruct (is_nan (parseFloat _)) eqn:E; [reflexivity|exact E].
Qed.

Lemma parseCzechNumberCell_not_nan v : is_nan (parseCzechNumberCell v) = false.
Proof.
  destruct v as [[str|items]|]; cbn [parseCzechNumberCell];
    [apply parseCzechNumber_not_nan|reflexivity|reflexivity].
Qed.

(** Each registered format takes its amount from [parseCzechNumber]. *)
Lemma registered_map_amount firstLines refs row mapped :
  map (selectFormat L firstLines) refs row = Some mapped ->
  exists v, MappedRow.amount mapped = parseCzechNumberCell v.
Proof.
  intros H. destruct (registered_map L _ _ _ _ H) as (_ & v & _ & Ha). eauto.
Qed.

Lemma mapRecord_wellFormed firstLines refs index row t :
  mapRecord (selectFormat L firstLines) refs index row = Some t -> wellFormed t.
Proof.
  intros H. pose proof (mapRecord_valid L _ _ _ _ _ H) as Hv.
  unfold mapRecord in H.
  destruct (map _ refs row) as [mapped|] eqn:Hm; [|discriminate].
  destruct (registered_map_amount _ _ _ _ Hm) as [str Ha].
  destruct (MappedRow.date mapped) as [d|]; [|discriminate].
  destruct (_ =? _)%float eqn:Ez; [discriminate|].
  injection H as <-. unfold wellFormed. cbn.
  split; [done|]. split; [done|]. split; [rewrite Ha; apply parseCzechNumberCell_not_nan|].
  exists (timeOf {| Transaction.id := index; Transaction.date := d;
                    Transaction.amount := MappedRow.amount mapped;
                    Transaction.currency := MappedRow.currency mapped;
                    Transaction.counterparty := MappedRow.counterparty mapped;
                    Transaction.description := MappedRow.description mapped;
                    Transaction.category := MappedRow.category mapped;
                    Transaction.variableSymbol := MappedRow.variableSymbol mapped;
                    Transaction.note := MappedRow.note mapped;
                    Transaction.operationType := MappedRow.operationType mapped;
                    Transaction.internal := false |}).
  by apply validDate_time in Hv.
Qed.

Lemma keptRecords_wellFormed firstLines clock data :
  Forall wellFormed (keptRecords (selectFormat L firstLines) clock data).
Proof.
  unfold keptRecords. apply Forall_forall. intros t Ht.
  apply list_elem_of_omap in Ht as (o & Ho & Heq).
  apply list_elem_of_lookup in Ho as [i Hi].
  rewrite list_lookup_imap in Hi.
  destruct (data !! i) as [row|]; [|discriminate]. cbn in Hi.
  injection Hi as <-. eapply mapRecord_wellFormed. exact Heq.
Qed.

(** The list returned is the kept records, sorted and numbered. *)
Lemma parseCSV_Return_kept clock fileContent pd :
  parseCSV L clock fileContent = Return pd ->
  transactions pd
  = imap setId (Array_sort byDateDescending
                  (keptRecords (formatOf L fileContent) clock
                     (Papa.data (parsedOf L fileContent)))).
Proof.
  intros H.
  destruct (parseCSV_outcome L clock fileContent)
    as [[Hh E] | [(Hh & Hc & e & es & _ & E) | [(Hh & Hc & Hk & E) | (Hh & Hc & Hk & o & n & r & Hi & _ & E)]]];
    cbv zeta in *; rewrite E in H; try discriminate.
  injection H as <-. cbn. by rewrite Hi.
Qed.
End Returned.

Section Numbering.
Context {A B : Type}.

(** A numbering that a view and a test do not see. *)
Lemma filter_imap_blind (f : nat -> A -> A) (view : A -> B) (test : A -> bool) l :
  (forall i x, view (f i x) = view x) ->
  (forall i x, test (f i x) = test x) ->
  List.map view (List.filter test (imap f l)) = List.map view (List.filter test l).
Proof.
  intros Hview Htest. revert f Hview Htest.
  induction l as [|x l IH]; intros f Hview Htest; [reflexivity|].
  rewrite imap_cons. cbn [List.filter]. rewrite Htest.
  destruct (test x); cbn [List.map]; rewrite ?Hview; [f_equal|];
    apply IH; intros; unfold compose; auto.
Qed.

Lemma map_imap_blind (f : nat -> A -> A) (view : A -> B) l :
  (forall i x, view (f i x) = view x) ->
  List.map view (imap f l) = List.map view l.
Proof.
  intros Hview. revert f Hview.
  induction l as [|x l IH]; intros f Hview; [reflexivity|].
  rewrite imap_cons. cbn [List.map]. rewrite Hview. f_equal.
  apply IH. intros; unfold compose; auto.
Qed.
End Numbering.

(** The sort keeps apart what the comparator holds equal. *)
Lemma Array_sort_stable {A} (cmp : A -> A -> Z) (test : A -> bool) (l : list A) :
  (forall x y, test x = true -> test y = true -> (cmp x y <= 0)%Z) ->
  List.filter test (Array_sort cmp l) = List.filter test l.
Proof.
  intros Hcmp.
  assert (Hins : forall x l', List.filter test (insertBy cmp x l') = List.filter test (x :: l')).
  { intros x l'. induction l' as [|y l' IH]; [reflexivity|].
    cbn [insertBy]. destruct (Z.leb_spec (cmp x y) 0) as [Hle|Hgt]; [reflexivity|].
    cbn [List.filter] in *. rewrite IH.
    destruct (test x) eqn:Ex, (test y) eqn:Ey; try reflexivity.
    specialize (Hcmp x y Ex Ey). lia. }
  induction l as [|x l IH]; [reflexivity|].
  cbn [Array_sort foldr]. fold (Array_sort cmp l). rewrite Hins.
  cbn [List.filter]. by rewrite IH.
Qed.

(** X3.  Every transaction returned has a valid date and an amount that is
    a number other than zero, and is not marked internal. *)
Theorem parseCSV_transactions_wellFormed (L : Libs) (clock : nat -> nat -> Z)
        (fileContent : JSString) (pd : ParsedData) :
  parseCSV L clock fileContent = Return pd ->
  Forall (fun t =>
            Transaction.internal t = false
            /\ (Transaction.amount t =? 0)%float = false
            /\ is_nan (Transaction.amount t) = false
            /\ exists x, Transaction.date t = DateAt x)
         (transactions pd).
Proof.
  intros H. rewrite (parseCSV_Return_kept L clock fileContent pd H).
  apply Forall_forall. intros t Ht.
  apply list_elem_of_lookup in Ht as [i Hi]. rewrite list_lookup_imap in Hi.
  destruct (_ !! i) as [t'|] eqn:Ht'; [|discriminate]. injection Hi as <-.
  apply list_elem_of_lookup_2 in Ht'. rewrite Array_sort_Permutation in Ht'.
  unfold formatOf in Ht'.
  pose proof (keptRecords_wellFormed L (sliceTo 10 (linesOf fileContent)) clock
                (Papa.data (parsedOf L fileContent))) as Hk.
  rewrite Forall_forall in Hk. exact (Hk t' Ht').
Qed.

Lemma parseCSV_transactions_wellFormed_witness :
  exists pd,
    parseCSV Reference.libs Reference.ticking Reference.sampleExport = Return pd
    /\ Forall (fun t => Transaction.internal t = false) (transactions pd).
Proof.
  assert (H : exists pd,
             parseCSV Reference.libs Reference.ticking Reference.sampleExport = Return pd)
    by (eexists; vm_compute; reflexivity).
  destruct H as (pd & H). exists pd. split; [exact H|].
  eapply Forall_impl;
    [exact (parseCSV_transactions_wellFormed Reference.libs Reference.ticking
              Reference.sampleExport pd H)|].
  intros t Ht. exact (proj1 Ht).
Defined.

(** X4.  No record is lost or doubled between the mapping and the result:
    apart from their ids, the transactions returned are the surviving
    records, each as often as it survives. *)
Theorem parseCSV_keeps_every_record (L : Libs) (clock : nat -> nat -> Z)
        (fileContent : JSString) (pd : ParsedData) :
  parseCSV L clock fileContent = Return pd ->
  let kept := keptRecords (formatOf L fileContent) clock
                (Papa.data (parsedOf L fileContent)) in
  List.map unnumbered (transactions pd) ≡ₚ List.map unnumbered kept
  /\ length (transactions pd) = length kept.
Proof.
  intros H. cbv zeta. rewrite (parseCSV_Return_kept L clock fileContent pd H).
  split.
  - rewrite (map_imap_blind setId unnumbered) by reflexivity.
    apply Permutation_map. apply Array_sort_Permutation.
  - by rewrite length_imap, Array_sort_length.
Qed.

Lemma parseCSV_keeps_every_record_witness :
  exists pd,
    parseCSV Reference.libs Reference.ticking Reference.extraCellFirst = Return pd
    /\ length (Papa.data (parsedOf Reference.libs Reference.extraCellFirst)) = 2%nat
    /\ length (transactions pd) = 1%nat
    /\ length (transactions pd)
       = length (keptRecords (formatOf Reference.libs Reference.extraCellFirst)
                   Reference.ticking
                   (Papa.data (parsedOf Reference.libs Reference.extraCellFirst))).
Proof.
  assert (H : exists pd,
             parseCSV Reference.libs Reference.ticking Reference.extraCellFirst = Return pd
             /\ length (transactions pd) = 1%nat)
    by (eexists; split; [vm_compute; reflexivity|vm_compute; reflexivity]).
  destruct H as (pd & H & Hl). exists pd. split; [exact H|].
  split; [vm_compute; reflexivity|]. split; [exact Hl|].
  exact (proj2 (parseCSV_keeps_every_record Reference.libs Reference.ticking
                  Reference.extraCellFirst pd H)).
Defined.

(** X5.  Records of the same date come out in the order they have in the
    file: the sort is stable. *)
Theorem parseCSV_same_date_in_source_order (L : Libs) (clock : nat -> nat -> Z)
        (fileContent : JSString) (pd : ParsedData) :
  parseCSV L clock fileContent = Return pd ->
  forall d,
    List.map unnumbered (List.filter (dateIs d) (transactions pd))
    = List.map unnumbered
        (List.filter (dateIs d)
           (keptRecords (formatOf L fileContent) clock
              (Papa.data (parsedOf L fileContent)))).
Proof.
  intros H d. rewrite (parseCSV_Return_kept L clock fileContent pd H).
  rewrite (filter_imap_blind setId unnumbered (dateIs d)) by reflexivity.
  f_equal. apply Array_sort_stable.
  intros x y Hx Hy. unfold dateIs in Hx, Hy. unfold byDateDescending.
  destruct (Transaction.date x) as [|tx]; [discriminate|].
  destruct (Transaction.date y) as [|ty]; [discriminate|].
  cbn. apply Z.eqb_eq in Hx, Hy. lia.
Qed.

Lemma parseCSV_same_date_in_source_order_witness :
  (exists pd,
     parseCSV Reference.libs Reference.ticking Reference.sampleExport = Return pd
     /\ List.map unnumbered (List.filter (dateIs 1706918400000) (transactions pd))
        = List.map unnumbered
            (List.filter (dateIs 1706918400000)
               (keptRecords (formatOf Reference.libs Reference.sampleExport)
                  Reference.ticking
                  (Papa.data (parsedOf Reference.libs Reference.sampleExport)))))
  /\ (exists pd,
        parseCSV Reference.libs Reference.ticking Reference.extraCellFirst = Return pd
        /\ length (List.filter (dateIs 1704067200000) (transactions pd)) = 1%nat
        /\ List.map unnumbered (List.filter (dateIs 1704067200000) (transactions pd))
           = List.map unnumbered
               (List.filter (dateIs 1704067200000)
                  (keptRecords (formatOf Reference.libs Reference.extraCellFirst)
                     Reference.ticking
                     (Papa.data (parsedOf Reference.libs Reference.extraCellFirst))))).
Proof.
  split.
  - assert (H : exists pd,
               parseCSV Reference.libs Reference.ticking Reference.sampleExport = Return pd)
      by (eexists; vm_compute; reflexivity).
    destruct H as (pd & H). exists pd. split; [exact H|].
    exact (parseCSV_same_date_in_source_order Reference.libs Reference.ticking
             Reference.sampleExport pd H 1706918400000).
  - assert (H : exists pd,
               parseCSV Reference.libs Reference.ticking Reference.extraCellFirst = Return pd
               /\ length (List.filter (dateIs 1704067200000) (transactions pd)) = 1%nat)
      by (eexists; split; [vm_compute; reflexivity|vm_compute; reflexivity]).
    destruct H as (pd & H & Hl). exists pd. split; [exact H|]. split; [exact Hl|].
    exact (parseCSV_same_date_in_source_order Reference.libs Reference.ticking
             Reference.extraCellFirst pd H 1704067200000).
Defined.

(** ** Byte-order mark and line ends *)

Lemma split_nonempty sep s : exists w ws, split sep s = w :: ws.
Proof.
  induction s as [|c s (w & ws & IH)]; cbn; [eauto|].
  destruct (c =? sep); [eauto|]. rewrite IH. eauto.
Qed.

Lemma trimStart_app (w v : JSString) :
  trimStart (w ++ v) = match trimStart w with
                       | [] => trimStart v
                       | x :: r => (x :: r) ++ v
                       end.
Proof.
  induction w as [|c w IH]; cbn; [by destruct (trimStart v)|].
  destruct (isWhiteSpace c); [exact IH|reflexivity].
Qed.

Lemma trimEnd_snoc (v : JSString) (c : N) :
  isWhiteSpace c = true -> trimEnd (v ++ [c]) = trimEnd v.
Proof. intros H. unfold trimEnd. rewrite rev_app_distr. cbn. by rewrite H. Qed.

Lemma trim_snoc (w : JSString) (c : N) :
  isWhiteSpace c = true -> trim (w ++ [c]) = trim w.
Proof.
  intros H. unfold trim. rewrite trimStart_app.
  destruct (trimStart w) as [|x r]; [cbn; by rewrite H|].
  by apply trimEnd_snoc.
Qed.

Lemma trim_cons_white (w : JSString) (c : N) :
  isWhiteSpace c = true -> trim (c :: w) = trim w.
Proof. intros H. unfold trim. cbn. by rewrite H. Qed.

Lemma linesOf_split fileContent :
  linesOf fileContent = List.map trim (split 10 fileContent).
Proof.
  unfold linesOf. cbv zeta. destruct fileContent as [|c s]; [reflexivity|].
  cbn [stripBOM]. destruct (N.eqb_spec c 65279) as [->|Hne]; [|reflexivity].
  destruct (split_nonempty 10 s) as (w & ws & E).
  cbn [split]. replace (65279 =? 10) with false by reflexivity. rewrite E.
  cbn [List.map]. by rewrite trim_cons_white.
Qed.

Lemma split_crlf content :
  Forall2 (fun w' w => w' = w \/ w' = w ++ [13]) (split 10 (crlf content)) (split 10 content).
Proof.
  induction content as [|u c IH]; [repeat constructor; by left|].
  unfold crlf in *. cbn [flat_map]. destruct (N.eqb_spec u 10) as [->|Hne].
  - cbn [app split]. replace (13 =? 10) with false by reflexivity.
    replace (10 =? 10) with true by reflexivity.
    constructor; [by right|exact IH].
  - cbn [app split]. apply N.eqb_neq in Hne. rewrite Hne.
    destruct IH as [|w' w ws' ws Hw Hws]; [repeat constructor; by left|].
    constructor; [|exact Hws]. destruct Hw as [->| ->]; [by left|by right].
Qed.

Lemma linesOf_crlf content : linesOf (crlf content) = linesOf content.
Proof.
  rewrite !linesOf_split.
  induction (split_crlf content) as [|w' w ws' ws Hw _ IH]; [reflexivity|].
  cbn [List.map]. rewrite IH. f_equal.
  destruct Hw as [->| ->]; [reflexivity|by apply trim_snoc].
Qed.

(** X6.  A byte-order mark at the head of the file does not change the
    result, whether the file has one or not. *)
Theorem parseCSV_ignores_BOM (L : Libs) (clock : nat -> nat -> Z) (fileContent : JSString) :
  parseCSV L clock (65279 :: fileContent) = parseCSV L clock fileContent.
Proof.
  unfold parseCSV. cbv zeta.
  assert (E : linesOf (65279 :: fileContent) = linesOf fileContent).
  { rewrite (linesOf_split fileContent). reflexivity. }
  by rewrite E.
Qed.

(** X7.  A file with Windows line ends, a carriage return before each line
    feed, gives the same result as the file with line feeds alone. *)
Theorem parseCSV_ignores_carriage_returns (L : Libs) (clock : nat -> nat -> Z)
        (fileContent : JSString) :
  parseCSV L clock (crlf fileContent) = parseCSV L clock fileContent.
Proof. unfold parseCSV. cbv zeta. by rewrite linesOf_crlf. Qed.

(** ** The field parsers *)

(** X8.  Whatever the description, the category inferred is one of the
    thirteen of the fixed taxonomy. *)
Theorem guessCategory_in_taxonomy (L : Libs) (description : JSString) :
  In (guessCategory L description) taxonomy.
Proof.
  unfold guessCategory.
  assert (H : forall desc rs,
             In (firstRule desc rs) (List.map rule_category rs ++ [utf16 "Ostatní"])).
  { intros desc rs. induction rs as [|r rs IH]; cbn; [by left|].
    destruct (some _ _); [by left|by right]. }
  assert (E : List.map rule_category rules ++ [utf16 "Ostatní"] = taxonomy)
    by (vm_compute; reflexivity).
  rewrite <- E. apply H.
Qed.

Lemma removeWhiteSpace_idem s : removeWhiteSpace (removeWhiteSpace s) = removeWhiteSpace s.
Proof.
  unfold removeWhiteSpace. induction s as [|c s IH]; [reflexivity|].
  cbn [List.filter]. destruct (isWhiteSpace c) eqn:E; cbn [negb]; [exact IH|].
  cbn [List.filter]. rewrite E. cbn [negb]. by rewrite IH.
Qed.

Lemma parseCzechNumber_cleaned s :
  parseCzechNumber (Some s) = parseCzechNumber (Some (removeWhiteSpace s)).
Proof.
  destruct s as [|c s]; [reflexivity|].
  destruct (removeWhiteSpace (c :: s)) as [|d r] eqn:E.
  - unfold parseCzechNumber. rewrite E. reflexivity.
  - unfold parseCzechNumber. rewrite <- E, removeWhiteSpace_idem. reflexivity.
Qed.

(** X9.  White space in an amount does not count: two strings that differ
    only in white space (spaces, no-break spaces, tabs, ...) parse to the
    same number, and a string of white space alone parses to 0. *)
Theorem parseCzechNumber_ignores_white_space (s s' : JSString) :
  removeWhiteSpace s = removeWhiteSpace s' ->
  parseCzechNumber (Some s) = parseCzechNumber (Some s')
  /\ (removeWhiteSpace s = [] -> parseCzechNumber (Some s) = 0%float).
Proof.
  intros H. split.
  - rewrite (parseCzechNumber_cleaned s), (parseCzechNumber_cleaned s'). by rewrite H.
  - intros E. rewrite (parseCzechNumber_cleaned s), E. reflexivity.
Qed.

Lemma parseCzechNumber_ignores_white_space_witness :
  parseCzechNumber (Some (utf16 "- 1 234,5 "))
  = parseCzechNumber (Some (utf16 "-1" ++ [160] ++ utf16 "234,5")).
Proof.
  apply (proj1 (parseCzechNumber_ignores_white_space
                  (utf16 "- 1 234,5 ") (utf16 "-1" ++ [160] ++ utf16 "234,5")
                  ltac:(vm_compute; reflexivity))).
Defined.

(** ** Masking *)

Lemma drop_last (s : JSString) (x : N) :
  last s = Some x -> drop (length s - 1) s = [x].
Proof.
  intros H. apply last_Some in H as [l' ->].
  rewrite length_app. cbn [length]. replace (length l' + 1 - 1)%nat with (length l') by lia.
  by rewrite drop_app_length.
Qed.

Lemma maskString_length (s : JSString) (n : nat) :
  (3 <= length (Privacy.maskString s n) <= 6)%nat.
Proof.
  assert (H3 : length (utf16 "***") = 3%nat) by reflexivity.
  unfold Privacy.maskString.
  destruct (Nat.leb_spec (length s) n); [lia|].
  destruct (Nat.leb_spec (length s) 5).
  - rewrite length_app, length_take, H3. lia.
  - rewrite !length_app, length_take, length_drop, H3. lia.
Qed.

(** X10.  A masked string is three to six units long, and shows of the
    original at most its first two units and its last: it is "***" for a
    string no longer than the minimum, the first unit and "***" up to
    length five, and for longer strings it depends only on the first two
    units and the last. *)
Theorem maskString_reveals_little (s s' : JSString) (minLength : nat) :
  (3 <= length (Privacy.maskString s minLength) <= 6)%nat
  /\ ((length s <= minLength)%nat -> Privacy.maskString s minLength = utf16 "***")
  /\ ((minLength < length s <= 5)%nat -> (minLength < length s' <= 5)%nat ->
      head s = head s' ->
      Privacy.maskString s minLength = Privacy.maskString s' minLength)
  /\ ((minLength < length s)%nat -> (5 < length s)%nat ->
      (minLength < length s')%nat -> (5 < length s')%nat ->
      take 2 s = take 2 s' -> last s = last s' ->
      Privacy.maskString s minLength = Privacy.maskString s' minLength).
Proof.
  split; [apply maskString_length|]. unfold Privacy.maskString. split; [|split].
  - intros H. apply Nat.leb_le in H. by rewrite H.
  - intros [H1 H2] [H1' H2'] Hh.
    apply Nat.leb_gt in H1, H1'. apply Nat.leb_le in H2, H2'. rewrite H1, H1', H2, H2'.
    destruct s as [|a s]; [discriminate|]. destruct s' as [|a' s']; [discriminate|].
    cbn [head] in Hh. injection Hh as ->. reflexivity.
  - intros H1 H2 H1' H2' Ht Hl.
    apply Nat.leb_gt in H1 as G1, H1' as G1'. apply Nat.leb_gt in H2 as G2, H2' as G2'.
    rewrite G1, G1', G2, G2', Ht. do 2 f_equal.
    destruct (last s) as [x|] eqn:E.
    + rewrite (drop_last s x E). symmetry in Hl. by rewrite (drop_last s' x Hl).
    + apply last_None in E. subst s. cbn in H2. lia.
Qed.

Lemma maskString_reveals_little_witness :
  Privacy.maskString (utf16 "Albert Praha") 2 = Privacy.maskString (utf16 "Alza.cz a") 2.
Proof.
  apply (proj2 (proj2 (proj2 (maskString_reveals_little
                                (utf16 "Albert Praha") (utf16 "Alza.cz a") 2))));
    vm_compute; try reflexivity; lia.
Defined.

Lemma maskString_not_empty (s : JSString) (n : nat) : Privacy.maskString s n <> [].
Proof.
  intros E. pose proof (maskString_length s n) as H. rewrite E in H. cbn in H. lia.
Qed.

(** X11.  The masked counterparty is empty exactly when the name is blank;
    otherwise it is a masked string of three to six units. *)
Theorem maskCounterparty_blank_iff (name : JSString) :
  (Privacy.maskCounterparty name = [] <-> trim name = [])
  /\ (trim name <> [] -> (3 <= length (Privacy.maskCounterparty name) <= 6)%nat).
Proof.
  unfold Privacy.maskCounterparty.
  destruct (trim name) as [|c r] eqn:E; cbn [length Nat.eqb].
  - split; [done|]. intros H. by destruct H.
  - split; [|intros _; apply maskString_length].
    split; [intros H; by apply maskString_not_empty in H|discriminate].
Qed.

Lemma maskCounterparty_blank_iff_witness :
  (3 <= length (Privacy.maskCounterparty (utf16 "Albert CZ")) <= 6)%nat.
Proof.
  apply (proj2 (maskCounterparty_blank_iff (utf16 "Albert CZ"))).
  vm_compute. discriminate.
Defined.

(** X12.  The masked description is empty exactly when the description is
    blank; and of a description with more than two pieces between runs of
    white space it shows the first two and nothing of the rest. *)
Theorem maskDescription_first_two_words (desc p1 p2 p3 : JSString) (rest : list JSString) :
  (Privacy.maskDescription desc = [] <-> trim desc = [])
  /\ (trim desc <> [] ->
      Privacy.splitWhiteSpace false desc = p1 :: p2 :: p3 :: rest ->
      Privacy.maskDescription desc = p1 ++ [32] ++ p2 ++ utf16 " ***").
Proof.
  unfold Privacy.maskDescription.
  destruct (trim desc) as [|c r] eqn:E; cbn [length Nat.eqb].
  - split; [done|]. intros H. by destruct H.
  - split.
    + split; [|discriminate]. intros H.
      destruct (length (Privacy.splitWhiteSpace false desc) <=? 2)%nat.
      * by apply maskString_not_empty in H.
      * apply (f_equal (@length N)) in H. rewrite length_app in H.
        change (length (utf16 " ***")) with 4%nat in H. cbn [length] in H. lia.
    + intros _ ->. cbn [length Nat.leb take join app]. by rewrite <- !app_assoc.
Qed.

Lemma maskDescription_first_two_words_witness :
  Privacy.maskDescription (utf16 "Platba kartou Albert Praha 4")
  = utf16 "Platba" ++ [32] ++ utf16 "kartou" ++ utf16 " ***".
Proof.
  apply (proj2 (maskDescription_first_two_words
                  (utf16 "Platba kartou Albert Praha 4")
                  (utf16 "Platba") (utf16 "kartou") (utf16 "Albert")
                  [utf16 "Praha"; utf16 "4"])).
  - vm_compute. discriminate.
  - vm_compute. reflexivity.
Defined.

(** X13.  Masking a list keeps its length and, in order, the ids, dates,
    amounts, categories and internal flags; so it commutes with leaving out
    the internal transactions, and the amounts shown in privacy mode are
    those of the transactions unmasked. *)
Theorem maskTransactions_commutes (ts : list Transaction) :
  length (Privacy.maskTransactions ts) = length ts
  /\ List.map Transaction.id (Privacy.maskTransactions ts) = List.map Transaction.id ts
  /\ List.map Transaction.date (Privacy.maskTransactions ts) = List.map Transaction.date ts
  /\ List.map Transaction.category (Privacy.maskTransactions ts)
     = List.map Transaction.category ts
  /\ App.nonInternal (Privacy.maskTransactions ts)
     = Privacy.maskTransactions (App.nonInternal ts)
  /\ List.map Transaction.amount (App.nonInternal (App.filteredTransactions true ts))
     = List.map Transaction.amount (App.nonInternal ts).
Proof.
  unfold Privacy.maskTransactions, App.filteredTransactions, App.nonInternal,
    Privacy.maskTransactions.
  assert (Hc : List.filter (fun t => negb (Transaction.internal t))
                 (List.map Privacy.maskTransaction ts)
               = List.map Privacy.maskTransaction
                   (List.filter (fun t => negb (Transaction.internal t)) ts)).
  { induction ts as [|t ts IH]; [reflexivity|]. cbn [List.map List.filter].
    change (Transaction.internal (Privacy.maskTransaction t)) with (Transaction.internal t).
    destruct (negb (Transaction.internal t)); cbn [List.map]; by rewrite IH. }
  split; [apply List.length_map|].
  split; [rewrite List.map_map; by apply List.map_ext|].
  split; [rewrite List.map_map; by apply List.map_ext|].
  split; [rewrite List.map_map; by apply List.map_ext|].
  split; [exact Hc|].
  rewrite Hc, List.map_map. by apply List.map_ext.
Qed.

(** ** The store *)

Lemma lookup_without_same items key :
  LocalStorage.lookup (LocalStorage.without key items) key = None.
Proof.
  induction items as [|[k v] items IH]; [reflexivity|].
  cbn [LocalStorage.without List.filter fst]. destruct (str_eqb k key) eqn:E; cbn [negb].
  - exact IH.
  - cbn [LocalStorage.lookup]. rewrite E. exact IH.
Qed.

Lemma lookup_without_other items key key' :
  key <> key' ->
  LocalStorage.lookup (LocalStorage.without key items) key' = LocalStorage.lookup items key'.
Proof.
  intros Hne. induction items as [|[k v] items IH]; [reflexivity|].
  cbn [LocalStorage.without List.filter fst LocalStorage.lookup].
  destruct (str_eqb k key) eqn:E; cbn [negb].
  - apply str_eqb_eq in E. subst k.
    destruct (str_eqb key key') eqn:E'; [apply str_eqb_eq in E'; done|exact IH].
  - cbn [LocalStorage.lookup]. destruct (str_eqb k key'); [reflexivity|exact IH].
Qed.

(** A write that is taken is read back, and touches no other key. *)
Lemma getItem_setItem s key value key' :
  LocalStorage.denied s = false -> LocalStorage.full s = false ->
  exists s',
    LocalStorage.setItem s key value = LocalStorage.Returns s'
    /\ LocalStorage.getItem s' key = LocalStorage.Returns (Some value)
    /\ (key <> key' -> LocalStorage.getItem s' key' = LocalStorage.getItem s key').
Proof.
  intros Hd Hf. unfold LocalStorage.setItem, LocalStorage.getItem. rewrite Hd, Hf.
  eexists. split; [reflexivity|]. cbn. rewrite str_eqb_refl. split; [reflexivity|].
  intros Hne. destruct (str_eqb key key') eqn:E; [apply str_eqb_eq in E; done|].
  by rewrite lookup_without_other.
Qed.

(** X14.  The privacy flag saved is the flag loaded, when the store takes
    the write; a write that the store refuses leaves the store as it was;
    and the flag reads as off when nothing is stored or the store is
    denied. *)
Theorem privacy_mode_round_trip (s : LocalStorage.t) (enabled : bool) :
  (LocalStorage.denied s = false -> LocalStorage.full s = false ->
   Privacy.loadPrivacyMode (Privacy.savePrivacyMode s enabled) = enabled)
  /\ (LocalStorage.denied s = true \/ LocalStorage.full s = true ->
      Privacy.savePrivacyMode s enabled = s)
  /\ (LocalStorage.denied s = true
      \/ LocalStorage.lookup (LocalStorage.items s) Privacy.STORAGE_KEY_PRIVACY = None ->
      Privacy.loadPrivacyMode s = false).
Proof.
  split; [|split].
  - intros Hd Hf.
    destruct (getItem_setItem s Privacy.STORAGE_KEY_PRIVACY (Privacy.stringOfBool enabled)
                Privacy.STORAGE_KEY_PRIVACY Hd Hf) as (s' & Hs & Hg & _).
    unfold Privacy.savePrivacyMode, Privacy.loadPrivacyMode. rewrite Hs, Hg.
    by destruct enabled.
  - intros H. unfold Privacy.savePrivacyMode, LocalStorage.setItem.
    destruct H as [-> | ->]; [reflexivity|by rewrite orb_true_r].
  - intros H. unfold Privacy.loadPrivacyMode, LocalStorage.getItem.
    destruct H as [-> | H]; [reflexivity|].
    destruct (LocalStorage.denied s); [reflexivity|by rewrite H].
Qed.

Lemma privacy_mode_round_trip_witness :
  Privacy.loadPrivacyMode (Privacy.savePrivacyMode Reference.emptyStore true) = true.
Proof.
  exact (proj1 (privacy_mode_round_trip Reference.emptyStore true) eq_refl eq_refl).
Defined.

(** ** Custom categories *)

Section CustomCategories.
Variable JSON_parse : JSString -> option Storage.JSON.
Variable JSON_stringify : Storage.JSON -> JSString.

Lemma customCategory_strings cs :
  omap Storage.customCategory (List.map Storage.JStr cs)
  = List.filter (fun c => (0 <? length (trim c))%nat) cs.
Proof.
  induction cs as [|c cs IH]; [reflexivity|].
  cbn [List.map omap list_omap Storage.customCategory List.filter].
  destruct (0 <? length (trim c))%nat; by rewrite <- IH.
Qed.

Lemma loadCustomCategories_nonblank s :
  Forall (fun c => trim c <> []) (Storage.loadCustomCategories JSON_parse s).
Proof.
  unfold Storage.loadCustomCategories.
  destruct (LocalStorage.getItem _ _) as [|[[|u raw]|]]; try constructor.
  destruct (JSON_parse _) as [[| | | |parsed|]|]; try constructor.
  apply Forall_forall. intros c Hc.
  apply list_elem_of_omap in Hc as (j & _ & Hj).
  destruct j as [| | |name| |]; try discriminate. cbn [Storage.customCategory] in Hj.
  destruct (Nat.ltb_spec 0 (length (trim name))) as [Hlt|]; [|discriminate].
  injection Hj as <-. intros E. rewrite E in Hlt. cbn in Hlt. lia.
Qed.

Lemma saved_custom_categories s cs :
  LocalStorage.denied s = false -> LocalStorage.full s = false ->
  JSON_parse [] = None ->
  JSON_parse (JSON_stringify (Storage.JArray (List.map Storage.JStr cs)))
  = Some (Storage.JArray (List.map Storage.JStr cs)) ->
  Storage.loadCustomCategories JSON_parse (Storage.saveCustomCategories JSON_stringify s cs)
  = List.filter (fun c => (0 <? length (trim c))%nat) cs.
Proof.
  intros Hd Hf Hempty Hrt.
  destruct (getItem_setItem s Storage.STORAGE_KEY_CUSTOM_CATEGORIES
              (JSON_stringify (Storage.JArray (List.map Storage.JStr cs)))
              Storage.STORAGE_KEY_CUSTOM_CATEGORIES Hd Hf) as (s' & Hs & Hg & _).
  unfold Storage.saveCustomCategories, Storage.loadCustomCategories. rewrite Hs, Hg.
  destruct (JSON_stringify _) as [|u raw] eqn:E; [congruence|].
  rewrite Hrt. apply customCategory_strings.
Qed.
End CustomCategories.

(** X15.  The custom categories loaded are never blank: each has a
    character that is not white space.  Nothing stored, a store that is
    denied, a text that does not parse and a value that is not an array all
    give the empty list. *)
Theorem loadCustomCategories_never_blank
        (JSON_parse : JSString -> option Storage.JSON) (s : LocalStorage.t) :
  Forall (fun c => trim c <> []) (Storage.loadCustomCategories JSON_parse s)
  /\ (LocalStorage.denied s = true
      \/ LocalStorage.lookup (LocalStorage.items s) Storage.STORAGE_KEY_CUSTOM_CATEGORIES = None ->
      Storage.loadCustomCategories JSON_parse s = [])
  /\ (forall raw,
        LocalStorage.getItem s Storage.STORAGE_KEY_CUSTOM_CATEGORIES
        = LocalStorage.Returns (Some raw) ->
        (JSON_parse raw = None
         \/ exists v, JSON_parse raw = Some v /\ forall items, v <> Storage.JArray items) ->
        Storage.loadCustomCategories JSON_parse s = []).
Proof.
  split; [apply loadCustomCategories_nonblank|]. split.
  - intros H. unfold Storage.loadCustomCategories, LocalStorage.getItem.
    destruct H as [-> | H]; [reflexivity|].
    destruct (LocalStorage.denied s); [reflexivity|by rewrite H].
  - intros raw Hg H. unfold Storage.loadCustomCategories. rewrite Hg.
    destruct raw as [|u raw]; [reflexivity|].
    destruct H as [-> | (v & -> & Hv)]; [reflexivity|].
    destruct v; try reflexivity. by destruct (Hv items).
Qed.

Lemma loadCustomCategories_never_blank_witness :
  Storage.loadCustomCategories Reference.parseJSON Reference.emptyStore = [].
Proof.
  apply (proj1 (proj2 (loadCustomCategories_never_blank Reference.parseJSON
                         Reference.emptyStore))).
  right. reflexivity.
Defined.

(** X16.  Custom categories saved are loaded back in order, those that are
    blank left out, when the store takes the write and the text written
    parses back to the array of names. *)
Theorem custom_categories_round_trip
        (JSON_parse : JSString -> option Storage.JSON)
        (JSON_stringify : Storage.JSON -> JSString)
        (s : LocalStorage.t) (categories : list JSString) :
  LocalStorage.denied s = false -> LocalStorage.full s = false ->
  JSON_parse [] = None ->
  JSON_parse (JSON_stringify (Storage.JArray (List.map Storage.JStr categories)))
  = Some (Storage.JArray (List.map Storage.JStr categories)) ->
  Storage.loadCustomCategories JSON_parse
    (Storage.saveCustomCategories JSON_stringify s categories)
  = List.filter (fun c => (0 <? length (trim c))%nat) categories.
Proof. apply saved_custom_categories. Qed.

Lemma custom_categories_round_trip_witness :
  Storage.loadCustomCategories Reference.parseJSON
    (Storage.saveCustomCategories Reference.stringify Reference.emptyStore
       [utf16 "Dárky"; utf16 "  "; utf16 "Škola"])
  = [utf16 "Dárky"; utf16 "Škola"].
Proof.
  apply (custom_categories_round_trip Reference.parseJSON Reference.stringify
           Reference.emptyStore [utf16 "Dárky"; utf16 "  "; utf16 "Škola"]);
    vm_compute; reflexivity.
Defined.

(** ** Saving and restoring *)

Section SavingFacts.
Variable JSON_parse : JSString -> option Storage.JSON.
Variable JSON_stringify : Storage.JSON -> JSString.
Variable Date_of : option Storage.JSON -> Date.
Variable toISOString : Z -> JSString.

Lemma loadFromStorage_reads g1 g2 :
  g1 Storage.STORAGE_KEY = g2 Storage.STORAGE_KEY ->
  Storage.loadFromStorage JSON_parse Date_of g1
  = Storage.loadFromStorage JSON_parse Date_of g2.
Proof. intros H. unfold Storage.loadFromStorage. by rewrite H. Qed.

Lemma getItem_removeItem s key s' key' :
  LocalStorage.removeItem s key = LocalStorage.Returns s' ->
  LocalStorage.getItem s' key = LocalStorage.Returns None
  /\ (key <> key' -> LocalStorage.getItem s' key' = LocalStorage.getItem s key').
Proof.
  unfold LocalStorage.removeItem, LocalStorage.getItem.
  destruct (LocalStorage.denied s) eqn:Hd; [discriminate|]. intros [= <-]. cbn.
  rewrite lookup_without_same. split; [reflexivity|].
  intros Hne. by rewrite lookup_without_other.
Qed.

Lemma getItem_setItem_other s key value s' key' :
  LocalStorage.setItem s key value = LocalStorage.Returns s' ->
  key <> key' -> LocalStorage.getItem s' key' = LocalStorage.getItem s key'.
Proof.
  unfold LocalStorage.setItem, LocalStorage.getItem.
  destruct (LocalStorage.denied s) eqn:Hd; [discriminate|].
  destruct (LocalStorage.full s); [discriminate|]. intros [= <-] Hne. cbn.
  destruct (str_eqb key key') eqn:E; [apply str_eqb_eq in E; done|].
  by rewrite lookup_without_other.
Qed.

(** Each save writes under its own key only. *)
Lemma saveToStorage_other s data range key' :
  Storage.STORAGE_KEY <> key' ->
  LocalStorage.getItem (Storage.saveToStorage JSON_stringify toISOString s data range) key'
  = LocalStorage.getItem s key'.
Proof.
  intros Hne. unfold Storage.saveToStorage. destruct data as [data|].
  - destruct (Storage.payloadOf _ _ _); [|reflexivity].
    destruct (LocalStorage.setItem _ _ _) as [|s'] eqn:E; [reflexivity|].
    by eapply getItem_setItem_other.
  - destruct (LocalStorage.removeItem _ _) as [|s'] eqn:E; [reflexivity|].
    apply (getItem_removeItem _ _ _ key') in E as [_ E]. by apply E.
Qed.

Lemma savePrivacyMode_other s enabled key' :
  Privacy.STORAGE_KEY_PRIVACY <> key' ->
  LocalStorage.getItem (Privacy.savePrivacyMode s enabled) key' = LocalStorage.getItem s key'.
Proof.
  intros Hne. unfold Privacy.savePrivacyMode.
  destruct (LocalStorage.setItem _ _ _) as [|s'] eqn:E; [reflexivity|].
  by eapply getItem_setItem_other.
Qed.

Lemma saveCustomCategories_other s cs key' :
  Storage.STORAGE_KEY_CUSTOM_CATEGORIES <> key' ->
  LocalStorage.getItem (Storage.saveCustomCategories JSON_stringify s cs) key'
  = LocalStorage.getItem s key'.
Proof.
  intros Hne. unfold Storage.saveCustomCategories.
  destruct (LocalStorage.setItem _ _ _) as [|s'] eqn:E; [reflexivity|].
  by eapply getItem_setItem_other.
Qed.

Lemma cleared s range :
  Storage.loadFromStorage JSON_parse Date_of
    (Storage.reads (Storage.saveToStorage JSON_stringify toISOString s None range))
  = None.
Proof.
  unfold Storage.saveToStorage, Storage.loadFromStorage, Storage.reads.
  destruct (LocalStorage.removeItem s Storage.STORAGE_KEY) as [|s'] eqn:E.
  - unfold LocalStorage.removeItem in E. unfold LocalStorage.getItem.
    destruct (LocalStorage.denied s); [reflexivity|discriminate].
  - apply (getItem_removeItem _ _ _ Storage.STORAGE_KEY) in E as [-> _]. reflexivity.
Qed.
End SavingFacts.

(** X17.  After the data is cleared, which saves null, nothing is restored,
    whatever the store held and whether or not it can be reached. *)
Theorem clear_then_load
        (JSON_parse : JSString -> option Storage.JSON)
        (JSON_stringify : Storage.JSON -> JSString)
        (Date_of : option Storage.JSON -> Date) (toISOString : Z -> JSString)
        (s : LocalStorage.t) (selectedRange : option DateRange) :
  Storage.loadFromStorage JSON_parse Date_of
    (Storage.reads (Storage.saveToStorage JSON_stringify toISOString s None selectedRange))
  = None.
Proof. apply cleared. Qed.

(** X18.  The three things stored live under three different keys and do
    not disturb one another: saving the privacy flag or the custom
    categories leaves what [loadFromStorage] restores as it was, and saving
    or clearing the data leaves the privacy flag and the custom categories
    as they were. *)
Theorem stored_items_independent
        (JSON_parse : JSString -> option Storage.JSON)
        (JSON_stringify : Storage.JSON -> JSString)
        (Date_of : option Storage.JSON -> Date) (toISOString : Z -> JSString)
        (s : LocalStorage.t) (enabled : bool) (categories : list JSString)
        (data : option ParsedData) (selectedRange : option DateRange) :
  let load s := Storage.loadFromStorage JSON_parse Date_of (Storage.reads s) in
  let saved := Storage.saveToStorage JSON_stringify toISOString s data selectedRange in
  load (Privacy.savePrivacyMode s enabled) = load s
  /\ load (Storage.saveCustomCategories JSON_stringify s categories) = load s
  /\ Privacy.loadPrivacyMode saved = Privacy.loadPrivacyMode s
  /\ Storage.loadCustomCategories JSON_parse saved = Storage.loadCustomCategories JSON_parse s
  /\ Privacy.loadPrivacyMode (Storage.saveCustomCategories JSON_stringify s categories)
     = Privacy.loadPrivacyMode s
  /\ Storage.loadCustomCategories JSON_parse (Privacy.savePrivacyMode s enabled)
     = Storage.loadCustomCategories JSON_parse s.
Proof.
  cbv zeta.
  assert (K1 : Privacy.STORAGE_KEY_PRIVACY <> Storage.STORAGE_KEY) by (vm_compute; discriminate).
  assert (K2 : Storage.STORAGE_KEY_CUSTOM_CATEGORIES <> Storage.STORAGE_KEY)
    by (vm_compute; discriminate).
  assert (K3 : Storage.STORAGE_KEY <> Privacy.STORAGE_KEY_PRIVACY) by (vm_compute; discriminate).
  assert (K4 : Storage.STORAGE_KEY <> Storage.STORAGE_KEY_CUSTOM_CATEGORIES)
    by (vm_compute; discriminate).
  assert (K5 : Storage.STORAGE_KEY_CUSTOM_CATEGORIES <> Privacy.STORAGE_KEY_PRIVACY)
    by (vm_compute; discriminate).
  assert (K6 : Privacy.STORAGE_KEY_PRIVACY <> Storage.STORAGE_KEY_CUSTOM_CATEGORIES)
    by (vm_compute; discriminate).
  repeat split.
  - apply loadFromStorage_reads. unfold Storage.reads.
    rewrite (savePrivacyMode_other s enabled _ K1). reflexivity.
  - apply loadFromStorage_reads. unfold Storage.reads.
    rewrite (saveCustomCategories_other JSON_stringify s categories _ K2). reflexivity.
  - unfold Privacy.loadPrivacyMode.
    rewrite (saveToStorage_other JSON_stringify toISOString s data selectedRange _ K3).
    reflexivity.
  - unfold Storage.loadCustomCategories.
    rewrite (saveToStorage_other JSON_stringify toISOString s data selectedRange _ K4).
    reflexivity.
  - unfold Privacy.loadPrivacyMode.
    rewrite (saveCustomCategories_other JSON_stringify s categories _ K5). reflexivity.
  - unfold Storage.loadCustomCategories.
    rewrite (savePrivacyMode_other s enabled _ K6). reflexivity.
Qed.

(** ** What is restored *)

Lemma getProp_setProp_same o k v : getProp (Storage.setProp o k v) k = Some v.
Proof.
  induction o as [|[k' v'] o IH]; cbn; [by rewrite str_eqb_refl|].
  destruct (str_eqb k' k) eqn:E; cbn; [by rewrite str_eqb_refl|].
  by rewrite E.
Qed.

Lemma getProp_setProp_other o k v q :
  k <> q -> getProp (Storage.setProp o k v) q = getProp o q.
Proof.
  intros Hne.
  assert (Hkq : str_eqb k q = false).
  { destruct (str_eqb k q) eqn:E; [apply str_eqb_eq in E; done|reflexivity]. }
  induction o as [|[k' v'] o IH]; cbn; [by rewrite Hkq|].
  destruct (str_eqb k' k) eqn:E; cbn.
  - apply str_eqb_eq in E. subst k'. by rewrite Hkq.
  - by rewrite IH.
Qed.

Lemma getProp_spread_object fields q :
  getProp (Storage.spread (Storage.JObject fields)) q
  = Storage.VJSON <$> Storage.lookup_field fields q.
Proof.
  cbn [Storage.spread]. induction fields as [|[k v] fields IH]; [reflexivity|].
  cbn. destruct (str_eqb k q); [reflexivity|exact IH].
Qed.

Lemma mapThrowing_Forall2 {A B} (f : A -> option B) (a : list A) (b : list B) :
  Storage.mapThrowing f a = Some b <-> Forall2 (fun x y => f x = Some y) a b.
Proof.
  revert b. induction a as [|x a IH]; intros b; cbn.
  - split; [intros [= <-]; constructor|by inversion 1].
  - split.
    + destruct (f x) as [y|] eqn:E; [|discriminate].
      destruct (Storage.mapThrowing f a) as [ys|] eqn:E'; [|discriminate].
      intros [= <-]. constructor; [done|]. by apply IH.
    + inversion 1 as [|? y ? ys Hy Hys]; subst. rewrite Hy.
      apply IH in Hys. by rewrite Hys.
Qed.

Section Restored.
Variable JSON_parse : JSString -> option Storage.JSON.
Variable Date_of : option Storage.JSON -> Date.

Lemma loadFromStorage_restores getItem r :
  Storage.loadFromStorage JSON_parse Date_of getItem = Some r ->
  exists raw parsed items,
    getItem Storage.STORAGE_KEY = Storage.ReadString raw
    /\ JSON_parse raw = Some parsed
    /\ Storage.prop parsed (utf16 "transactions") = Some (Storage.JArray items)
    /\ Forall2 (fun t o => Storage.restore Date_of t = Some o)
               items (Storage.transactions (Storage.data r))
    /\ Storage.dateRange (Storage.data r)
       = {| from := Date_of (Storage.optProp (Storage.prop parsed (utf16 "dateRange"))
                               (utf16 "from"));
            to := Date_of (Storage.optProp (Storage.prop parsed (utf16 "dateRange"))
                             (utf16 "to")) |}.
Proof.
  unfold Storage.loadFromStorage.
  destruct (getItem Storage.STORAGE_KEY) as [| |[|c raw]] eqn:Hg; try discriminate.
  destruct (JSON_parse (c :: raw)) as [parsed|] eqn:Hp; [|discriminate].
  destruct (negb _ || negb _); [discriminate|].
  destruct (Storage.prop parsed (utf16 "transactions")) as [[| | | |items|]|] eqn:Ht;
    try discriminate.
  destruct (Storage.mapThrowing _ items) as [transactions|] eqn:Em; [|discriminate].
  intros [= <-]. exists (c :: raw), parsed, items.
  cbn [Storage.data Storage.transactions Storage.dateRange].
  split; [reflexivity|]. split; [exact Hp|]. split; [exact Ht|].
  split; [by apply mapThrowing_Forall2|].
  by destruct parsed.
Qed.

Lemma restore_props t o :
  Storage.restore Date_of t = Some o ->
  getProp o (utf16 "date") = Some (Storage.VDate (Date_of (Storage.prop t (utf16 "date"))))
  /\ getProp o (utf16 "internal")
     = Some (Storage.VJSON (Storage.JBool (Storage.truthy (Storage.prop t (utf16 "internal")))))
  /\ forall q, q <> utf16 "date" -> q <> utf16 "internal" ->
               getProp o q = getProp (Storage.spread t) q.
Proof.
  assert (K : utf16 "internal" <> utf16 "date") by (vm_compute; discriminate).
  intros H.
  assert (E : o = Storage.setProp
                    (Storage.setProp (Storage.spread t) (utf16 "date")
                       (Storage.VDate (Date_of (Storage.prop t (utf16 "date")))))
                    (utf16 "internal")
                    (Storage.VJSON (Storage.JBool
                                      (Storage.truthy (Storage.prop t (utf16 "internal")))))).
  { destruct t; cbn [Storage.restore] in H; try discriminate; by injection H as <-. }
  rewrite E. split; [|split].
  - rewrite (getProp_setProp_other _ _ _ _ K). apply getProp_setProp_same.
  - apply getProp_setProp_same.
  - intros q Hd Hi. rewrite getProp_setProp_other by done.
    by rewrite getProp_setProp_other.
Qed.
End Restored.

(** X19.  What is restored is what was stored, item by item: the stored
    text parses to a value whose [transactions] is an array, the list
    restored has the length of that array, and the transaction at each
    position comes from the item at that position: its [date] is the [Date]
    built from the item's [date], its [internal] the boolean that tells
    whether the item's [internal] is truthy, and every other property is
    the item's own.  The date range restored is built from the stored
    [dateRange]. *)
Theorem loadFromStorage_restored_shape
        (JSON_parse : JSString -> option Storage.JSON)
        (Date_of : option Storage.JSON -> Date)
        (getItem : JSString -> Storage.Read) (r : Storage.LoadFromStorageResult) :
  Storage.loadFromStorage JSON_parse Date_of getItem = Some r ->
  exists raw parsed items,
    getItem Storage.STORAGE_KEY = Storage.ReadString raw
    /\ JSON_parse raw = Some parsed
    /\ Storage.prop parsed (utf16 "transactions") = Some (Storage.JArray items)
    /\ length (Storage.transactions (Storage.data r)) = length items
    /\ (forall i t,
          items !! i = Some t ->
          exists o,
            Storage.transactions (Storage.data r) !! i = Some o
            /\ getProp o (utf16 "date")
               = Some (Storage.VDate (Date_of (Storage.prop t (utf16 "date"))))
            /\ getProp o (utf16 "internal")
               = Some (Storage.VJSON
                         (Storage.JBool (Storage.truthy (Storage.prop t (utf16 "internal")))))
            /\ (forall q, q <> utf16 "date" -> q <> utf16 "internal" ->
                          getProp o q = getProp (Storage.spread t) q)
            /\ (forall fields q,
                  t = Storage.JObject fields ->
                  q <> utf16 "date" -> q <> utf16 "internal" ->
                  getProp o q = Storage.VJSON <$> Storage.lookup_field fields q))
    /\ Storage.dateRange (Storage.data r)
       = {| from := Date_of (Storage.optProp (Storage.prop parsed (utf16 "dateRange"))
                               (utf16 "from"));
            to := Date_of (Storage.optProp (Storage.prop parsed (utf16 "dateRange"))
                             (utf16 "to")) |}.
Proof.
  intros H.
  apply loadFromStorage_restores in H as (raw & parsed & items & Hg & Hp & Ht & Hr & Hd).
  exists raw, parsed, items. repeat (split; [done|]).
  split; [symmetry; by eapply Forall2_length|]. split; [|exact Hd].
  intros i t Hi.
  destruct (Forall2_lookup_l _ _ _ _ _ Hr Hi) as (o & Ho & Hto).
  exists o. split; [exact Ho|].
  destruct (restore_props Date_of t o Hto) as (H1 & H2 & H3).
  split; [exact H1|]. split; [exact H2|]. split; [exact H3|].
  intros fields q -> Hq1 Hq2. rewrite (H3 q Hq1 Hq2). apply getProp_spread_object.
Qed.

Lemma loadFromStorage_restored_shape_witness :
  exists r raw parsed items,
    Storage.loadFromStorage Reference.parseJSON Reference.dateOfValue
      (Reference.storeHolding Reference.storedPayload) = Some r
    /\ Reference.storeHolding Reference.storedPayload Storage.STORAGE_KEY
       = Storage.ReadString raw
    /\ Reference.parseJSON raw = Some parsed
    /\ Storage.prop parsed (utf16 "transactions") = Some (Storage.JArray items)
    /\ length (Storage.transactions (Storage.data r)) = length items.
Proof.
  assert (H : exists r,
             Storage.loadFromStorage Reference.parseJSON Reference.dateOfValue
               (Reference.storeHolding Reference.storedPayload) = Some r)
    by (eexists; vm_compute; reflexivity).
  destruct H as [r H].
  destruct (loadFromStorage_restored_shape Reference.parseJSON Reference.dateOfValue
              (Reference.storeHolding Reference.storedPayload) r H)
    as (raw & parsed & items & Hg & Hp & Ht & Hl & _).
  exists r, raw, parsed, items. auto.
Defined.

(** ** Saving, then loading *)

Lemma lengthsTruthy_spec fuel p q :
  lengthsTruthy fuel p = true ->
  (Z.pos p <= Z.pos q < Z.pos p + Z.of_nat fuel)%Z ->
  Storage.truthy
    (Some (Storage.JNumber (SF2Prim (binary_normalize prec emax (Z.pos q) 0 false)))) = true.
Proof.
  revert p. induction fuel as [|fuel IH]; intros p H Hq; [lia|].
  cbn [lengthsTruthy] in H. apply andb_true_iff in H as [H0 H].
  destruct (Pos.eq_dec p q) as [->|Hne]; [exact H0|].
  apply (IH (Pos.succ p) H). lia.
Qed.

Lemma small_length_truthy n :
  (0 < Z.of_nat n <= 100000)%Z ->
  Storage.truthy (Some (Storage.JNumber (Storage.numberOfNat n))) = true.
Proof.
  intros Hn.
  assert (C : lengthsTruthy (Z.to_nat 100000) 1 = true) by (vm_compute; reflexivity).
  unfold Storage.numberOfNat.
  replace (Z.of_nat n) with (Z.pos (Z.to_pos (Z.of_nat n))) by lia.
  apply (lengthsTruthy_spec _ 1 _ C). lia.
Qed.

Section SaveLoad.
Variable JSON_parse : JSString -> option Storage.JSON.
Variable JSON_stringify : Storage.JSON -> JSString.
Variable Date_of : option Storage.JSON -> Date.
Variable toISOString : Z -> JSString.

Hypothesis empty_text : JSON_parse [] = None.
Hypothesis empty_date : Date_of (Some (Storage.JStr [])) = InvalidDate.

Lemma restore_fields vid vdate vamount vcurrency vcounterparty vdescription vcategory
      vsymbol vnote voperation vinternal :
  Storage.restore Date_of
    (Storage.JObject
       [ (utf16 "id", vid); (utf16 "date", vdate); (utf16 "amount", vamount);
         (utf16 "currency", vcurrency); (utf16 "counterparty", vcounterparty);
         (utf16 "description", vdescription); (utf16 "category", vcategory);
         (utf16 "variableSymbol", vsymbol); (utf16 "note", vnote);
         (utf16 "operationType", voperation); (utf16 "internal", vinternal) ])
  = Some [ (utf16 "id", Storage.VJSON vid);
           (utf16 "date", Storage.VDate (Date_of (Some vdate)));
           (utf16 "amount", Storage.VJSON vamount);
           (utf16 "currency", Storage.VJSON vcurrency);
           (utf16 "counterparty", Storage.VJSON vcounterparty);
           (utf16 "description", Storage.VJSON vdescription);
           (utf16 "category", Storage.VJSON vcategory);
           (utf16 "variableSymbol", Storage.VJSON vsymbol);
           (utf16 "note", Storage.VJSON vnote);
           (utf16 "operationType", Storage.VJSON voperation);
           (utf16 "internal",
            Storage.VJSON (Storage.JBool (Storage.truthy (Some vinternal)))) ].
Proof. vm_compute. reflexivity. Qed.

Lemma restore_saved t :
  readsBack Date_of toISOString (Transaction.date t) ->
  exists j,
    Storage.transactionJSON toISOString t = Some j
    /\ Storage.restore Date_of j = Some (Storage.objectOf t).
Proof.
  intros (x & Hd & Hr). unfold Storage.transactionJSON. rewrite Hd. cbn [Storage.isoOf].
  eexists. split; [reflexivity|]. rewrite restore_fields, Hr.
  unfold Storage.objectOf. by rewrite Hd.
Qed.

Lemma saved_transactions txs :
  Forall (fun t => readsBack Date_of toISOString (Transaction.date t)) txs ->
  exists js,
    Storage.mapThrowing (Storage.transactionJSON toISOString) txs = Some js
    /\ Storage.mapThrowing (Storage.restore Date_of) js
       = Some (List.map Storage.objectOf txs)
    /\ length js = length txs.
Proof.
  induction 1 as [|t txs Ht _ (js & Hs & Hr & Hl)].
  - by exists [].
  - destruct (restore_saved t Ht) as (j & Hj & Hrj). exists (j :: js). cbn.
    by rewrite Hj, Hs, Hrj, Hr, Hl.
Qed.

Lemma iso_not_empty x :
  Date_of (Some (Storage.JStr (toISOString x))) = DateAt x ->
  Storage.truthy (Some (Storage.JStr (toISOString x))) = true.
Proof.
  intros H. destruct (toISOString x); [congruence|reflexivity].
Qed.

Lemma saved_range r :
  readsBack Date_of toISOString (from r) -> readsBack Date_of toISOString (to r) ->
  exists j,
    Storage.rangeJSON toISOString r = Some j
    /\ Storage.truthy (Some j) = true
    /\ Storage.truthy (Storage.optProp (Some j) (utf16 "from")) = true
    /\ Storage.truthy (Storage.optProp (Some j) (utf16 "to")) = true
    /\ {| from := Date_of (Storage.optProp (Some j) (utf16 "from"));
          to := Date_of (Storage.optProp (Some j) (utf16 "to")) |} = r.
Proof.
  destruct r as [f t]. cbn [from to]. intros (a & -> & Ha) (b & -> & Hb).
  eexists. split; [reflexivity|].
  change (Storage.optProp _ (utf16 "from")) with (Some (Storage.JStr (toISOString a))).
  change (Storage.optProp _ (utf16 "to")) with (Some (Storage.JStr (toISOString b))).
  rewrite Ha, Hb. by rewrite !iso_not_empty.
Qed.

Lemma loadFromStorage_of_payload getItem raw b r ts sl :
  getItem Storage.STORAGE_KEY = Storage.ReadString raw ->
  JSON_parse raw
  = Some (Storage.JObject
            [ (utf16 "bankName", b); (utf16 "dateRange", r);
              (utf16 "transactions", Storage.JArray ts);
              (utf16 "selectedRange", sl) ]) ->
  Storage.truthy (Some (Storage.JNumber (Storage.numberOfNat (length ts)))) = true ->
  Storage.truthy (Some r) = true ->
  Storage.loadFromStorage JSON_parse Date_of getItem
  = match Storage.mapThrowing (Storage.restore Date_of) ts with
    | None => None
    | Some transactions =>
        let dateRange :=
          {| from := Date_of (Storage.optProp (Some r) (utf16 "from"));
             to := Date_of (Storage.optProp (Some r) (utf16 "to")) |} in
        Some {| Storage.data :=
                  {| Storage.bankName :=
                       if Storage.truthy (Some b) then b
                       else Storage.JStr (utf16 "Saved data");
                     Storage.transactions := transactions;
                     Storage.dateRange := dateRange |};
                Storage.selectedRange :=
                  if Storage.truthy (Storage.optProp (Some sl) (utf16 "from"))
                     && Storage.truthy (Storage.optProp (Some sl) (utf16 "to"))
                  then {| from := Date_of (Storage.optProp (Some sl) (utf16 "from"));
                          to := Date_of (Storage.optProp (Some sl) (utf16 "to")) |}
                  else dateRange |}
    end.
Proof.
  intros Hg Hp Hn Hr. unfold Storage.loadFromStorage. rewrite Hg.
  destruct raw as [|c raw]; [congruence|]. rewrite Hp.
  set (parsed := Storage.JObject _).
  change (Storage.optProp (Some parsed) (utf16 "transactions"))
    with (Some (Storage.JArray ts)).
  change (Storage.optProp (Some parsed) (utf16 "dateRange")) with (Some r).
  change (Storage.prop parsed (utf16 "transactions")) with (Some (Storage.JArray ts)).
  change (Storage.prop parsed (utf16 "selectedRange")) with (Some sl).
  change (Storage.prop parsed (utf16 "bankName")) with (Some b).
  cbn [Storage.optLength]. rewrite Hn, Hr. cbn [negb orb default].
  reflexivity.
Qed.

Lemma save_then_load_holds s data selectedRange :
  LocalStorage.denied s = false ->
  LocalStorage.full s = false ->
  (0 < Z.of_nat (length (transactions data)) <= 100000)%Z ->
  Forall (readsBack Date_of toISOString) (datesOf data selectedRange) ->
  (forall payload,
     Storage.payloadOf toISOString data selectedRange = Some payload ->
     JSON_parse (JSON_stringify payload) = Some payload) ->
  Storage.loadFromStorage JSON_parse Date_of
    (Storage.reads
       (Storage.saveToStorage JSON_stringify toISOString s (Some data) selectedRange))
  = Some (restoredFrom data selectedRange).
Proof.
  intros Hd Hf Hlen Hdates Hrt. destruct data as [name txs range].
  unfold datesOf in Hdates. cbn [transactions dateRange] in *.
  apply Forall_cons in Hdates as [Hfrom Hdates].
  apply Forall_cons in Hdates as [Hto Hdates].
  apply Forall_app in Hdates as [Htxs Hsel].
  apply (proj1 (List.Forall_map Transaction.date (readsBack Date_of toISOString) txs)) in Htxs.
  destruct (saved_range range Hfrom Hto) as (jr & Hjr & Tr & _ & _ & Er).
  destruct (saved_transactions txs Htxs) as (js & Hjs & Hrs & Hl).
  assert (Hs : exists sl,
             match selectedRange with
             | Some r => Storage.rangeJSON toISOString r
             | None => Some Storage.JNull
             end = Some sl
             /\ (if Storage.truthy (Storage.optProp (Some sl) (utf16 "from"))
                    && Storage.truthy (Storage.optProp (Some sl) (utf16 "to"))
                 then {| from := Date_of (Storage.optProp (Some sl) (utf16 "from"));
                         to := Date_of (Storage.optProp (Some sl) (utf16 "to")) |}
                 else range) = default range selectedRange).
  { destruct selectedRange as [r|]; [|by exists Storage.JNull].
    apply Forall_cons in Hsel as [Ha Hsel]. apply Forall_cons in Hsel as [Hb _].
    destruct (saved_range r Ha Hb) as (j & Hj & _ & Tf & Tt & E).
    exists j. split; [exact Hj|]. by rewrite Tf, Tt, E. }
  destruct Hs as (sl & Hsl & Esl).
  assert (Hp : Storage.payloadOf toISOString (Build_ParsedData name txs range) selectedRange
               = Some (Storage.JObject
                         [ (utf16 "bankName", Storage.JStr name);
                           (utf16 "dateRange", jr);
                           (utf16 "transactions", Storage.JArray js);
                           (utf16 "selectedRange", sl) ])).
  { unfold Storage.payloadOf. by rewrite Hjr, Hjs, Hsl. }
  specialize (Hrt _ Hp).
  unfold Storage.saveToStorage. rewrite Hp.
  destruct (getItem_setItem s Storage.STORAGE_KEY (JSON_stringify (Storage.JObject
              [ (utf16 "bankName", Storage.JStr name); (utf16 "dateRange", jr);
                (utf16 "transactions", Storage.JArray js); (utf16 "selectedRange", sl) ]))
              Storage.STORAGE_KEY Hd Hf) as (s' & Hset & Hget & _).
  rewrite Hset.
  assert (Hread : Storage.reads s' Storage.STORAGE_KEY = Storage.ReadString
            (JSON_stringify (Storage.JObject
              [ (utf16 "bankName", Storage.JStr name); (utf16 "dateRange", jr);
                (utf16 "transactions", Storage.JArray js); (utf16 "selectedRange", sl) ]))).
  { unfold Storage.reads. by rewrite Hget. }
  rewrite (loadFromStorage_of_payload _ _ _ _ _ _ Hread Hrt);
    [|rewrite Hl; by apply small_length_truthy|exact Tr].
  rewrite Hrs. cbn zeta. rewrite Er, Esl. unfold restoredFrom.
  cbn [bankName transactions dateRange]. by destruct name.
Qed.
End SaveLoad.

(** X20.  What is saved is what is loaded: when the store takes the
    write, the text written parses back to the payload, and every date of
    the data and of the selected range reads back from its ISO text, then
    loading after saving returns the same transactions (each as the object it
    is at run time), the same date range, the selected range, or the date
    range where none was selected, and the bank name, or [Saved data] where
    it was empty.  The length bound is that up to which the truthiness of the
    length has been computed. *)
Theorem save_then_load
        (JSON_parse : JSString -> option Storage.JSON)
        (JSON_stringify : Storage.JSON -> JSString)
        (Date_of : option Storage.JSON -> Date)
        (toISOString : Z -> JSString)
        (s : LocalStorage.t) (data : ParsedData) (selectedRange : option DateRange) :
  JSON_parse [] = None ->
  Date_of (Some (Storage.JStr [])) = InvalidDate ->
  LocalStorage.denied s = false ->
  LocalStorage.full s = false ->
  (0 < Z.of_nat (length (transactions data)) <= 100000)%Z ->
  Forall (readsBack Date_of toISOString) (datesOf data selectedRange) ->
  (forall payload,
     Storage.payloadOf toISOString data selectedRange = Some payload ->
     JSON_parse (JSON_stringify payload) = Some payload) ->
  Storage.loadFromStorage JSON_parse Date_of
    (Storage.reads
       (Storage.saveToStorage JSON_stringify toISOString s (Some data) selectedRange))
  = Some (restoredFrom data selectedRange).
Proof.
  intros He Hi. by apply save_then_load_holds.
Qed.

Lemma save_then_load_witness :
  Storage.loadFromStorage Reference.parseJSON Reference.dateOfValue
    (Storage.reads
       (Storage.saveToStorage Reference.stringify Reference.isoText Reference.emptyStore
          (Some Reference.parsedSample) None))
  = Some (restoredFrom Reference.parsedSample None).
Proof.
  apply (save_then_load Reference.parseJSON Reference.stringify Reference.dateOfValue
           Reference.isoText Reference.emptyStore Reference.parsedSample None).
  - vm_compute. reflexivity.
  - vm_compute. reflexivity.
  - reflexivity.
  - reflexivity.
  - vm_compute. split; [reflexivity|discriminate].
  - assert (E : exists ds, datesOf Reference.parsedSample None = ds
                           /\ forallb (fun d => match d with
                                                | DateAt x =>
                                                    match Reference.dateOfValue
                                                            (Some (Storage.JStr
                                                                     (Reference.isoText x)))
                                                    with
                                                    | DateAt y => (x =? y)%Z
                                                    | InvalidDate => false
                                                    end
                                                | InvalidDate => false
                                                end) ds = true)
      by (eexists; split; [vm_compute; reflexivity|vm_compute; reflexivity]).
    destruct E as (ds & -> & E). apply List.Forall_forall. intros d Hd.
    rewrite forallb_forall in E. specialize (E d Hd).
    destruct d as [|x]; [discriminate|]. exists x. split; [reflexivity|].
    destruct (Reference.dateOfValue _) as [|y]; [discriminate|].
    apply Z.eqb_eq in E. by subst.
  - intros payload Hp.
    assert (E : exists p,
               Storage.payloadOf Reference.isoText Reference.parsedSample None = Some p
               /\ Reference.parseJSON (Reference.stringify p) = Some p)
      by (eexists; split; [vm_compute; reflexivity|vm_compute; reflexivity]).
    destruct E as (p & Hp' & E). congruence.
Defined.

(** ** The state updates of the application *)

Lemma filter_all {A} (f : A -> bool) (l : list A) :
  Forall (fun x => f x = true) l -> List.filter f l = l.
Proof.
  induction 1 as [|x l Hx _ IH]; [reflexivity|]. cbn. by rewrite Hx, IH.
Qed.

Lemma parsed_row (L : Libs) (clock : nat -> nat -> Z) (fileContent : JSString)
      (pd : ParsedData) i t :
  parseCSV L clock fileContent = Return pd ->
  transactions pd !! i = Some t ->
  Transaction.id t = i /\ Transaction.internal t = false.
Proof.
  intros H Hi. rewrite (parseCSV_Return_kept L clock fileContent pd H) in Hi.
  rewrite list_lookup_imap in Hi.
  destruct (_ !! i) as [t'|] eqn:Ht'; [|discriminate]. injection Hi as <-.
  split; [reflexivity|].
  apply list_elem_of_lookup_2 in Ht'. rewrite Array_sort_Permutation in Ht'.
  unfold formatOf in Ht'.
  pose proof (keptRecords_wellFormed L (sliceTo 10 (linesOf fileContent)) clock
                (Papa.data (parsedOf L fileContent))) as Hk.
  rewrite Forall_forall in Hk. exact (proj1 (Hk t' Ht')).
Qed.

Lemma map_at_id {V} (g : @Transaction V -> @Transaction V) (l : list (@Transaction V)) k :
  (forall i t, l !! i = Some t -> Transaction.id t = i) ->
  List.map (fun t => if (Transaction.id t =? k)%nat then g t else t) l
  = match l !! k with
    | Some t => <[k := g t]> l
    | None => l
    end.
Proof.
  intros Hn. apply list_eq. intros i.
  change (List.map ?f l) with (f <$> l). rewrite list_lookup_fmap.
  destruct (l !! k) as [t|] eqn:Hk.
  - destruct (decide (i = k)) as [->|Hne].
    + rewrite list_lookup_insert_eq by (by eapply lookup_lt_Some).
      rewrite Hk. cbn. by rewrite (Hn k t Hk), Nat.eqb_refl.
    + rewrite list_lookup_insert_ne by done.
      destruct (l !! i) as [u|] eqn:Hi; [|reflexivity]. cbn.
      rewrite (Hn i u Hi). by apply Nat.eqb_neq in Hne as ->.
  - destruct (l !! i) as [u|] eqn:Hi; [|reflexivity]. cbn.
    rewrite (Hn i u Hi).
    destruct (Nat.eqb_spec i k) as [->|_]; [congruence|reflexivity].
Qed.

Lemma filter_insert_hidden {A} (f : A -> bool) (l : list A) k x :
  f x = false -> Forall (fun y => f y = true) l ->
  List.filter f (<[k := x]> l) = delete k l.
Proof.
  intros Hx Hl. revert k. induction Hl as [|y l Hy Hl IH]; intros k; [reflexivity|].
  destruct k as [|k]; cbn.
  - rewrite Hx. by apply filter_all.
  - rewrite Hy. f_equal. apply IH.
Qed.

Lemma toggleInternal_twice {V} (t : @Transaction V) :
  App.toggleInternal (App.toggleInternal t) = t.
Proof. destruct t. unfold App.toggleInternal. cbn. by rewrite negb_involutive. Qed.


(** X21.  An upload is all or nothing.  When the file parses, the data set
    is the result, no error is shown, and with the range selected by default
    every transaction of the file is in view; when it does not, no data and
    no range are kept and the error shown is the message thrown.  Loading is
    over in both cases. *)
Theorem handleFileLoaded_all_or_nothing (L : Libs) (clock : nat -> nat -> Z)
        (content : JSString) :
  let st := App.handleFileLoaded L clock content in
  App.loading st = false
  /\ match parseCSV L clock content with
     | Return pd =>
         App.data st = Some pd
         /\ App.error st = None
         /\ App.filteredTransactionsOriginal (App.data st) (App.selectedRange st)
            = transactions pd
     | Throw message =>
         App.data st = None
         /\ App.selectedRange st = None
         /\ App.error st = Some message
         /\ App.filteredTransactionsOriginal (App.data st) (App.selectedRange st) = []
     end.
Proof.
  cbv zeta. unfold App.handleFileLoaded.
  destruct (parseCSV L clock content) as [pd|message] eqn:H; [|by cbn].
  cbn [App.loading App.data App.error App.selectedRange].
  split; [reflexivity|]. split; [by destruct pd|]. split; [reflexivity|].
  unfold App.filteredTransactionsOriginal. cbn [transactions from to].
  pose proof (successful_parse_order L clock content pd H) as Ho.
  apply parseCSV_Return in H as (kept & oldest & newest & rest & _ & _ & _ & Hc & Hl & Hr).
  rewrite Hr. cbn [from to]. apply filter_all. apply Forall_forall. intros t Ht.
  apply list_elem_of_lookup in Ht as [i Hi].
  assert (H0 : transactions pd !! 0%nat = Some newest) by (by rewrite Hc).
  rewrite last_lookup in Hl.
  assert (Hi' : (i <= Nat.pred (length (transactions pd)))%nat).
  { apply lookup_lt_Some in Hi. lia. }
  destruct (Ho 0%nat i newest t ltac:(lia) H0 Hi) as (tn & tt & En & Et & Hle).
  destruct (Ho i _ t oldest Hi' Hi Hl) as (tt' & to' & Et' & Eo & Hle').
  rewrite Et in Et'. injection Et' as <-.
  unfold App.inRange. rewrite Et, En, Eo. cbn. lia.
Qed.

(** X22.  After a successful parse, changing the category of the
    transaction with id [k] changes the row at position [k] and nothing else:
    the other rows, the order, the bank name and the date range stay, and an
    id that no row has leaves the data as it is. *)
Theorem handleCategoryChange_one_row (L : Libs) (clock : nat -> nat -> Z)
        (content : JSString) (pd : ParsedData) (k : nat) (newCategory : JSString) :
  parseCSV L clock content = Return pd ->
  App.handleCategoryChange k newCategory (Some pd)
  = Some {| bankName := bankName pd;
            transactions :=
              match transactions pd !! k with
              | Some t => <[k := App.setCategory newCategory t]> (transactions pd)
              | None => transactions pd
              end;
            dateRange := dateRange pd |}.
Proof.
  intros H. unfold App.handleCategoryChange. do 2 f_equal.
  apply map_at_id. intros i t Hi. exact (proj1 (parsed_row L clock content pd i t H Hi)).
Qed.

Lemma handleCategoryChange_one_row_witness :
  exists pd,
    parseCSV Reference.libs Reference.ticking Reference.sampleExport = Return pd
    /\ App.handleCategoryChange 0 (utf16 "Potraviny") (Some pd)
       = Some {| bankName := bankName pd;
                 transactions :=
                   match transactions pd !! 0%nat with
                   | Some t =>
                       <[0%nat := App.setCategory (utf16 "Potraviny") t]> (transactions pd)
                   | None => transactions pd
                   end;
                 dateRange := dateRange pd |}.
Proof.
  assert (H : exists pd,
             parseCSV Reference.libs Reference.ticking Reference.sampleExport = Return pd)
    by (eexists; vm_compute; reflexivity).
  destruct H as (pd & H). exists pd. split; [exact H|].
  exact (handleCategoryChange_one_row Reference.libs Reference.ticking
           Reference.sampleExport pd 0 (utf16 "Potraviny") H).
Defined.

(** X23.  After a successful parse, marking the transaction with id [k] as
    internal takes exactly the row at position [k] out of the view of
    transactions that are not internal, and keeps the number of rows; marking
    it again gives the data back. *)
Theorem handleInternalToggle_hides_one_row (L : Libs) (clock : nat -> nat -> Z)
        (content : JSString) (pd : ParsedData) (k : nat) :
  parseCSV L clock content = Return pd ->
  (k < length (transactions pd))%nat ->
  exists pd',
    App.handleInternalToggle k (Some pd) = Some pd'
    /\ length (transactions pd') = length (transactions pd)
    /\ App.nonInternal (transactions pd') = delete k (transactions pd)
    /\ App.nonInternal (transactions pd) = transactions pd
    /\ App.handleInternalToggle k (Some pd') = Some pd.
Proof.
  intros H Hk. eexists. split; [reflexivity|]. cbn [transactions].
  split; [apply length_map|].
  assert (Hn : forall i t, transactions pd !! i = Some t -> Transaction.id t = i).
  { intros i t Hi. exact (proj1 (parsed_row L clock content pd i t H Hi)). }
  assert (Hv : Forall (fun t => negb (Transaction.internal t) = true) (transactions pd)).
  { apply Forall_forall. intros t Ht. apply list_elem_of_lookup in Ht as [i Hi].
    by rewrite (proj2 (parsed_row L clock content pd i t H Hi)). }
  split; [|split].
  - rewrite (map_at_id App.toggleInternal _ k Hn).
    destruct (lookup_lt_is_Some_2 _ _ Hk) as [t Ht]. rewrite Ht.
    unfold App.nonInternal. apply filter_insert_hidden; [|exact Hv].
    cbn. rewrite Forall_forall in Hv.
    by rewrite (Hv t (list_elem_of_lookup_2 _ _ _ Ht)).
  - by apply filter_all.
  - unfold App.handleInternalToggle. cbn [bankName transactions dateRange].
    destruct pd as [name txs range]. cbn [bankName transactions dateRange]. do 2 f_equal.
    rewrite List.map_map. rewrite <- (List.map_id txs) at 2.
    apply List.map_ext. intros t.
    destruct (Nat.eqb_spec (Transaction.id t) k) as [E|E].
    + change (Transaction.id (App.toggleInternal t)) with (Transaction.id t).
      apply Nat.eqb_eq in E as ->. apply toggleInternal_twice.
    + by apply Nat.eqb_neq in E as ->.
Qed.

Lemma handleInternalToggle_hides_one_row_witness :
  exists pd pd',
    parseCSV Reference.libs Reference.ticking Reference.sampleExport = Return pd
    /\ App.handleInternalToggle 0 (Some pd) = Some pd'
    /\ App.nonInternal (transactions pd') = delete 0%nat (transactions pd).
Proof.
  assert (H : exists pd,
             parseCSV Reference.libs Reference.ticking Reference.sampleExport = Return pd
             /\ (0 <? length (transactions pd))%nat = true)
    by (eexists; split; [vm_compute; reflexivity|vm_compute; reflexivity]).
  destruct H as (pd & H & Hk). apply Nat.ltb_lt in Hk.
  destruct (handleInternalToggle_hides_one_row Reference.libs Reference.ticking
              Reference.sampleExport pd 0 H Hk) as (pd' & H1 & _ & H2 & _).
  exists pd, pd'. auto.
Defined.


